(** * Stock ledger and order life cycle: a shallow embedding

    The development embeds the write path of [inventory_manager.py]
    ([InventoryManagerV6]), the order transitions of [order_manager.py]
    ([OrderManagerV6]), the reminder selection of [remainder_system.py]
    ([ReminderSystem]) and the parts of [db.py] ([DatabaseV6]) they call.

    Conventions of the embedding.
    - Python floats are exact rationals ([Q]); [==] is equality of rationals.
      Rounding, NaN and infinities are outside the model.
    - Coroutines are computations in a state-and-exception monad [M]; the
      state holds the Mongo collections, the lock registry, the clock and the
      messages handed to the gateway.  Effects performed before an exception
      is raised persist, as in Python.
    - [asyncio.gather] over a list of coroutines runs them one after another
      in list order.
    - What the Motor driver and the messaging gateway do (classes that are
      not part of the repository) is a parameter kept in the state
      ([Driver]): an [update_one] may be applied, be acknowledged without
      being applied, or raise.  Reads return what the collections hold. *)

From Stdlib Require Import QArith Qabs Lqa ZArith Lia String List Bool Sorted.
From stdpp Require Import gmap strings list fin_maps.

Set Implicit Arguments.
Local Open Scope string_scope.
Local Open Scope list_scope.

(** ** Exceptions and the coroutine monad *)

Inductive PyExc : Type :=
| ValueError (msg : string)
| TypeError (msg : string)
| AttributeError (msg : string)
| RuntimeError (msg : string)
| DriverError (msg : string).

(** [str(e)] *)
Definition exc_str (e : PyExc) : string :=
  match e with
  | ValueError m | TypeError m | AttributeError m
  | RuntimeError m | DriverError m => m
  end.

Inductive Result (A : Type) : Type :=
| Ok (a : A)
| Raise (e : PyExc).
Arguments Ok {A} a.
Arguments Raise {A} e.

(** ** Data model *)

(** A product document of the [products] collection. *)
Record Product : Type := mkProduct {
  product_name : string;
  stock_qty : Q
}.

(** A document of the [stock_movements] collection
    ([_log_stock_movement]). *)
Record Movement : Type := mkMovement {
  mv_merchant_id : string;
  mv_product_id : string;
  mv_product_name : string;
  movement_type : string;
  mv_quantity_change : Q;
  old_stock : Q;
  new_stock : Q;
  mv_role : string;
  mv_timestamp : Z
}.

(** The value found under the key ["quantity"] of a line item: the key may
    be absent, hold [None], hold a number (or a [str] that [float()]
    accepts, modelled by its value), or hold a [str] that [float()]
    rejects. *)
Inductive QtyField : Type :=
| QtyAbsent
| QtyNone
| QtyNumber (q : Q)
| QtyText (s : string).

Record Item : Type := mkItem {
  item_product_id : string;
  item_product_name : option string;
  item_quantity : QtyField
}.

(** A timestamp field of an order: absent, an ISO string that
    [datetime.fromisoformat] parses (seconds since the epoch), or a string
    it rejects. *)
Inductive TimeField : Type :=
| TimeAbsent
| TimeAt (t : Z)
| TimeInvalid (s : string).

Record TimelineEntry : Type := mkTimelineEntry {
  tl_status : string;
  tl_timestamp : Z;
  tl_note : string;
  tl_actor : string
}.

Inductive FieldVal : Type :=
| VStr (s : string)
| VTime (t : Z)
| VNone.

Record Order : Type := mkOrder {
  o_order_id : string;
  o_merchant_id : string;
  customer_phone : string;
  items : list Item;
  status : string;
  inventory_deducted : bool;
  timeline : list TimelineEntry;
  created_at : TimeField;
  expiry_time : TimeField;
  sent_reminders : list Z;
  updated_at : Z;
  other_fields : list (string * FieldVal)
}.

Record Merchant : Type := mkMerchant {
  phone : option string
}.

(** [class OrderStatus(str, Enum)] *)
Module OrderStatus.
Definition PENDING := "pending".
Definition ACCEPTED := "accepted".
Definition DECLINED := "declined".
Definition COMPLETED := "completed".
Definition CANCELLED := "cancelled".
Definition EXPIRED := "expired".
Definition REVIEW := "review".
End OrderStatus.

(** ** The store and its driver *)

Inductive WriteMode : Type :=
| WriteApplied
| WriteLost
| WriteRaises.

Record Driver : Type := mkDriver {
  products_update_one : WriteMode;
  orders_update_one : WriteMode;
  (** whether [await] accepts the handle returned by
      [DatabaseV6.get_collection] *)
  handle_awaitable : bool;
  (** whether the gateway's [send_whatsapp_message] returns rather than
      raises; a call that returns is what [_send_reminder] takes for a
      send, whatever the gateway's answer says *)
  gateway_delivers : bool
}.

Inductive Message : Type :=
| ReminderMsg (to_phone : string) (about_order : string) (hours : Z).

Record State : Type := mkState {
  db_initialized : bool;
  products : gmap (string * string) Product;
  orders : gmap string Order;
  merchants : gmap string Merchant;
  stock_movements : list Movement;
  (** [InventoryManagerV6._locks]: the keys that have a lock *)
  locks : gset string;
  (** the lock keys acquired so far, latest first *)
  lock_acquisitions : list string;
  (** the messages handed to the gateway by calls that returned *)
  outbox : list Message;
  clock : Z;
  driver : Driver
}.

Definition M (A : Type) : Type := State -> Result A * State.

Definition ret {A} (a : A) : M A := fun s => (Ok a, s).
Definition raise {A} (e : PyExc) : M A := fun s => (Raise e, s).
Definition bind {A B} (m : M A) (k : A -> M B) : M B :=
  fun s => match m s with
           | (Ok a, s') => k a s'
           | (Raise e, s') => (Raise e, s')
           end.
(** [try: body except Exception as e: handler] *)
Definition try_except {A} (body : M A) (handler : PyExc -> M A) : M A :=
  fun s => match body s with
           | (Ok a, s') => (Ok a, s')
           | (Raise e, s') => handler e s'
           end.
Definition get_state : M State := fun s => (Ok s, s).
Definition modify (f : State -> State) : M unit := fun s => (Ok tt, f s).

Declare Scope py_scope.
Delimit Scope py_scope with py.
Notation "x <- m ;; k" := (bind m (fun x => k))
  (at level 20, m at level 99, k at level 200, only parsing) : py_scope.
Notation "' pat <- m ;; k" := (bind m (fun x => match x with pat => k end))
  (at level 20, pat pattern, m at level 99, k at level 200, only parsing) : py_scope.
Notation "m ;; k" := (bind m (fun _ => k))
  (at level 100, k at level 200, right associativity, only parsing) : py_scope.
Local Open Scope py_scope.

(** ** Numbers as Python compares them *)

Definition Qlt_bool (x y : Q) : bool := negb (Qle_bool y x).

(** [max(a, b)]: the first argument unless the second is greater. *)
Definition py_max (a b : Q) : Q := if Qlt_bool a b then b else a.

(** [float(item.get("quantity"))] once [None] has been excluded, and
    [float(item.get("quantity", 0))]. *)
Definition py_float (default : option Q) (f : QtyField) : Result Q :=
  match f with
  | QtyAbsent =>
      match default with
      | Some d => Ok d
      | None => Raise (TypeError "float() argument must be a string or a real number, not 'NoneType'")
      end
  | QtyNone => Raise (TypeError "float() argument must be a string or a real number, not 'NoneType'")
  | QtyNumber q => Ok q
  | QtyText s => Raise (ValueError ("could not convert string to float: " +:+ s))
  end.

Definition lift {A} (r : Result A) : M A := fun s => (r, s).

(** ** State updates *)

Definition set_products (f : gmap (string * string) Product -> gmap (string * string) Product)
    (s : State) : State :=
  mkState (db_initialized s) (f (products s)) (orders s) (merchants s)
          (stock_movements s) (locks s) (lock_acquisitions s) (outbox s)
          (clock s) (driver s).

Definition set_orders (f : gmap string Order -> gmap string Order) (s : State) : State :=
  mkState (db_initialized s) (products s) (f (orders s)) (merchants s)
          (stock_movements s) (locks s) (lock_acquisitions s) (outbox s)
          (clock s) (driver s).

Definition set_stock_movements (f : list Movement -> list Movement) (s : State) : State :=
  mkState (db_initialized s) (products s) (orders s) (merchants s)
          (f (stock_movements s)) (locks s) (lock_acquisitions s) (outbox s)
          (clock s) (driver s).

Definition set_locks (f : gset string -> gset string) (s : State) : State :=
  mkState (db_initialized s) (products s) (orders s) (merchants s)
          (stock_movements s) (f (locks s)) (lock_acquisitions s) (outbox s)
          (clock s) (driver s).

Definition set_lock_acquisitions (f : list string -> list string) (s : State) : State :=
  mkState (db_initialized s) (products s) (orders s) (merchants s)
          (stock_movements s) (locks s) (f (lock_acquisitions s)) (outbox s)
          (clock s) (driver s).

Definition set_outbox (f : list Message -> list Message) (s : State) : State :=
  mkState (db_initialized s) (products s) (orders s) (merchants s)
          (stock_movements s) (locks s) (lock_acquisitions s) (f (outbox s))
          (clock s) (driver s).

(** ** Update documents for orders *)

(** A Mongo update document, by the operators the callers use. *)
Inductive SetOp : Type :=
| SetStatus (s : string)
| SetInventoryDeducted (b : bool)
| SetExpiryTime (t : TimeField)
| SetOther (key : string) (v : FieldVal).

Record UpdateSpec : Type := mkUpdateSpec {
  op_set : list SetOp;
  op_push_timeline : list TimelineEntry;
  op_addToSet_sent_reminders : list Z
}.

Definition apply_set (op : SetOp) (o : Order) : Order :=
  match op with
  | SetStatus st =>
      mkOrder (o_order_id o) (o_merchant_id o) (customer_phone o) (items o) st
              (inventory_deducted o) (timeline o) (created_at o) (expiry_time o)
              (sent_reminders o) (updated_at o) (other_fields o)
  | SetInventoryDeducted b =>
      mkOrder (o_order_id o) (o_merchant_id o) (customer_phone o) (items o) (status o)
              b (timeline o) (created_at o) (expiry_time o)
              (sent_reminders o) (updated_at o) (other_fields o)
  | SetExpiryTime t =>
      mkOrder (o_order_id o) (o_merchant_id o) (customer_phone o) (items o) (status o)
              (inventory_deducted o) (timeline o) (created_at o) t
              (sent_reminders o) (updated_at o) (other_fields o)
  | SetOther key v =>
      mkOrder (o_order_id o) (o_merchant_id o) (customer_phone o) (items o) (status o)
              (inventory_deducted o) (timeline o) (created_at o) (expiry_time o)
              (sent_reminders o) (updated_at o)
              ((key, v) :: filter (fun kv => kv.1 ≠ key) (other_fields o))
  end.

Definition push_timeline (e : TimelineEntry) (o : Order) : Order :=
  mkOrder (o_order_id o) (o_merchant_id o) (customer_phone o) (items o) (status o)
          (inventory_deducted o) (timeline o ++ [e]) (created_at o) (expiry_time o)
          (sent_reminders o) (updated_at o) (other_fields o).

(** [$addToSet]: appended unless already a member. *)
Definition add_to_set_sent_reminders (h : Z) (o : Order) : Order :=
  mkOrder (o_order_id o) (o_merchant_id o) (customer_phone o) (items o) (status o)
          (inventory_deducted o) (timeline o) (created_at o) (expiry_time o)
          (if decide (h ∈ sent_reminders o) then sent_reminders o
           else sent_reminders o ++ [h])
          (updated_at o) (other_fields o).

Definition set_updated_at (t : Z) (o : Order) : Order :=
  mkOrder (o_order_id o) (o_merchant_id o) (customer_phone o) (items o) (status o)
          (inventory_deducted o) (timeline o) (created_at o) (expiry_time o)
          (sent_reminders o) t (other_fields o).

Definition apply_update (now : Z) (u : UpdateSpec) (o : Order) : Order :=
  let o1 := fold_left (fun o op => apply_set op o) (op_set u) o in
  let o2 := fold_left (fun o e => push_timeline e o) (op_push_timeline u) o1 in
  let o3 := fold_left (fun o h => add_to_set_sent_reminders h o)
                      (op_addToSet_sent_reminders u) o2 in
  set_updated_at now o3.

(** ** [db.py]: the methods of [DatabaseV6] that the managers call *)

Module DatabaseV6.

(** [get_product]: the lookup by the [product_id] field.  (The fallback
    lookup by BSON [_id] is not modelled: products are named by their
    [product_id].) *)
Definition get_product (merchant_id product_id : string) : M (option Product) :=
  fun s => (Ok (products s !! (merchant_id, product_id)), s).

Definition update_product_stock (merchant_id product_id : string) (new_stock : Q)
  : M bool :=
  if Qlt_bool new_stock 0 then raise (ValueError "Stock quantity cannot be negative")
  else
    product_doc <- get_product merchant_id product_id ;;
    match product_doc with
    | None => raise (ValueError "No product found")
    | Some doc =>
        s <- get_state ;;
        match products_update_one (driver s) with
        | WriteApplied =>
            modify (set_products
                      <[ (merchant_id, product_id) :=
                           mkProduct (product_name doc) new_stock ]>) ;;
            ret true
        | WriteLost => ret false
        | WriteRaises => raise (DriverError "products.update_one failed")
        end
    end.

(** [get_collection] is a plain method: it returns the handle, and the
    caller's [await] on that handle is what may fail. *)
Definition await_get_collection (name : string) : M unit :=
  s <- get_state ;;
  if handle_awaitable (driver s) then ret tt
  else raise (TypeError "object AsyncIOMotorCollection can't be used in 'await' expression").

Definition get_order (order_id : string) : M (option Order) :=
  fun s => (Ok (orders s !! order_id), s).

(** [update_order]: an update that matches no document is not an error;
    an exception of the driver is re-raised. *)
Definition update_order (order_id : string) (u : UpdateSpec) : M bool :=
  s <- get_state ;;
  match orders_update_one (driver s) with
  | WriteApplied =>
      match orders s !! order_id with
      | Some o =>
          modify (set_orders <[ order_id := apply_update (clock s) u o ]>) ;;
          ret true
      | None => ret false
      end
  | WriteLost => ret false
  | WriteRaises => raise (DriverError "orders.update_one failed")
  end.

Definition get_merchant (merchant_id : string) : M (option Merchant) :=
  fun s => (Ok (merchants s !! merchant_id), s).


End DatabaseV6.

(** [asyncio.gather] with [return_exceptions=True]: every task runs; an
    exception raised by a task becomes its entry in the result list. *)
Fixpoint gather_return_exceptions {A} (tasks : list (M A)) : M (list (Result A)) :=
  match tasks with
  | [] => ret []
  | t :: rest =>
      r <- try_except (a <- t ;; ret (Ok a)) (fun e => ret (Raise e)) ;;
      rs <- gather_return_exceptions rest ;;
      ret (r :: rs)
  end.

(** [needle in haystack] for strings *)
Definition str_contains (needle haystack : string) : bool :=
  match String.index 0 needle haystack with
  | Some _ => true
  | None => false
  end.

(** Python truth value of a [str] *)
Definition str_truthy (s : string) : bool := negb (String.eqb s "").

(** ** [inventory_manager.py] *)

(** The reason texts of [batch_deduct_stock], by the f-string that builds
    them. *)
Inductive Reason : Type :=
| ZeroQuantity
| InsufficientStock (name : string) (needed_have : option (Q * Q))
| InvalidItemData (name : string) (e : PyExc)
| UnexpectedError (name : string) (e : PyExc)
| BatchStopped.

Record ItemResult : Type := mkItemResult {
  r_product_id : string;
  r_success : bool;
  r_reason : option Reason
}.

Record Deduction : Type := mkDeduction {
  d_product_id : string;
  d_quantity : Q;
  d_product_name : string
}.

(** The issues that [validate_order_stock] reports, by the f-string that
    builds them.  (The unit of the product, which the last message also
    prints, is not part of the product record kept here.) *)
Inductive Issue : Type :=
| InvalidItem (item : Item)
| InvalidQuantity (name : string) (required_quantity : Q)
| NonNumericQuantity (name : string) (required_quantity_str : QtyField)
| ProductMissing (name : string)
| OnlyAvailable (name : string) (current_stock required_quantity : Q).

(** [asyncio.gather] without [return_exceptions]: the results in the order
    of the tasks; the first exception is raised to the caller. *)
Fixpoint gather {A} (tasks : list (M A)) : M (list A) :=
  match tasks with
  | [] => ret []
  | t :: rest =>
      a <- t ;;
      rs <- gather rest ;;
      ret (a :: rs)
  end.

Module InventoryManagerV6.

Definition lock_key_of (merchant_id product_id : string) : string :=
  merchant_id +:+ ":" +:+ product_id.

Definition _get_lock (lock_key : string) : M unit :=
  s <- get_state ;;
  if decide (lock_key ∈ locks s) then ret tt
  else modify (set_locks (fun l => {[ lock_key ]} ∪ l)).

(** [async with lock: body] *)
Definition async_with_lock {A} (lock_key : string) (body : M A) : M A :=
  modify (set_lock_acquisitions (cons lock_key)) ;;
  body.

Definition get_product (merchant_id product_id : string) : M (option Product) :=
  s <- get_state ;;
  if negb (db_initialized s) then ret None
  else DatabaseV6.get_product merchant_id product_id.

Definition get_product_stock (merchant_id product_id : string) : M (option Q) :=
  product <- get_product merchant_id product_id ;;
  ret (option_map stock_qty product).

Definition _log_stock_movement (merchant_id product_id product_name movement_type : string)
    (quantity_change old_stock new_stock : Q) (role : string) : M unit :=
  s <- get_state ;;
  if negb (db_initialized s) then ret tt
  else
    try_except
      (let movement :=
         mkMovement merchant_id product_id product_name movement_type
                    quantity_change old_stock new_stock role (clock s) in
       DatabaseV6.await_get_collection "stock_movements" ;;
       modify (set_stock_movements (fun l => l ++ [movement])))
      (fun _ => ret tt).

Definition update_quantity (merchant_id product_id : string) (quantity_change : Q)
    (change_reason role : string) : M bool :=
  if Qeq_bool quantity_change 0 then ret true
  else
    let lock_key := lock_key_of merchant_id product_id in
    _get_lock lock_key ;;
    async_with_lock lock_key
      (try_except
         ((* 1. READ *)
          product <- get_product merchant_id product_id ;;
          match product with
          | None => ret false
          | Some product =>
              let current_stock := stock_qty product in
              let new_stock := (current_stock + quantity_change)%Q in
              let final_stock := py_max new_stock 0 in
              (* 2. VALIDATE *)
              if Qlt_bool quantity_change 0 && Qlt_bool new_stock 0 then ret false
              else
                (* 3. COMMIT *)
                DatabaseV6.update_product_stock merchant_id product_id final_stock ;;
                (* 4. VERIFY *)
                verified_product <- get_product merchant_id product_id ;;
                match verified_product with
                | None => raise (AttributeError "'NoneType' object has no attribute 'get'")
                | Some verified_product =>
                    let verified_stock := stock_qty verified_product in
                    if Qlt_bool (1 # 1000000) (Qabs (verified_stock - final_stock))
                    then ret false
                    else
                      (* 5. LOG *)
                      _log_stock_movement merchant_id product_id (product_name product)
                        change_reason quantity_change current_stock final_stock role ;;
                      ret true
                end
          end)
         (fun _ => ret false)).

Definition deduct_stock (merchant_id product_id : string) (quantity : Q) (role : string)
  : M bool :=
  if Qlt_bool quantity 0 then
    update_quantity merchant_id product_id (- Qabs quantity) "deduction" role
  else if Qeq_bool quantity 0 then ret true
  else update_quantity merchant_id product_id (- quantity) "deduction" role.

Definition return_stock (merchant_id product_id : string) (quantity : Q) (role : string)
  : M bool :=
  if Qlt_bool quantity 0 then
    update_quantity merchant_id product_id (Qabs quantity) "return" role
  else if Qeq_bool quantity 0 then ret true
  else update_quantity merchant_id product_id quantity "return" role.

(** [hasattr(self.db, "record_admin_action")] is false for [DatabaseV6]
    (its audit method is [log_admin_action]), so step 4 only logs a
    warning. *)
Definition adjust_stock_admin (merchant_id product_id : string) (new_stock : Q)
    (admin_user reason : string) : M bool :=
  let lock_key := lock_key_of merchant_id product_id in
  _get_lock lock_key ;;
  async_with_lock lock_key
    (try_except
       (product <- get_product merchant_id product_id ;;
        match product with
        | None => ret false
        | Some product =>
            let old_stock := stock_qty product in
            let final_new_stock := py_max new_stock 0 in
            DatabaseV6.update_product_stock merchant_id product_id final_new_stock ;;
            verified_product <- get_product merchant_id product_id ;;
            match verified_product with
            | None => raise (AttributeError "'NoneType' object has no attribute 'get'")
            | Some verified_product =>
                let verified_stock := stock_qty verified_product in
                if Qlt_bool (1 # 1000000) (Qabs (verified_stock - final_new_stock))
                then ret false
                else
                  _log_stock_movement merchant_id product_id (product_name product)
                    reason (final_new_stock - old_stock) old_stock final_new_stock "admin" ;;
                  ret true
            end
        end)
       (fun _ => ret false)).

(** One iteration of the loop of phase 1 either goes on to the next item
    or leaves the loop ([break]) with a failure reason. *)
Inductive LoopStep : Type :=
| Continue (results : list ItemResult) (successful : list Deduction)
| Break (results : list ItemResult) (successful : list Deduction)
        (failure_reasons : list Reason).

Definition item_name (item : Item) : string :=
  match item_product_name item with
  | Some n => n
  | None => item_product_id item
  end.

Definition deduct_item (merchant_id role : string) (item : Item)
    (results : list ItemResult) (successful : list Deduction) : M LoopStep :=
  let product_id := item_product_id item in
  let product_name := item_name item in
  try_except
    (quantity <-
       match item_quantity item with
       | QtyAbsent | QtyNone => raise (ValueError "missing quantity")
       | f => lift (py_float None f)
       end ;;
     if Qlt_bool quantity 0 then raise (ValueError "Negative quantity")
     else if Qeq_bool quantity 0 then
       ret (Continue (results ++ [mkItemResult product_id true (Some ZeroQuantity)])
                     successful)
     else
       success <- update_quantity merchant_id product_id (- quantity)
                    "batch_deduction" role ;;
       if success : bool then
         ret (Continue (results ++ [mkItemResult product_id true None])
                       (successful ++ [mkDeduction product_id quantity product_name]))
       else
         current_stock <- get_product_stock merchant_id product_id ;;
         let reason :=
           match current_stock with
           | Some have => InsufficientStock product_name (Some (quantity, have))
           | None => InsufficientStock product_name None
           end in
         ret (Break (results ++ [mkItemResult product_id false (Some reason)])
                    successful [reason]))
    (fun e =>
       let reason :=
         match e with
         | ValueError _ | TypeError _ => InvalidItemData product_name e
         | _ => UnexpectedError product_name e
         end in
       ret (Break (results ++ [mkItemResult product_id false (Some reason)])
                  successful [reason])).

Fixpoint deduct_loop (merchant_id role : string) (items : list Item)
    (results : list ItemResult) (successful : list Deduction) : M LoopStep :=
  match items with
  | [] => ret (Continue results successful)
  | item :: rest =>
      step <- deduct_item merchant_id role item results successful ;;
      match step with
      | Continue results' successful' =>
          deduct_loop merchant_id role rest results' successful'
      | Break _ _ _ => ret step
      end
  end.

(** The closing loop of phase 2: [processed_ids] is computed once, before
    the loop. *)
Definition batch_stopped_results (items : list Item) (results : list ItemResult)
  : list ItemResult :=
  let processed_ids := map r_product_id results in
  results ++
  map (fun item => mkItemResult (item_product_id item) false (Some BatchStopped))
      (filter (fun item => item_product_id item ∉ processed_ids) items).

Definition batch_deduct_stock (merchant_id : string) (items : list Item) (role : string)
  : M (bool * list ItemResult) :=
  match items with
  | [] => ret (true, [])
  | _ =>
      step <- deduct_loop merchant_id role items [] [] ;;
      match step with
      | Break results successful (_ :: _) =>
          gather_return_exceptions
            (map (fun d => update_quantity merchant_id (d_product_id d) (d_quantity d)
                             "batch_deduction_rollback" role)
                 successful) ;;
          ret (false, batch_stopped_results items results)
      | Break results _ [] | Continue results _ => ret (true, results)
      end
  end.

(** [required_quantity_str is None], for the value of
    [item.get("quantity")] *)
Definition qty_is_none (f : QtyField) : bool :=
  match f with
  | QtyAbsent | QtyNone => true
  | QtyNumber _ | QtyText _ => false
  end.

(** The inner coroutine [check_item] of [validate_order_stock]: the issue
    found for one line, if any. *)
Definition check_item (merchant_id : string) (item : Item) : M (option Issue) :=
  let product_id := item_product_id item in
  let required_quantity_str := item_quantity item in
  if negb (str_truthy product_id) || qty_is_none required_quantity_str
  then ret (Some (InvalidItem item))
  else
    match py_float None required_quantity_str with
    | Raise (ValueError _) | Raise (TypeError _) =>
        ret (Some (NonNumericQuantity (item_name item) required_quantity_str))
    | Raise e => raise e
    | Ok required_quantity =>
        if Qle_bool required_quantity 0
        then ret (Some (InvalidQuantity (item_name item) required_quantity))
        else
          product <- get_product merchant_id product_id ;;
          match product with
          | None => ret (Some (ProductMissing (item_name item)))
          | Some product =>
              let current_stock := stock_qty product in
              if Qlt_bool current_stock required_quantity
              then ret (Some (OnlyAvailable (product_name product) current_stock
                                            required_quantity))
              else ret None
          end
    end.

Definition validate_order_stock (merchant_id : string) (items : list Item)
  : M (bool * list Issue) :=
  match items with
  | [] => ret (true, [])
  | _ =>
      results <- gather (map (check_item merchant_id) items) ;;
      let issues := omap id results in
      ret (Nat.eqb (length issues) 0, issues)
  end.

End InventoryManagerV6.


(** ** [order_manager.py] *)

Module OrderManagerV6.

Import OrderStatus.

(** [async with self._order_lock: body] *)
Definition async_with_order_lock {A} (body : M A) : M A :=
  modify (set_lock_acquisitions (cons "_order_lock")) ;;
  body.

Definition update_order (order_id : string) (update_data : UpdateSpec) : M unit :=
  if negb (str_truthy order_id) then raise (ValueError "order_id is required")
  else
    try_except
      (DatabaseV6.update_order order_id update_data ;; ret tt)
      (fun e => raise e).

(** The helper [_parse_iso_datetime] is a function of the module, defined
    after the class. *)
Definition _parse_iso_datetime (dt_str : TimeField) : M (option Z) :=
  match dt_str with
  | TimeAt t => ret (Some t)
  | TimeAbsent | TimeInvalid _ => ret None
  end.

(** [self._parse_iso_datetime(...)]: the class has no attribute of that
    name, so the attribute lookup raises. *)
Definition self_parse_iso_datetime (dt_str : TimeField) : M (option Z) :=
  raise (AttributeError "'OrderManagerV6' object has no attribute '_parse_iso_datetime'").

Definition expire_order (order_id : string) : M (option Order) :=
  if negb (str_truthy order_id) then raise (ValueError "order_id required")
  else
    async_with_order_lock
      (order <- DatabaseV6.get_order order_id ;;
       match order with
       | None => raise (ValueError ("Order " +:+ order_id +:+ " not found"))
       | Some order =>
           let valid_pending_statuses := [PENDING; "pending_confirmation"] in
           let current_status := status order in
           if bool_decide (current_status ∉ valid_pending_statuses) then
             ret (Some order)
           else
             s <- get_state ;;
             let now_utc := clock s in
             let update_payload :=
               mkUpdateSpec [SetStatus EXPIRED]
                 [mkTimelineEntry EXPIRED now_utc
                    "Order expired due to no merchant response" "system"]
                 [] in
             try_except
               (update_order order_id update_payload ;;
                DatabaseV6.get_order order_id)
               (fun _ => ret None)
       end).

(** [float(item.get("quantity", 0))] for every item, as the list
    comprehension evaluates it while it builds the rollback coroutines. *)
Fixpoint rollback_quantities (items : list Item) : Result (list (string * Q)) :=
  match items with
  | [] => Ok []
  | item :: rest =>
      match py_float (Some 0%Q) (item_quantity item) with
      | Raise e => Raise e
      | Ok q =>
          match rollback_quantities rest with
          | Raise e => Raise e
          | Ok qs => Ok ((item_product_id item, q) :: qs)
          end
      end
  end.

Definition rollback_tasks (merchant_id : string) (change_reason role : string)
    (qs : list (string * Q)) : list (M bool) :=
  map (fun pq => InventoryManagerV6.update_quantity merchant_id pq.1 pq.2
                   change_reason role) qs.

(** Steps 1 to 3 of [accept_order]: read and validate without a lock,
    then deduct the stock.  The result is the order as read in step 1. *)
Definition accept_steps_1_3 (order_id merchant_id : string)
    (estimated_delivery : option Z) : M Order :=
  if negb (str_truthy order_id) || negb (str_truthy merchant_id)
  then raise (ValueError "order_id and merchant_id required")
  else
    (* Step 1 *)
    order <- DatabaseV6.get_order order_id ;;
    match order with
    | None => raise (ValueError ("Order " +:+ order_id +:+ " not found"))
    | Some order =>
        if negb (String.eqb (o_merchant_id order) merchant_id)
        then raise (ValueError ("Unauthorized: Order does not belong to merchant "
                                  +:+ merchant_id))
        (* Step 2 *)
        else if negb (String.eqb (status order) PENDING)
        then raise (ValueError ("Order " +:+ order_id +:+ " is not in pending state"))
        else
          match expiry_time order with
          | TimeAbsent => ret tt
          | expiry_field =>
              try_except
                (expiry <- self_parse_iso_datetime expiry_field ;;
                 s <- get_state ;;
                 match expiry with
                 | Some expiry =>
                     if (expiry <=? clock s)%Z then
                       try_except (expire_order order_id ;; ret tt) (fun _ => ret tt) ;;
                       raise (ValueError ("Order " +:+ order_id +:+ " has expired"))
                     else ret tt
                 | None => ret tt
                 end)
                (fun e => if str_contains "expired" (exc_str e) then raise e else ret tt)
          end ;;
          match estimated_delivery with
          | Some t =>
              s <- get_state ;;
              if (t <=? clock s)%Z
              then raise (ValueError "Estimated delivery must be in the future")
              else ret tt
          | None => ret tt
          end ;;
          (* Step 3 *)
          let items_to_deduct := items order in
          '(deduction_success, deduction_results) <-
            InventoryManagerV6.batch_deduct_stock merchant_id items_to_deduct "merchant" ;;
          if negb deduction_success
          then raise (ValueError "Inventory deduction failed")
          else ret order
    end.

(** Steps 4 and 5 of [accept_order]: under the order lock, read the order
    again and either roll the stock back or commit.  (The calls of step 5
    to the knowledge base and the rules engine are best effort and do not
    touch the store.) *)
Definition accept_steps_4_5 (order_id merchant_id : string)
    (acceptance_note : option string) (estimated_delivery : option Z)
    (order : Order) : M Order :=
  let items_to_deduct := items order in
  async_with_order_lock
    (current_order_state <- DatabaseV6.get_order order_id ;;
     match current_order_state with
     | None => raise (AttributeError "'NoneType' object has no attribute 'get'")
     | Some current_order_state =>
         if negb (String.eqb (status current_order_state) PENDING) then
           qs <- lift (rollback_quantities items_to_deduct) ;;
           gather_return_exceptions
             (rollback_tasks merchant_id "order_accept_race_condition_rollback"
                             "merchant" qs) ;;
           raise (ValueError "Order state changed mid-process. Inventory rolled back.")
         else
           s <- get_state ;;
           let now_utc := clock s in
           let update_payload :=
             mkUpdateSpec
               ([SetStatus ACCEPTED; SetOther "confirmed_at" (VTime now_utc);
                 SetInventoryDeducted true] ++
                match estimated_delivery with
                | Some t => [SetOther "estimated_delivery" (VTime t)]
                | None => []
                end)
               [mkTimelineEntry ACCEPTED now_utc
                  (match acceptance_note with
                   | Some n => if str_truthy n then n else "Order accepted by merchant"
                   | None => "Order accepted by merchant"
                   end)
                  "merchant"]
               [] in
           try_except
             (update_order order_id update_payload)
             (fun _ =>
                qs <- lift (rollback_quantities items_to_deduct) ;;
                gather_return_exceptions
                  (rollback_tasks merchant_id "order_accept_final_update_failed_rollback"
                                  "merchant" qs) ;;
                raise (RuntimeError "Failed to update order status. Inventory rollback attempted."))
     end) ;;
  (* Step 5 *)
  updated_order <- DatabaseV6.get_order order_id ;;
  match updated_order with
  | None => ret order
  | Some updated_order => ret updated_order
  end.

(** [accept_order], with what the other coroutines do while this one is
    suspended between its deduction (step 3) and the order lock (step 4). *)
Definition accept_order_interleaved (others : M unit) (order_id merchant_id : string)
    (acceptance_note : option string) (estimated_delivery : option Z) : M Order :=
  order <- accept_steps_1_3 order_id merchant_id estimated_delivery ;;
  others ;;
  accept_steps_4_5 order_id merchant_id acceptance_note estimated_delivery order.

Definition accept_order : string -> string -> option string -> option Z -> M Order :=
  accept_order_interleaved (ret tt).

(** [r.get("success")] on an entry of the list that [gather] returned for
    coroutines of [update_quantity]: the entry is a [bool], which has no
    attribute [get]. *)
Definition bool_get (r : bool) (key : string) : Result bool :=
  Raise (AttributeError "'bool' object has no attribute 'get'").

(** [any(isinstance(r, Exception) or not r.get("success")
        for r in results if not isinstance(r, Exception))] *)
Fixpoint any_not_success (results : list (Result bool)) : Result bool :=
  match results with
  | [] => Ok false
  | Raise _ :: rest => any_not_success rest
  | Ok r :: rest =>
      match bool_get r "success" with
      | Raise e => Raise e
      | Ok v => if negb v then Ok true else any_not_success rest
      end
  end.

Definition cancel_order (order_id cancellation_reason cancelled_by : string) : M Order :=
  if negb (str_truthy order_id) || negb (str_truthy cancellation_reason)
  then raise (ValueError "order_id and cancellation_reason required")
  else
    async_with_order_lock
      (order <- DatabaseV6.get_order order_id ;;
       match order with
       | None => raise (ValueError ("Order " +:+ order_id +:+ " not found"))
       | Some order =>
           let current_status := status order in
           if bool_decide (current_status ∈ [COMPLETED; CANCELLED; EXPIRED])
           then raise (ValueError ("Order " +:+ order_id +:+ " cannot be cancelled"))
           else
             inventory_returned <-
               (if inventory_deducted order then
                  try_except
                    (qs <- lift (rollback_quantities (items order)) ;;
                     results <- gather_return_exceptions
                                  (rollback_tasks (o_merchant_id order)
                                     "order_cancellation_rollback" cancelled_by qs) ;;
                     failed <- lift (any_not_success results) ;;
                     if failed : bool then ret false else ret true)
                    (fun _ => ret false)
                else ret false) ;;
             s <- get_state ;;
             let now_utc := clock s in
             let update_payload :=
               mkUpdateSpec
                 [SetStatus CANCELLED;
                  SetOther "cancellation_reason" (VStr cancellation_reason);
                  SetOther "cancelled_by" (VStr cancelled_by);
                  SetInventoryDeducted
                    (if inventory_returned : bool then false
                     else inventory_deducted order)]
                 [mkTimelineEntry CANCELLED now_utc cancellation_reason cancelled_by]
                 [] in
             try_except
               (update_order order_id update_payload ;;
                updated_order <- DatabaseV6.get_order order_id ;;
                match updated_order with
                | Some updated_order => ret updated_order
                | None => ret order
                end)
               (fun e => raise e)
       end).

(** Steps 1 to 3 of [approve_order_admin]. *)
Definition approve_steps_1_3 (order_id admin_user : string) : M Order :=
  if negb (str_truthy order_id) || negb (str_truthy admin_user)
  then raise (ValueError "order_id and admin_user required")
  else
    order <- DatabaseV6.get_order order_id ;;
    match order with
    | None => raise (ValueError ("Order " +:+ order_id +:+ " not found"))
    | Some order =>
        let merchant_id := o_merchant_id order in
        if negb (str_truthy merchant_id)
        then raise (ValueError ("Order " +:+ order_id +:+ " missing merchant_id, cannot approve."))
        else
          let valid_statuses := [PENDING; REVIEW] in
          if bool_decide (status order ∉ valid_statuses)
          then raise (ValueError ("Order " +:+ order_id +:+ " cannot be approved"))
          else
            let items_to_deduct := items order in
            '(deduction_success, deduction_results) <-
              InventoryManagerV6.batch_deduct_stock merchant_id items_to_deduct "admin" ;;
            if negb deduction_success
            then raise (ValueError "Inventory deduction failed")
            else ret order
    end.

(** Steps 4 and 5 of [approve_order_admin].  ([DatabaseV6] has no
    [record_admin_action], so step 5 writes no audit record.) *)
Definition approve_steps_4_5 (order_id admin_user : string) (note : option string)
    (order : Order) : M (option Order) :=
  let merchant_id := o_merchant_id order in
  let valid_statuses := [PENDING; REVIEW] in
  let items_to_deduct := items order in
  async_with_order_lock
    (current_order_state <- DatabaseV6.get_order order_id ;;
     match current_order_state with
     | None => raise (AttributeError "'NoneType' object has no attribute 'get'")
     | Some current_order_state =>
         if bool_decide (status current_order_state ∉ valid_statuses) then
           qs <- lift (rollback_quantities items_to_deduct) ;;
           gather_return_exceptions
             (rollback_tasks merchant_id "admin_approve_race_condition_rollback"
                             "admin" qs) ;;
           raise (ValueError "Order state changed mid-process. Inventory rolled back.")
         else
           s <- get_state ;;
           let now_utc := clock s in
           let update_payload :=
             mkUpdateSpec
               [SetStatus ACCEPTED; SetOther "confirmed_at" (VTime now_utc);
                SetInventoryDeducted true; SetOther "approved_by_admin" (VStr admin_user)]
               [mkTimelineEntry ACCEPTED now_utc
                  (match note with
                   | Some n => if str_truthy n then n else "Approved by admin"
                   | None => "Approved by admin"
                   end)
                  admin_user]
               [] in
           try_except
             (update_order order_id update_payload)
             (fun _ =>
                qs <- lift (rollback_quantities items_to_deduct) ;;
                gather_return_exceptions
                  (rollback_tasks merchant_id "admin_approve_final_update_failed_rollback"
                                  "admin" qs) ;;
                raise (RuntimeError "Failed to update order status. Inventory rollback attempted."))
     end) ;;
  DatabaseV6.get_order order_id.

Definition approve_order_admin_interleaved (others : M unit) (order_id admin_user : string)
    (note : option string) : M (option Order) :=
  order <- approve_steps_1_3 order_id admin_user ;;
  others ;;
  approve_steps_4_5 order_id admin_user note order.

Definition approve_order_admin : string -> string -> option string -> M (option Order) :=
  approve_order_admin_interleaved (ret tt).

(** [x or default], for an optional text *)
Definition str_or (x : option string) (default : string) : string :=
  match x with
  | Some t => if str_truthy t then t else default
  | None => default
  end.

(** An optional text as the value of a field *)
Definition opt_str (x : option string) : FieldVal :=
  match x with
  | Some t => VStr t
  | None => VNone
  end.

Definition decline_order (order_id merchant_id : string) (decline_reason : option string)
  : M Order :=
  if negb (str_truthy order_id) || negb (str_truthy merchant_id)
  then raise (ValueError "order_id and merchant_id required")
  else
    async_with_order_lock
      (order <- DatabaseV6.get_order order_id ;;
       match order with
       | None => raise (ValueError ("Order " +:+ order_id +:+ " not found"))
       | Some order =>
           if negb (String.eqb (o_merchant_id order) merchant_id)
           then raise (ValueError ("Unauthorized: Order does not belong to merchant "
                                     +:+ merchant_id))
           else if negb (String.eqb (status order) PENDING)
           then raise (ValueError ("Order " +:+ order_id
                                     +:+ " is not in pending state (current: "
                                     +:+ status order +:+ ")"))
           else
             s <- get_state ;;
             let now_utc := clock s in
             let update_payload :=
               mkUpdateSpec
                 [SetStatus DECLINED; SetOther "decline_reason" (opt_str decline_reason)]
                 [mkTimelineEntry DECLINED now_utc
                    (str_or decline_reason "Order declined by merchant") "merchant"]
                 [] in
             try_except
               (update_order order_id update_payload ;;
                updated_order <- DatabaseV6.get_order order_id ;;
                match updated_order with
                | Some updated_order => ret updated_order
                | None => ret order
                end)
               (fun e => raise e)
       end).

Definition complete_order (order_id merchant_id : string) (completion_note : option string)
  : M Order :=
  if negb (str_truthy order_id) || negb (str_truthy merchant_id)
  then raise (ValueError "order_id and merchant_id required")
  else
    async_with_order_lock
      (order <- DatabaseV6.get_order order_id ;;
       match order with
       | None => raise (ValueError ("Order " +:+ order_id +:+ " not found"))
       | Some order =>
           if negb (String.eqb (o_merchant_id order) merchant_id)
           then raise (ValueError ("Unauthorized: Order does not belong to merchant "
                                     +:+ merchant_id))
           else if negb (String.eqb (status order) ACCEPTED)
           then raise (ValueError ("Order " +:+ order_id
                                     +:+ " cannot be completed (status: "
                                     +:+ status order +:+ ")"))
           else
             s <- get_state ;;
             let now_utc := clock s in
             let update_payload :=
               mkUpdateSpec
                 [SetStatus COMPLETED; SetOther "completed_at" (VTime now_utc)]
                 [mkTimelineEntry COMPLETED now_utc
                    (str_or completion_note "Order completed and delivered") "merchant"]
                 [] in
             try_except
               (update_order order_id update_payload ;;
                updated_order <- DatabaseV6.get_order order_id ;;
                match updated_order with
                | Some updated_order => ret updated_order
                | None => ret order
                end)
               (fun e => raise e)
       end).

(** [KeyError]: the type of exceptions has no constructor of its own for
    it.  The one handler that can see it here is an [except Exception]
    that only logs it, so it is carried as an error of the runtime whose
    text names it. *)
Definition key_error (key : string) : PyExc :=
  RuntimeError ("KeyError: '" +:+ key +:+ "'").

(** [float(i["quantity"])] for every item, as the list comprehension of
    [force_cancel_order_admin] evaluates it while it builds the rollback
    coroutines. *)
Fixpoint index_quantities (items : list Item) : Result (list (string * Q)) :=
  match items with
  | [] => Ok []
  | i :: rest =>
      match
        match item_quantity i with
        | QtyAbsent => Raise (key_error "quantity")
        | f => py_float None f
        end
      with
      | Raise e => Raise e
      | Ok q =>
          match index_quantities rest with
          | Raise e => Raise e
          | Ok qs => Ok ((item_product_id i, q) :: qs)
          end
      end
  end.

(** [force_cancel_order_admin].  ([DatabaseV6] has no
    [record_admin_action], so no audit record is written.) *)
Definition force_cancel_order_admin (order_id admin_user reason : string)
  : M (option Order) :=
  if negb (str_truthy admin_user)
  then raise (ValueError "admin_user is required for force cancellation")
  else
    async_with_order_lock
      (order <- DatabaseV6.get_order order_id ;;
       match order with
       | None => raise (ValueError ("Order " +:+ order_id +:+ " not found"))
       | Some order =>
           if bool_decide (status order ∈ [CANCELLED; COMPLETED])
           then ret (Some order)
           else
             inventory_returned <-
               (if inventory_deducted order then
                  try_except
                    (qs <- lift (index_quantities (items order)) ;;
                     results <- gather_return_exceptions
                                  (rollback_tasks (o_merchant_id order)
                                     "admin_forced_cancel_rollback" "admin" qs) ;;
                     failed <- lift (any_not_success results) ;;
                     if failed : bool then ret false else ret true)
                    (fun _ => ret false)
                else ret false) ;;
             s <- get_state ;;
             let now_utc := clock s in
             let update_payload :=
               mkUpdateSpec
                 ([SetStatus CANCELLED;
                   SetOther "cancelled_by" (VStr admin_user);
                   SetOther "cancellation_reason" (VStr reason)] ++
                  (if inventory_returned : bool then [SetInventoryDeducted false] else []))
                 [mkTimelineEntry CANCELLED now_utc ("Cancelled by admin: " +:+ reason)
                    admin_user]
                 [] in
             update_order order_id update_payload ;;
             DatabaseV6.get_order order_id
       end).

Definition get_order (order_id : string) : M Order :=
  if negb (str_truthy order_id) then raise (ValueError "order_id required")
  else
    try_except
      (order <- DatabaseV6.get_order order_id ;;
       match order with
       | None => raise (ValueError ("Order " +:+ order_id +:+ " not found"))
       | Some order => ret order
       end)
      (fun e => raise e).

End OrderManagerV6.

(** ** [remainder_system.py] *)

Module ReminderSystem.

(** [sorted(reminder_intervals)] *)
Fixpoint insert_sorted (h : Z) (l : list Z) : list Z :=
  match l with
  | [] => [h]
  | x :: rest => if (h <=? x)%Z then h :: l else x :: insert_sorted h rest
  end.

Definition sorted (l : list Z) : list Z := foldr insert_sorted [] l.

(** The part of [__init__] that fixes [self.reminder_intervals]. *)
Definition init_reminder_intervals (reminder_intervals : option (list Z))
  : Result (list Z) :=
  match reminder_intervals with
  | Some (h :: rest) =>
      if existsb (fun h => (h <=? 0)%Z) (h :: rest)
      then Raise (ValueError "reminder_intervals must be list of positive hours")
      else Ok (sorted (h :: rest))
  | Some [] | None => Ok [2; 6; 24]%Z
  end.

(** [(current_time - created_at).total_seconds() / 3600] *)
Definition hours_elapsed (current_time created_at : Z) : Q :=
  (inject_Z (current_time - created_at) / 3600)%Q.

(** The [for] loop that looks for the next reminder: the first interval,
    in the order of [self.reminder_intervals], that is due and has not
    been sent. *)
Fixpoint next_reminder (reminder_intervals : list Z) (elapsed : Q)
    (sent : list Z) : option Z :=
  match reminder_intervals with
  | [] => None
  | interval_hours :: rest =>
      if Qle_bool (inject_Z interval_hours) elapsed
         && bool_decide (interval_hours ∉ sent)
      then Some interval_hours
      else next_reminder rest elapsed sent
  end.

(** [self.integrations.send_whatsapp_message(phone=..., text=...)] *)
Definition send_whatsapp_message (msg : Message) : M unit :=
  s <- get_state ;;
  if gateway_delivers (driver s) then modify (set_outbox (fun l => l ++ [msg]))
  else raise (DriverError "send_whatsapp_message failed").

Definition _send_reminder (order : Order) (hours : Z) : M bool :=
  let merchant_id := o_merchant_id order in
  let order_id := o_order_id order in
  if negb (str_truthy merchant_id) || negb (str_truthy order_id) then ret false
  else
    try_except
      (merchant_data <- DatabaseV6.get_merchant merchant_id ;;
       match merchant_data with
       | None => ret false
       | Some merchant_data =>
           match phone merchant_data with
           | None => ret false
           | Some merchant_phone =>
               if negb (str_truthy merchant_phone) then ret false
               else
                 send_whatsapp_message (ReminderMsg merchant_phone order_id hours) ;;
                 ret true
           end
       end)
      (fun _ => ret false).

Definition _check_and_process_reminders (reminder_intervals : list Z) (order : Order)
    (current_time : Z) : M unit :=
  let order_id := o_order_id order in
  match created_at order with
  | TimeAbsent | TimeInvalid _ => ret tt
  | TimeAt created =>
      let elapsed := hours_elapsed current_time created in
      let sent_reminders := sent_reminders order in
      match next_reminder reminder_intervals elapsed sent_reminders with
      | None => ret tt
      | Some next_reminder_hour =>
          reminder_sent <- _send_reminder order next_reminder_hour ;;
          if reminder_sent : bool then
            try_except
              (OrderManagerV6.update_order order_id
                 (mkUpdateSpec [] [] [next_reminder_hour]))
              (fun _ => ret tt)
          else ret tt
      end
  end.

(** A coroutine handed to [asyncio.create_task]: it is scheduled, and runs
    on its own after the caller has gone on.  The functions below return
    the coroutines they have scheduled; none of them can raise once it has
    scheduled one. *)
Inductive Spawned : Type :=
| UpdateOrderTask (order_id : string) (update_data : UpdateSpec)
| NotifyMerchantExpiry (merchant_id : string) (order : Order)
| NotifyCustomerExpiry (customer_phone : string) (order : Order).

(** [not field], for a timestamp field *)
Definition time_falsy (f : TimeField) : bool :=
  match f with
  | TimeAbsent => true
  | TimeInvalid t => negb (str_truthy t)
  | TimeAt _ => false
  end.

Definition _expire_order (order : Order) : M (list Spawned) :=
  let order_id := o_order_id order in
  let merchant_id := o_merchant_id order in
  let customer_phone := customer_phone order in
  if negb (str_truthy order_id) || negb (str_truthy merchant_id)
     || negb (str_truthy customer_phone)
  then ret []
  else
    try_except
      (expired_order <- OrderManagerV6.expire_order order_id ;;
       confirmed <-
         match expired_order with
         | Some _ => ret true
         | None =>
             expired_order <- OrderManagerV6.get_order order_id ;;
             ret (String.eqb (status expired_order) "expired")
         end ;;
       if confirmed : bool
       then ret [NotifyMerchantExpiry merchant_id order;
                 NotifyCustomerExpiry customer_phone order]
       else ret [])
      (fun _ => ret []).

(** [_check_and_process_expiry]: whether the order was found expired, and
    the coroutines scheduled on the way.  (The timestamp of [created_at]
    is read here without the replacement of a final [Z] that the other
    readers apply; a parsed timestamp stands for a string that both
    accept.) *)
Definition _check_and_process_expiry (ttl_hours : Z) (order : Order) (current_time : Z)
  : M (bool * list Spawned) :=
  let order_id := o_order_id order in
  let with_expiry (expiry_time_str : TimeField) (spawned : list Spawned) :=
    match expiry_time_str with
    | TimeAt expiry_time =>
        if (expiry_time <=? current_time)%Z then
          notifications <- _expire_order order ;;
          ret (true, spawned ++ notifications)
        else ret (false, spawned)
    | TimeAbsent | TimeInvalid _ => ret (false, spawned)
    end in
  if time_falsy (expiry_time order) then
    match created_at order with
    | TimeAt created_at =>
        let expiry_time := (created_at + ttl_hours * 3600)%Z in
        with_expiry (TimeAt expiry_time)
          [UpdateOrderTask order_id
             (mkUpdateSpec [SetExpiryTime (TimeAt expiry_time)] [] [])]
    | TimeAbsent | TimeInvalid _ => ret (false, [])
    end
  else with_expiry (expiry_time order) [].

Definition _process_single_order (reminder_intervals : list Z) (ttl_hours : Z)
    (order : Order) (current_time : Z) : M (list Spawned) :=
  let order_id := o_order_id order in
  if negb (str_truthy order_id) then ret []
  else
    try_except
      ('(expired, spawned) <- _check_and_process_expiry ttl_hours order current_time ;;
       if expired : bool then ret spawned
       else
         _check_and_process_reminders reminder_intervals order current_time ;;
         ret spawned)
      (fun e => raise e).

End ReminderSystem.

(** ** The operations of the Inventory Engine, as a caller issues them *)

Inductive EngineOp : Type :=
| OpUpdateQuantity (merchant_id product_id : string) (quantity_change : Q)
                   (change_reason role : string)
| OpDeductStock (merchant_id product_id : string) (quantity : Q) (role : string)
| OpReturnStock (merchant_id product_id : string) (quantity : Q) (role : string)
| OpBatchDeductStock (merchant_id : string) (items : list Item) (role : string)
| OpAdjustStockAdmin (merchant_id product_id : string) (new_stock : Q)
                     (admin_user reason : string).

Definition run_op (op : EngineOp) : M unit :=
  match op with
  | OpUpdateQuantity m p d reason role =>
      InventoryManagerV6.update_quantity m p d reason role ;; ret tt
  | OpDeductStock m p q role => InventoryManagerV6.deduct_stock m p q role ;; ret tt
  | OpReturnStock m p q role => InventoryManagerV6.return_stock m p q role ;; ret tt
  | OpBatchDeductStock m items role =>
      InventoryManagerV6.batch_deduct_stock m items role ;; ret tt
  | OpAdjustStockAdmin m p new_stock admin reason =>
      InventoryManagerV6.adjust_stock_admin m p new_stock admin reason ;; ret tt
  end.

(** The state after a sequence of operations, whatever each one returned. *)
Fixpoint run_ops (ops : list EngineOp) (s : State) : State :=
  match ops with
  | [] => s
  | op :: rest => run_ops rest (run_op op s).2
  end.

(** ** The transitions of the Order Manager, as a caller issues them *)

Inductive OrderOp : Type :=
| OpAcceptOrder (order_id merchant_id : string) (acceptance_note : option string)
                (estimated_delivery : option Z)
| OpDeclineOrder (order_id merchant_id : string) (decline_reason : option string)
| OpCompleteOrder (order_id merchant_id : string) (completion_note : option string)
| OpCancelOrder (order_id cancellation_reason cancelled_by : string)
| OpExpireOrder (order_id : string)
| OpForceCancelOrderAdmin (order_id admin_user reason : string)
| OpApproveOrderAdmin (order_id admin_user : string) (note : option string).

Definition run_order_op (op : OrderOp) : M unit :=
  match op with
  | OpAcceptOrder id m note ed => OrderManagerV6.accept_order id m note ed ;; ret tt
  | OpDeclineOrder id m reason => OrderManagerV6.decline_order id m reason ;; ret tt
  | OpCompleteOrder id m note => OrderManagerV6.complete_order id m note ;; ret tt
  | OpCancelOrder id reason by_whom =>
      OrderManagerV6.cancel_order id reason by_whom ;; ret tt
  | OpExpireOrder id => OrderManagerV6.expire_order id ;; ret tt
  | OpForceCancelOrderAdmin id admin reason =>
      OrderManagerV6.force_cancel_order_admin id admin reason ;; ret tt
  | OpApproveOrderAdmin id admin note =>
      OrderManagerV6.approve_order_admin id admin note ;; ret tt
  end.

(** The state after a sequence of transitions, whatever each one returned
    or raised. *)
Fixpoint run_order_ops (ops : list OrderOp) (s : State) : State :=
  match ops with
  | [] => s
  | op :: rest => run_order_ops rest (run_order_op op s).2
  end.

(** ** Predicates on states *)

(** Every product's quantity is non-negative. *)
Definition nonneg_stock (s : State) : Prop :=
  forall k pr, products s !! k = Some pr -> (0 <= stock_qty pr)%Q.

(** The quantity on record, 0 for a product that is not on record. *)
Definition stock_of (s : State) (merchant_id product_id : string) : Q :=
  match products s !! (merchant_id, product_id) with
  | Some pr => stock_qty pr
  | None => 0
  end.

Definition has_product (s : State) (merchant_id product_id : string) : Prop :=
  is_Some (products s !! (merchant_id, product_id)).

(** The store is connected and applies the stock writes it acknowledges. *)
Definition store_ok (s : State) : Prop :=
  db_initialized s = true /\ products_update_one (driver s) = WriteApplied.

(** The store applies the order writes it acknowledges. *)
Definition orders_ok (s : State) : Prop :=
  orders_update_one (driver s) = WriteApplied.

(** What the inventory operations leave alone. *)
Definition inventory_frame (s s' : State) : Prop :=
  db_initialized s' = db_initialized s /\ orders s' = orders s /\
  merchants s' = merchants s /\ outbox s' = outbox s /\
  clock s' = clock s /\ driver s' = driver s.

(** The quantity a line item asks for, when it is a number. *)
Definition item_qty (item : Item) : option Q :=
  match item_quantity item with
  | QtyNumber q => Some q
  | _ => None
  end.

(** The total quantity the items ask of one product. *)
Fixpoint demand (product_id : string) (items : list Item) : Q :=
  match items with
  | [] => 0
  | item :: rest =>
      (if String.eqb (item_product_id item) product_id
       then match item_qty item with Some q => q | None => 0 end
       else 0) + demand product_id rest
  end.

(** ** The vocabulary of the statements *)

(** The ways in which a non-zero [update_quantity] comes to return false. *)
Inductive UpdateFailure (s : State) (merchant_id product_id : string) (d : Q) : Prop :=
| StoreNotInitialized :
    db_initialized s = false -> UpdateFailure s merchant_id product_id d
| ProductNotFound :
    products s !! (merchant_id, product_id) = None ->
    UpdateFailure s merchant_id product_id d
| InsufficientStockFor (prod : Product) :
    products s !! (merchant_id, product_id) = Some prod ->
    (d < 0)%Q -> (stock_qty prod + d < 0)%Q ->
    UpdateFailure s merchant_id product_id d
| StoreRaised (prod : Product) :
    products s !! (merchant_id, product_id) = Some prod ->
    products_update_one (driver s) = WriteRaises ->
    UpdateFailure s merchant_id product_id d
| VerificationMismatch (prod : Product) :
    products s !! (merchant_id, product_id) = Some prod ->
    products_update_one (driver s) = WriteLost ->
    (1 # 1000000 < Qabs (stock_qty prod - py_max (stock_qty prod + d) 0))%Q ->
    UpdateFailure s merchant_id product_id d.

(** The sum of the quantities that a list of (product, quantity) pairs
    holds for one product. *)
Fixpoint total (product_id : string) (qs : list (string * Q)) : Q :=
  match qs with
  | [] => 0
  | pq :: rest =>
      (if String.eqb pq.1 product_id then pq.2 else 0) + total product_id rest
  end.

(** [stock_step m delta s s']: from [s] to [s'] the quantities of merchant
    [m] moved by [delta], no product appeared or disappeared, and nothing
    else of the store changed. *)
Definition stock_step (m : string) (delta : string -> Q) (s s' : State) : Prop :=
  inventory_frame s s' /\
  (forall k, is_Some (products s' !! k) <-> is_Some (products s !! k)) /\
  (forall p, (stock_of s' m p == stock_of s m p + delta p)%Q) /\
  (forall m' p, m' <> m -> products s' !! (m', p) = products s !! (m', p)).

(** What the loop records for an item it debits. *)
Definition item_ok_result (item : Item) : ItemResult :=
  mkItemResult (item_product_id item) true
    (match item_qty item with
     | Some q => if Qeq_bool q 0 then Some ZeroQuantity else None
     | None => None
     end).

Definition item_deductions (item : Item) : list Deduction :=
  match item_qty item with
  | Some q =>
      if Qeq_bool q 0 then []
      else [mkDeduction (item_product_id item) q (InventoryManagerV6.item_name item)]
  | None => []
  end.

(** The items can all be debited, one after another, from the stock of
    [s]: each asks for a non-negative number of a product on record, and
    together they ask of no product more than there is. *)
Definition debitable (s : State) (m : string) (its : list Item) : Prop :=
  Forall (fun it => exists q, item_qty it = Some q /\ (0 <= q)%Q /\
                              (~ (q == 0)%Q -> has_product s m (item_product_id it))) its /\
  forall p, (demand p its <= stock_of s m p)%Q.



(** The quantities that the rollbacks of the order transitions give back. *)
Definition item_returns (its : list Item) : list (string * Q) :=
  map (fun it => (item_product_id it,
                  match item_qty it with Some q => q | None => 0%Q end)) its.

(** An order past its expiry time, as the spec describes it. *)
Definition past_expiry (now : Z) (o : Order) : Prop :=
  match expiry_time o with
  | TimeAt t => (t <= now)%Z
  | _ => False
  end.

Definition expired_entry (now : Z) : TimelineEntry :=
  mkTimelineEntry OrderStatus.EXPIRED now "Order expired due to no merchant response" "system".

(** The order that [expire_order] writes. *)
Definition expired_version (now : Z) (o : Order) : Order :=
  apply_update now (mkUpdateSpec [SetStatus OrderStatus.EXPIRED] [expired_entry now] []) o.

(** The number of EXPIRED entries of a timeline. *)
Definition expired_entries (tl : list TimelineEntry) : nat :=
  length (filter (fun e => tl_status e = OrderStatus.EXPIRED) tl).


(** A computation that keeps every quantity non-negative, whatever it
    returns or raises. *)
Definition preserves {A} (m : M A) : Prop :=
  forall s r s', nonneg_stock s -> m s = (r, s') -> nonneg_stock s'.

(** ** The vocabulary of the further statements *)

(** The line passes the check of [validate_order_stock]: it names a
    product on record, of which it asks a positive quantity that the stock
    covers. *)
Definition line_available (s : State) (m : string) (item : Item) : Prop :=
  item_product_id item <> "" /\
  exists q prod,
    item_qty item = Some q /\ (0 < q)%Q /\
    db_initialized s = true /\
    products s !! (m, item_product_id item) = Some prod /\
    (q <= stock_qty prod)%Q.

(** The movement that a change [d] of product [prod] puts on record. *)
Definition movement_for (m p reason : string) (d : Q) (prod : Product) (final : Q)
    (role : string) (s : State) : Movement :=
  mkMovement m p (product_name prod) reason d (stock_qty prod) final role (clock s).

(** The computation [c] relates every state it starts in to the state it
    leaves, whatever it returns or raises. *)
Definition keeps {A} (R : State -> State -> Prop) (c : M A) : Prop :=
  forall s r s', c s = (r, s') -> R s s'.

(** The deductions that a step of the loop carries. *)
Definition step_successful (step : InventoryManagerV6.LoopStep) : list Deduction :=
  match step with
  | InventoryManagerV6.Continue _ successful | InventoryManagerV6.Break _ successful _ => successful
  end.

(** A movement whose quantities add up and are not negative. *)
Definition movement_balanced (mv : Movement) : Prop :=
  (0 <= old_stock mv)%Q /\ (0 <= new_stock mv)%Q /\
  (new_stock mv == old_stock mv + mv_quantity_change mv)%Q.

(** What the Inventory Engine may do to the store: it leaves orders,
    merchants, messages, clock and driver alone, keeps every product and its
    name, keeps the registered locks and non-negative quantities, and only
    appends movements to the log. *)
Definition ledger_step (s s' : State) : Prop :=
  inventory_frame s s' /\
  (forall k, product_name <$> products s' !! k = product_name <$> products s !! k) /\
  locks s ⊆ locks s' /\
  (nonneg_stock s -> nonneg_stock s') /\
  exists l, stock_movements s' = stock_movements s ++ l /\
            (handle_awaitable (driver s) = false -> l = []) /\
            (nonneg_stock s -> Forall movement_balanced l).


(** The order that a transition addresses. *)
Definition op_target (op : OrderOp) : string :=
  match op with
  | OpAcceptOrder id _ _ _ | OpDeclineOrder id _ _ | OpCompleteOrder id _ _
  | OpCancelOrder id _ _ | OpExpireOrder id | OpForceCancelOrderAdmin id _ _
  | OpApproveOrderAdmin id _ _ => id
  end.

(** The change of status that a transition may write. *)
Definition op_edge (op : OrderOp) (from to : string) : Prop :=
  match op with
  | OpAcceptOrder _ _ _ _ => from = OrderStatus.PENDING /\ to = OrderStatus.ACCEPTED
  | OpDeclineOrder _ _ _ => from = OrderStatus.PENDING /\ to = OrderStatus.DECLINED
  | OpCompleteOrder _ _ _ => from = OrderStatus.ACCEPTED /\ to = OrderStatus.COMPLETED
  | OpCancelOrder _ _ _ => (from ∉ [OrderStatus.COMPLETED; OrderStatus.CANCELLED; OrderStatus.EXPIRED]) /\ to = OrderStatus.CANCELLED
  | OpExpireOrder _ => (from ∈ [OrderStatus.PENDING; "pending_confirmation"]) /\ to = OrderStatus.EXPIRED
  | OpForceCancelOrderAdmin _ _ _ => (from ∉ [OrderStatus.CANCELLED; OrderStatus.COMPLETED]) /\ to = OrderStatus.CANCELLED
  | OpApproveOrderAdmin _ _ _ => (from ∈ [OrderStatus.PENDING; OrderStatus.REVIEW]) /\ to = OrderStatus.ACCEPTED
  end.

(** An order as a transition rewrites it: its identity, lines and dates
    stay, and the timeline gets one more entry, for the new status. *)
Definition order_rewritten (o o' : Order) : Prop :=
  o_order_id o' = o_order_id o /\ o_merchant_id o' = o_merchant_id o /\
  customer_phone o' = customer_phone o /\ items o' = items o /\
  created_at o' = created_at o /\ expiry_time o' = expiry_time o /\
  sent_reminders o' = sent_reminders o /\
  (exists e, timeline o' = timeline o ++ [e] /\ tl_status e = status o') /\
  (inventory_deducted o' = true -> inventory_deducted o = true \/ status o' = OrderStatus.ACCEPTED).

(** What a transition may do to the order collection: nothing, or rewrite
    its own order along its edge. *)
Definition order_step (op : OrderOp) (s s' : State) : Prop :=
  orders s' = orders s \/
  exists o o',
    orders s !! op_target op = Some o /\
    orders s' = <[ op_target op := o' ]> (orders s) /\
    op_edge op (status o) (status o') /\ order_rewritten o o'.

(** A change of status that some transition may write. *)
Definition lifecycle_edge (from to : string) : Prop :=
  (to = OrderStatus.ACCEPTED /\ (from ∈ [OrderStatus.PENDING; OrderStatus.REVIEW])) \/
  (to = OrderStatus.DECLINED /\ from = OrderStatus.PENDING) \/
  (to = OrderStatus.COMPLETED /\ from = OrderStatus.ACCEPTED) \/
  (to = OrderStatus.EXPIRED /\ (from ∈ [OrderStatus.PENDING; "pending_confirmation"])) \/
  (to = OrderStatus.CANCELLED /\ (from ∉ [OrderStatus.CANCELLED; OrderStatus.COMPLETED])).

(** The last entry of the timeline records the status. *)
Definition timeline_tracks_status (o : Order) : Prop :=
  exists e, last (timeline o) = Some e /\ tl_status e = status o.

Definition is_force_cancel (op : OrderOp) : Prop :=
  match op with
  | OpForceCancelOrderAdmin _ _ _ => True
  | _ => False
  end.

(** The order is not one that merchant [m] may move out of status [from]. *)
Definition not_eligible (s : State) (id m from : string) : Prop :=
  match orders s !! id with
  | None => True
  | Some o => o_merchant_id o <> m \/ status o <> from
  end.

(** The lines of an order that a rollback can give back: each names a
    non-negative number, of a product on record unless the number is zero. *)
Definition returnable (s : State) (m : string) (its : list Item) : Prop :=
  Forall (fun it => exists q, item_qty it = Some q /\ (0 <= q)%Q /\
                              (~ (q == 0)%Q -> has_product s m (item_product_id it))) its.

(** The expiry time that [_check_and_process_expiry] compares with the
    clock: the one on the order, or the creation time plus the time to live
    when the order has none. *)
Definition effective_expiry (ttl_hours : Z) (o : Order) : option Z :=
  if ReminderSystem.time_falsy (expiry_time o) then
    match created_at o with
    | TimeAt created => Some (created + ttl_hours * 3600)%Z
    | TimeAbsent | TimeInvalid _ => None
    end
  else
    match expiry_time o with
    | TimeAt t => Some t
    | TimeAbsent | TimeInvalid _ => None
    end.

(** The coroutine is one of the two notifications of an expiry. *)
Definition is_expiry_notification (t : ReminderSystem.Spawned) : Prop :=
  match t with
  | ReminderSystem.UpdateOrderTask _ _ => False
  | ReminderSystem.NotifyMerchantExpiry _ _
  | ReminderSystem.NotifyCustomerExpiry _ _ => True
  end.


(** ** Scenarios *)

Module Scenario.

(** A store that applies every write, whose collection handles can be
    awaited, and a gateway that delivers. *)
Definition obliging : Driver := mkDriver WriteApplied WriteApplied true true.


(** A store whose stock write raises. *)
Definition failing_stock_write : Driver := mkDriver WriteRaises WriteApplied true true.

Definition rice (qty : Q) : gmap (string * string) Product :=
  {[ ("m1", "rice") := mkProduct "Rice" qty ]}.

(** Merchant [m1] holds [qty] of rice; there are no orders yet. *)
Definition shop (qty : Q) (d : Driver) : State :=
  mkState true (rice qty) ∅ {[ "m1" := mkMerchant (Some "+911234567890") ]}
          [] ∅ [] [] 1000 d.

Definition an_order (its_items : list Item) (its_status : string) (deducted : bool)
  : Order :=
  mkOrder "ORD-1" "m1" "+919999999999" its_items its_status deducted
          [mkTimelineEntry OrderStatus.PENDING 0
             "Order created and awaiting merchant confirmation" "system"]
          (TimeAt 0) (TimeAt 86400) [] 0 [].

(** The shop with one order on record. *)
Definition shop_with (qty : Q) (d : Driver) (o : Order) : State :=
  set_orders <[ o_order_id o := o ]> (shop qty d).

End Scenario.

(** One line asking for [q] of rice. *)
Definition rice_line (q : Q) : Item := mkItem "rice" (Some "Rice") (QtyNumber q).

(** The spec's scenario: rice at 10, an order for 4. *)
Definition pending_order_for_4 : Order :=
  Scenario.an_order [rice_line 4] OrderStatus.PENDING false.

(** * Properties *)

(** ** Comparisons *)

#[local] Arguments Qplus : simpl never.
#[local] Arguments Qminus : simpl never.
#[local] Arguments Qopp : simpl never.
#[local] Arguments Qmult : simpl never.
#[local] Arguments Qdiv : simpl never.
#[local] Arguments Qabs : simpl never.
#[local] Arguments Qle_bool : simpl never.
#[local] Arguments Qeq_bool : simpl never.
#[local] Arguments Qlt_bool : simpl never.
#[local] Arguments py_max : simpl never.

Lemma Qlt_bool_true (x y : Q) : Qlt_bool x y = true <-> (x < y)%Q.
Proof.
  unfold Qlt_bool. rewrite negb_true_iff.
  split.
  - intros H. apply Qnot_le_lt. intros Hle.
    apply Qle_bool_iff in Hle. congruence.
  - intros H. destruct (Qle_bool y x) eqn:E; [|reflexivity].
    apply Qle_bool_iff in E. lra.
Qed.

Lemma Qlt_bool_false (x y : Q) : Qlt_bool x y = false <-> (y <= x)%Q.
Proof.
  unfold Qlt_bool. rewrite negb_false_iff. apply Qle_bool_iff.
Qed.

Lemma Qeq_bool_false (x y : Q) : Qeq_bool x y = false <-> ~ (x == y)%Q.
Proof.
  split.
  - intros H Heq. apply Qeq_bool_iff in Heq. congruence.
  - intros H. destruct (Qeq_bool x y) eqn:E; [|reflexivity].
    apply Qeq_bool_iff in E. contradiction.
Qed.

Lemma py_max_nonneg (a : Q) : (0 <= py_max a 0)%Q.
Proof.
  unfold py_max. destruct (Qlt_bool a 0) eqn:E.
  - lra.
  - apply Qlt_bool_false in E. exact E.
Qed.

Lemma py_max_id (a : Q) : (0 <= a)%Q -> py_max a 0 = a.
Proof.
  intros H. unfold py_max.
  destruct (Qlt_bool a 0) eqn:E; [|reflexivity].
  apply Qlt_bool_true in E. lra.
Qed.

Lemma verify_same (x : Q) : Qlt_bool (1 # 1000000) (Qabs (x - x)) = false.
Proof.
  apply Qlt_bool_false.
  assert (H : (Qabs (x - x) == 0)%Q).
  { assert (H0 : (x - x == 0)%Q) by ring. rewrite H0. reflexivity. }
  rewrite H. discriminate.
Qed.

(** ** Stepping through the monad *)

Lemma bind_ok {A B} (m : M A) (k : A -> M B) s a s' :
  m s = (Ok a, s') -> bind m k s = k a s'.
Proof. intros H. unfold bind. rewrite H. reflexivity. Qed.

Lemma bind_raise {A B} (m : M A) (k : A -> M B) s e s' :
  m s = (Raise e, s') -> bind m k s = (Raise e, s').
Proof. intros H. unfold bind. rewrite H. reflexivity. Qed.

Lemma bind_inv {A B} (m : M A) (k : A -> M B) s r s' :
  bind m k s = (r, s') ->
  (exists a s1, m s = (Ok a, s1) /\ k a s1 = (r, s')) \/
  (exists e, m s = (Raise e, s') /\ r = Raise e).
Proof.
  unfold bind. destruct (m s) as [[a|e] s1]; intros H.
  - left. eauto.
  - right. inversion H; subst. eauto.
Qed.

Lemma try_except_inv {A} (body : M A) (handler : PyExc -> M A) s r s' :
  try_except body handler s = (r, s') ->
  (exists a, body s = (Ok a, s') /\ r = Ok a) \/
  (exists e s1, body s = (Raise e, s1) /\ handler e s1 = (r, s')).
Proof.
  unfold try_except. destruct (body s) as [[a|e] s1]; intros H.
  - left. inversion H; subst. eauto.
  - right. eauto.
Qed.

(** ** Quantities never go negative *)

Section NonNegative.

Lemma preserves_ret {A} (a : A) : preserves (ret a).
Proof. intros s r s' Hs H. inversion H; subst. exact Hs. Qed.

Lemma preserves_raise {A} (e : PyExc) : preserves (@raise A e).
Proof. intros s r s' Hs H. inversion H; subst. exact Hs. Qed.

Lemma preserves_lift {A} (x : Result A) : preserves (lift x).
Proof. intros s r s' Hs H. inversion H; subst. exact Hs. Qed.

Lemma preserves_get_state : preserves get_state.
Proof. intros s r s' Hs H. inversion H; subst. exact Hs. Qed.

Lemma preserves_bind {A B} (m : M A) (k : A -> M B) :
  preserves m -> (forall a, preserves (k a)) -> preserves (bind m k).
Proof.
  intros Hm Hk s r s' Hs H.
  apply bind_inv in H as [(a & s1 & H1 & H2) | (e & H1 & _)].
  - eapply Hk; [|exact H2]. eapply Hm; eauto.
  - eapply Hm; eauto.
Qed.

Lemma preserves_try_except {A} (body : M A) (handler : PyExc -> M A) :
  preserves body -> (forall e, preserves (handler e)) ->
  preserves (try_except body handler).
Proof.
  intros Hb Hh s r s' Hs H.
  apply try_except_inv in H as [(a & H1 & _) | (e & s1 & H1 & H2)].
  - eapply Hb; eauto.
  - eapply Hh; [|exact H2]. eapply Hb; eauto.
Qed.

Lemma preserves_modify (f : State -> State) :
  (forall s, products (f s) = products s) -> preserves (modify f).
Proof.
  intros Hf s r s' Hs H. inversion H; subst.
  intros k pr Hk. rewrite Hf in Hk. eauto.
Qed.

Ltac preserve_step :=
  first
    [ apply preserves_ret
    | apply preserves_raise
    | apply preserves_lift
    | apply preserves_get_state
    | apply preserves_modify; intros; reflexivity
    | apply preserves_bind; [|intros]
    | apply preserves_try_except; [|intros]
    | match goal with
      | |- preserves (match ?x with _ => _ end) => destruct x
      | |- preserves (if ?b then _ else _) => destruct b
      end ].

(** The single write primitive of the store refuses a negative value. *)
Lemma preserves_update_product_stock m p q :
  preserves (DatabaseV6.update_product_stock m p q).
Proof.
  unfold DatabaseV6.update_product_stock.
  destruct (Qlt_bool q 0) eqn:E; [apply preserves_raise|].
  apply Qlt_bool_false in E.
  unfold DatabaseV6.get_product.
  apply preserves_bind; [intros s r s' Hs H; inversion H; subst; exact Hs|].
  intros [doc|]; [|apply preserves_raise].
  apply preserves_bind; [apply preserves_get_state|].
  intros s0. destruct (products_update_one (driver s0)); repeat preserve_step.
  intros s r s' Hs H. inversion H; subst.
  intros k pr Hk. simpl in Hk.
  destruct (decide (k = (m, p))) as [->|Hne].
  - rewrite lookup_insert_eq in Hk. inversion Hk; subst. exact E.
  - rewrite lookup_insert_ne in Hk by congruence. eauto.
Qed.

Lemma preserves_get_product m p : preserves (InventoryManagerV6.get_product m p).
Proof.
  unfold InventoryManagerV6.get_product, DatabaseV6.get_product.
  repeat preserve_step.
  intros s r s' Hs H. inversion H; subst. exact Hs.
Qed.

Lemma preserves_log_stock_movement m p n t d o nw role :
  preserves (InventoryManagerV6._log_stock_movement m p n t d o nw role).
Proof.
  unfold InventoryManagerV6._log_stock_movement, DatabaseV6.await_get_collection.
  repeat preserve_step.
Qed.

Lemma preserves_update_quantity m p d reason role :
  preserves (InventoryManagerV6.update_quantity m p d reason role).
Proof.
  unfold InventoryManagerV6.update_quantity, InventoryManagerV6._get_lock,
    InventoryManagerV6.async_with_lock.
  repeat first [ apply preserves_update_product_stock
               | apply preserves_get_product
               | apply preserves_log_stock_movement
               | preserve_step ].
Qed.

Lemma preserves_adjust_stock_admin m p q admin reason :
  preserves (InventoryManagerV6.adjust_stock_admin m p q admin reason).
Proof.
  unfold InventoryManagerV6.adjust_stock_admin, InventoryManagerV6._get_lock,
    InventoryManagerV6.async_with_lock.
  repeat first [ apply preserves_update_product_stock
               | apply preserves_get_product
               | apply preserves_log_stock_movement
               | preserve_step ].
Qed.








End NonNegative.

(** ** [update_quantity] on its own *)

Section UpdateQuantity.

Import InventoryManagerV6.

Variables (merchant_id product_id : string) (change_reason role : string).

Lemma update_quantity_zero (d : Q) (s : State) :
  (d == 0)%Q ->
  update_quantity merchant_id product_id d change_reason role s = (Ok true, s).
Proof.
  intros H. unfold update_quantity.
  apply Qeq_bool_iff in H. rewrite H. reflexivity.
Qed.

Lemma get_lock_run (key : string) (s : State) :
  exists s', _get_lock key s = (Ok tt, s') /\
    products s' = products s /\ stock_movements s' = stock_movements s /\
    lock_acquisitions s' = lock_acquisitions s /\ inventory_frame s s'.
Proof.
  unfold _get_lock, bind, get_state.
  destruct (decide (key ∈ locks s)).
  - exists s. unfold inventory_frame. auto 10.
  - eexists. split; [reflexivity|]. unfold inventory_frame. simpl. auto 10.
Qed.

Lemma get_product_run (s : State) :
  db_initialized s = true ->
  get_product merchant_id product_id s
  = (Ok (products s !! (merchant_id, product_id)), s).
Proof.
  intros H. unfold get_product, bind, get_state. rewrite H. reflexivity.
Qed.

(** A deduction that would go below zero is refused before any write. *)
Lemma update_quantity_reject (d : Q) (prod : Product) (s : State) :
  db_initialized s = true ->
  products s !! (merchant_id, product_id) = Some prod ->
  (d < 0)%Q -> (stock_qty prod + d < 0)%Q ->
  exists s',
    update_quantity merchant_id product_id d change_reason role s = (Ok false, s') /\
    products s' = products s /\ stock_movements s' = stock_movements s /\
    inventory_frame s s'.
Proof.
  intros Hinit Hprod Hd Hneg.
  unfold update_quantity.
  assert (Hz : Qeq_bool d 0 = false) by (apply Qeq_bool_false; lra).
  rewrite Hz.
  destruct (get_lock_run (lock_key_of merchant_id product_id) s)
    as (s1 & Hlock & Hp1 & Hm1 & Ha1 & Hf1).
  rewrite (bind_ok _ _ _ Hlock).
  destruct Hf1 as (Hi1 & Ho1 & Hme1 & Hou1 & Hc1 & Hd1).
  unfold async_with_lock, modify, bind at 1.
  unfold try_except.
  rewrite (bind_ok _ _ _ (get_product_run (set_lock_acquisitions _ s1)
                                            (eq_trans Hi1 Hinit))).
  simpl. rewrite Hp1, Hprod.
  apply Qlt_bool_true in Hd. apply Qlt_bool_true in Hneg.
  rewrite Hd, Hneg. simpl.
  eexists. split; [reflexivity|]. simpl.
  unfold inventory_frame. simpl. auto 10.
Qed.

(** Any other non-zero change is written, clamped at zero, when the store
    applies the write. *)
Lemma update_quantity_commit (d : Q) (prod : Product) (s : State) :
  store_ok s ->
  products s !! (merchant_id, product_id) = Some prod ->
  ~ (d == 0)%Q -> ~ ((d < 0)%Q /\ (stock_qty prod + d < 0)%Q) ->
  exists s',
    update_quantity merchant_id product_id d change_reason role s = (Ok true, s') /\
    products s'
    = <[ (merchant_id, product_id) :=
           mkProduct (product_name prod) (py_max (stock_qty prod + d) 0) ]> (products s) /\
    stock_movements s'
    = (if handle_awaitable (driver s)
       then stock_movements s ++ [mkMovement merchant_id product_id (product_name prod) change_reason d
                     (stock_qty prod) (py_max (stock_qty prod + d) 0) role (clock s)]
       else stock_movements s) /\
    inventory_frame s s'.
Proof.
  intros [Hinit Hdrv] Hprod Hd Hok.
  unfold update_quantity.
  apply Qeq_bool_false in Hd. rewrite Hd.
  destruct (get_lock_run (lock_key_of merchant_id product_id) s)
    as (s1 & Hlock & Hp1 & Hm1 & Ha1 & Hf1).
  rewrite (bind_ok _ _ _ Hlock).
  destruct Hf1 as (Hi1 & Ho1 & Hme1 & Hou1 & Hc1 & Hd1).
  unfold async_with_lock, modify, bind at 1.
  unfold try_except.
  rewrite (bind_ok _ _ _ (get_product_run (set_lock_acquisitions _ s1)
                                            (eq_trans Hi1 Hinit))).
  simpl. rewrite Hp1, Hprod.
  assert (Hv : Qlt_bool d 0 && Qlt_bool (stock_qty prod + d) 0 = false).
  { destruct (Qlt_bool d 0) eqn:E1; [|reflexivity].
    destruct (Qlt_bool (stock_qty prod + d) 0) eqn:E2; [|reflexivity].
    apply Qlt_bool_true in E1. apply Qlt_bool_true in E2. tauto. }
  rewrite Hv.
  unfold bind, DatabaseV6.update_product_stock.
  assert (Hnn : Qlt_bool (py_max (stock_qty prod + d) 0) 0 = false)
    by (apply Qlt_bool_false, py_max_nonneg).
  rewrite Hnn.
  unfold bind, DatabaseV6.get_product, get_state, modify, ret. simpl.
  rewrite Hp1, Hprod. simpl. rewrite Hd1, Hdrv. simpl.
  unfold get_product, bind, get_state, DatabaseV6.get_product. simpl.
  rewrite Hi1, Hinit. simpl.
  rewrite lookup_insert_eq. simpl.
  rewrite verify_same.
  unfold _log_stock_movement, bind, get_state, try_except,
    DatabaseV6.await_get_collection. simpl.
  rewrite Hi1, Hinit. simpl. unfold bind, get_state. simpl. rewrite Hd1.
  destruct (handle_awaitable (driver s)); simpl;
    (eexists; split; [reflexivity|]; simpl;
     unfold inventory_frame; simpl;
     rewrite ?Hp1, ?Hm1, ?Hc1; auto 10).
Qed.

End UpdateQuantity.

Section UpdateQuantityOutcome.

Import InventoryManagerV6.

Variables (merchant_id product_id : string) (change_reason role : string).

Lemma get_product_eq (m p : string) (s : State) :
  get_product m p s
  = (Ok (if db_initialized s then products s !! (m, p) else None), s).
Proof.
  unfold get_product, bind, get_state.
  destruct (db_initialized s); reflexivity.
Qed.

Lemma update_product_stock_run (m p : string) (q : Q) (doc : Product) (s : State) :
  (0 <= q)%Q -> products s !! (m, p) = Some doc ->
  DatabaseV6.update_product_stock m p q s
  = match products_update_one (driver s) with
    | WriteApplied =>
        (Ok true, set_products <[ (m, p) := mkProduct (product_name doc) q ]> s)
    | WriteLost => (Ok false, s)
    | WriteRaises => (Raise (DriverError "products.update_one failed"), s)
    end.
Proof.
  intros Hq Hdoc. unfold DatabaseV6.update_product_stock.
  apply Qlt_bool_false in Hq. rewrite Hq.
  unfold bind, DatabaseV6.get_product, get_state. rewrite Hdoc.
  destruct (products_update_one (driver s)); reflexivity.
Qed.

Lemma log_stock_movement_run (m p n t : string) (d o nw : Q) (r : string) (s : State) :
  _log_stock_movement m p n t d o nw r s
  = (Ok tt,
     if db_initialized s && handle_awaitable (driver s)
     then set_stock_movements
            (fun l => l ++ [mkMovement m p n t d o nw r (clock s)]) s
     else s).
Proof.
  unfold _log_stock_movement, bind, get_state, try_except,
    DatabaseV6.await_get_collection.
  destruct (db_initialized s); simpl; [|reflexivity].
  unfold bind, get_state.
  destruct (handle_awaitable (driver s)); reflexivity.
Qed.

Ltac frame_solve :=
  unfold inventory_frame in *; simpl;
  repeat match goal with
         | |- context [if ?b then _ else _] => destruct b; simpl
         end;
  intuition congruence.

Lemma update_quantity_outcome (d : Q) (s : State) :
  ~ (d == 0)%Q ->
  exists b s',
    update_quantity merchant_id product_id d change_reason role s = (Ok b, s') /\
    (b = false <-> UpdateFailure s merchant_id product_id d) /\
    inventory_frame s s' /\
    (b = false ->
     products s' = products s /\ stock_movements s' = stock_movements s).
Proof.
  intros Hd. unfold update_quantity.
  apply Qeq_bool_false in Hd. rewrite Hd.
  destruct (get_lock_run (lock_key_of merchant_id product_id) s)
    as (s1 & Hlock & Hp1 & Hm1 & Ha1 & Hf1).
  rewrite (bind_ok _ _ _ Hlock).
  unfold async_with_lock, modify, bind at 1.
  set (s2 := set_lock_acquisitions _ s1).
  assert (Hf2 : inventory_frame s s2) by exact Hf1.
  assert (Hp2 : products s2 = products s) by exact Hp1.
  assert (Hm2 : stock_movements s2 = stock_movements s) by exact Hm1.
  clearbody s2. clear Hlock Hp1 Hm1 Ha1 Hf1 s1.
  assert (Hi2 : db_initialized s2 = db_initialized s) by apply Hf2.
  assert (Hd2 : driver s2 = driver s) by apply Hf2.
  unfold try_except.
  rewrite (bind_ok _ _ _ (get_product_eq _ _ _)).
  rewrite Hi2, Hp2.
  destruct (db_initialized s) eqn:Hinit.
  2:{ exists false. eexists. split; [reflexivity|].
      split; [split; [intros _; apply StoreNotInitialized; exact Hinit | reflexivity]|].
      split; [exact Hf2 | auto]. }
  destruct (products s !! (merchant_id, product_id)) as [prod|] eqn:Hprod.
  2:{ exists false. eexists. split; [reflexivity|].
      split; [split; [intros _; apply ProductNotFound; exact Hprod | reflexivity]|].
      split; [exact Hf2 | auto]. }
  destruct (Qlt_bool d 0 && Qlt_bool (stock_qty prod + d) 0) eqn:Hv.
  { apply andb_true_iff in Hv as [E1 E2].
    apply Qlt_bool_true in E1. apply Qlt_bool_true in E2.
    exists false. eexists. split; [reflexivity|].
    split; [split; [intros _; eapply InsufficientStockFor; eauto | reflexivity]|].
    split; [exact Hf2 | auto]. }
  assert (Hsuff : ~ ((d < 0)%Q /\ (stock_qty prod + d < 0)%Q)).
  { intros [E1 E2]. apply Qlt_bool_true in E1. apply Qlt_bool_true in E2.
    rewrite E1, E2 in Hv. discriminate. }
  assert (Hprod2 : products s2 !! (merchant_id, product_id) = Some prod)
    by (rewrite Hp2; exact Hprod).
  assert (Hrun := update_product_stock_run _ _ _
                    (py_max_nonneg (stock_qty prod + d)) Hprod2).
  rewrite Hd2 in Hrun.
  destruct (products_update_one (driver s)) eqn:Hmode.
  - (* the write is applied *)
    rewrite (bind_ok _ _ _ Hrun).
    rewrite (bind_ok _ _ _ (get_product_eq _ _ _)).
    simpl. rewrite Hi2, lookup_insert_eq. simpl. rewrite verify_same.
    rewrite (bind_ok _ _ _ (log_stock_movement_run _ _ _ _ _ _ _ _ _)).
    exists true. eexists. split; [reflexivity|].
    split; [split; [discriminate|]|split; [frame_solve|discriminate]].
    intros [H|H|p0 H H1 H2|p0 H H1|p0 H H1 H2]; try congruence.
    exfalso. apply Hsuff. split; congruence.
  - (* the write is lost *)
    rewrite (bind_ok _ _ _ Hrun).
    rewrite (bind_ok _ _ _ (get_product_eq _ _ _)).
    rewrite Hi2, Hp2, Hprod.
    destruct (Qlt_bool (1 # 1000000)
                (Qabs (stock_qty prod - py_max (stock_qty prod + d) 0))) eqn:Hver.
    + exists false. eexists. split; [reflexivity|].
      split; [split; [intros _|reflexivity]|split; [exact Hf2 | auto]].
      eapply VerificationMismatch; eauto. apply Qlt_bool_true. exact Hver.
    + rewrite (bind_ok _ _ _ (log_stock_movement_run _ _ _ _ _ _ _ _ _)).
      exists true. eexists. split; [reflexivity|].
      split; [split; [discriminate|]|split; [frame_solve|discriminate]].
      intros [H|H|p0 H H1 H2|p0 H H1|p0 H H1 H2]; try congruence.
      * exfalso. apply Hsuff. split; congruence.
      * apply Qlt_bool_false in Hver.
        assert (p0 = prod) by congruence. subst p0. lra.
  - (* the write raises *)
    rewrite (bind_raise _ _ _ Hrun).
    exists false. eexists. split; [reflexivity|].
    split; [split; [intros _; eapply StoreRaised; eauto | reflexivity]|].
    split; [exact Hf2 | auto].
Qed.

End UpdateQuantityOutcome.


(** ** Claims about [update_quantity] *)

(** C10. A call of [update_quantity] with a zero change returns true at once
    and leaves the whole state as it was: no lock is created or acquired,
    nothing is written, no movement is logged.  So do [deduct_stock] and
    [return_stock] with a zero quantity. *)
Theorem zero_change_is_noop (merchant_id product_id change_reason role : string)
    (d : Q) (s : State) :
  (d == 0)%Q ->
  InventoryManagerV6.update_quantity merchant_id product_id d change_reason role s
  = (Ok true, s) /\
  InventoryManagerV6.deduct_stock merchant_id product_id d role s = (Ok true, s) /\
  InventoryManagerV6.return_stock merchant_id product_id d role s = (Ok true, s).
Proof.
  intros H. split; [apply update_quantity_zero; exact H|].
  assert (Hlt : Qlt_bool d 0 = false) by (apply Qlt_bool_false; lra).
  assert (Heq : Qeq_bool d 0 = true) by (apply Qeq_bool_iff; exact H).
  unfold InventoryManagerV6.deduct_stock, InventoryManagerV6.return_stock.
  rewrite Hlt, Heq. split; reflexivity.
Qed.

Lemma zero_change_is_noop_witness :
  let s := Scenario.shop 10 Scenario.obliging in
  InventoryManagerV6.update_quantity "m1" "rice" 0 "order_update" "merchant" s
  = (Ok true, s) /\
  InventoryManagerV6.deduct_stock "m1" "rice" 0 "merchant" s = (Ok true, s) /\
  InventoryManagerV6.return_stock "m1" "rice" 0 "merchant" s = (Ok true, s).
Proof.
  intros s. apply (zero_change_is_noop "m1" "rice" "order_update" "merchant" (d:=0) s).
  reflexivity.
Defined.

(** C3, as the code has it.  For a product on record with quantity
    [current], on a store that applies its writes: a zero [delta] returns
    true and changes nothing; if [delta < 0] and [current + delta < 0] the
    call returns false and neither the products nor the movement log change;
    any other [delta] returns true and writes exactly
    [max(current + delta, 0)], and the movement it builds records the old and
    the new quantity (it reaches the log when the collection handle can be
    awaited). *)
Theorem update_quantity_effect (merchant_id product_id change_reason role : string)
    (d : Q) (prod : Product) (s : State) :
  store_ok s ->
  products s !! (merchant_id, product_id) = Some prod ->
  let run := InventoryManagerV6.update_quantity merchant_id product_id d
               change_reason role s in
  ((d == 0)%Q -> run = (Ok true, s)) /\
  ((d < 0)%Q -> (stock_qty prod + d < 0)%Q ->
   run.1 = Ok false /\ products run.2 = products s /\
   stock_movements run.2 = stock_movements s) /\
  (~ (d == 0)%Q -> ~ ((d < 0)%Q /\ (stock_qty prod + d < 0)%Q) ->
   run.1 = Ok true /\
   products run.2
   = <[ (merchant_id, product_id) :=
          mkProduct (product_name prod) (py_max (stock_qty prod + d) 0) ]> (products s) /\
   (handle_awaitable (driver s) = true ->
    stock_movements run.2
    = stock_movements s ++
      [mkMovement merchant_id product_id (product_name prod) change_reason d
                  (stock_qty prod) (py_max (stock_qty prod + d) 0) role (clock s)])).
Proof.
  intros Hok Hprod run. subst run. split; [|split].
  - apply update_quantity_zero.
  - intros Hd Hneg.
    destruct (update_quantity_reject merchant_id product_id change_reason role
                s (proj1 Hok) Hprod Hd Hneg) as (s' & -> & Hp & Hm & _).
    simpl. auto.
  - intros Hd Hsuff.
    destruct (update_quantity_commit merchant_id product_id change_reason role
                Hok Hprod Hd Hsuff) as (s' & -> & Hp & Hm & _).
    simpl. split; [reflexivity|]. split; [exact Hp|].
    intros Haw. rewrite Hm, Haw. reflexivity.
Qed.

Lemma update_quantity_effect_witness :
  let s := Scenario.shop 10 Scenario.obliging in
  let run := InventoryManagerV6.update_quantity "m1" "rice" (-4) "deduction" "merchant" s in
  run.1 = Ok true /\
  products run.2 = <[ ("m1", "rice") := mkProduct "Rice" (py_max (10 + -4) 0) ]> (products s).
Proof.
  intros s run.
  assert (Hok : store_ok s) by (split; reflexivity).
  assert (Hprod : products s !! ("m1", "rice") = Some (mkProduct "Rice" 10))
    by reflexivity.
  destruct (update_quantity_effect "m1" "rice" "deduction" "merchant" (-4) Hok Hprod)
    as (_ & _ & H).
  destruct H as (H1 & H2 & _).
  - intros H. vm_compute in H. discriminate.
  - intros [_ H]. vm_compute in H. discriminate.
  - split; [exact H1 | exact H2].
Defined.

(** C3 as stated fails for a zero [delta]: the call is not the refused
    deduction ([0 < 0] is false), yet nothing is appended to the movement
    log, on a store whose log works. *)
Lemma update_quantity_zero_logs_nothing :
  let s := Scenario.shop 10 Scenario.obliging in
  let run := InventoryManagerV6.update_quantity "m1" "rice" 0 "order_update" "merchant" s in
  products s !! ("m1", "rice") = Some (mkProduct "Rice" 10) /\
  ~ ((0 < 0)%Q /\ (10 + 0 < 0)%Q) /\
  run.1 = Ok true /\
  stock_movements run.2 = stock_movements s /\
  length (stock_movements run.2) <> S (length (stock_movements s)).
Proof.
  vm_compute. repeat split; try discriminate.
  intros [H _]. discriminate.
Qed.

(** C7, as the code has it.  [update_quantity] never raises.  It returns
    false exactly when the change is not zero and the store is not
    initialised, or the product is not found, or the stock is insufficient,
    or the store raises during the write, or the value read back differs
    from the value written; in every other case it returns true. *)
Theorem update_quantity_never_raises (merchant_id product_id change_reason role : string)
    (d : Q) (s : State) :
  exists b s',
    InventoryManagerV6.update_quantity merchant_id product_id d change_reason role s
    = (Ok b, s') /\
    (b = false <-> ~ (d == 0)%Q /\ UpdateFailure s merchant_id product_id d).
Proof.
  destruct (Qeq_dec d 0) as [Hz|Hnz].
  - exists true, s. split; [apply update_quantity_zero; exact Hz|].
    split; [discriminate | intros [H _]; contradiction].
  - destruct (update_quantity_outcome merchant_id product_id change_reason role s Hnz)
      as (b & s' & Hrun & Hb & _).
    exists b, s'. split; [exact Hrun|]. rewrite Hb. tauto.
Qed.

(** C7 as stated fails when the store raises during the write: the stock
    suffices ([10 - 4 >= 0]), the driver raises, and the caller gets the
    value false, not an exception. *)
Lemma update_quantity_store_error_returns_false :
  let s := Scenario.shop 10 Scenario.failing_stock_write in
  DatabaseV6.update_product_stock "m1" "rice" 6 s
  = (Raise (DriverError "products.update_one failed"), s) /\
  ~ ((-4 < 0)%Q /\ (10 + -4 < 0)%Q) /\
  (InventoryManagerV6.update_quantity "m1" "rice" (-4) "deduction" "merchant" s).1
  = Ok false.
Proof.
  vm_compute. repeat split.
  intros [_ H]. discriminate.
Qed.

(** ** Stock changes on a store that applies its writes *)

Section StockSteps.

Import InventoryManagerV6.

Lemma inventory_frame_refl s : inventory_frame s s.
Proof. unfold inventory_frame. auto 10. Qed.

Lemma inventory_frame_trans s1 s2 s3 :
  inventory_frame s1 s2 -> inventory_frame s2 s3 -> inventory_frame s1 s3.
Proof.
  unfold inventory_frame.
  intros (A1 & A2 & A3 & A4 & A5 & A6) (B1 & B2 & B3 & B4 & B5 & B6).
  repeat split; congruence.
Qed.

Lemma store_ok_frame s s' : inventory_frame s s' -> store_ok s -> store_ok s'.
Proof.
  intros (A1 & _ & _ & _ & _ & A6) [H1 H2]. split; congruence.
Qed.

Lemma orders_ok_frame s s' : inventory_frame s s' -> orders_ok s -> orders_ok s'.
Proof.
  intros (_ & _ & _ & _ & _ & A6) H. unfold orders_ok in *. congruence.
Qed.

Lemma stock_step_refl m delta s :
  (forall p, (delta p == 0)%Q) -> stock_step m delta s s.
Proof.
  intros H. split; [apply inventory_frame_refl|].
  split; [tauto|]. split; [|reflexivity].
  intros p. rewrite H. ring.
Qed.

Lemma stock_step_trans m d1 d2 d s1 s2 s3 :
  stock_step m d1 s1 s2 -> stock_step m d2 s2 s3 ->
  (forall p, (d p == d1 p + d2 p)%Q) ->
  stock_step m d s1 s3.
Proof.
  intros (F1 & D1 & S1 & O1) (F2 & D2 & S2 & O2) Hd.
  split; [eapply inventory_frame_trans; eauto|].
  split; [intros k; rewrite D2; apply D1|].
  split.
  - intros p. rewrite S2, S1, Hd. ring.
  - intros m' p Hm. rewrite O2, O1 by exact Hm. reflexivity.
Qed.

Lemma stock_step_has_product m delta s s' p :
  stock_step m delta s s' -> has_product s m p -> has_product s' m p.
Proof. intros (_ & D & _) H. apply D. exact H. Qed.

(** A non-zero change that the stock covers moves the quantity by exactly
    that change. *)
Lemma update_quantity_step m p d reason role s :
  store_ok s -> has_product s m p -> ~ (d == 0)%Q ->
  (0 <= stock_of s m p + d)%Q ->
  exists s',
    update_quantity m p d reason role s = (Ok true, s') /\
    stock_step m (fun p' => if String.eqb p p' then d else 0%Q) s s'.
Proof.
  intros Hok [prod Hprod] Hd Hcov.
  unfold stock_of in Hcov. rewrite Hprod in Hcov.
  destruct (update_quantity_commit m p reason role Hok Hprod Hd)
    as (s' & Hrun & Hp & _ & Hf).
  { intros [_ H]. lra. }
  exists s'. split; [exact Hrun|].
  rewrite (py_max_id Hcov) in Hp.
  split; [exact Hf|]. split; [|split].
  - intros k. rewrite Hp.
    destruct (decide (k = (m, p))) as [->|Hne].
    + rewrite lookup_insert_eq, Hprod. split; eauto.
    + rewrite lookup_insert_ne by congruence. tauto.
  - intros p'. unfold stock_of. rewrite Hp.
    destruct (String.eqb_spec p p') as [->|Hne].
    + rewrite lookup_insert_eq, Hprod. simpl. reflexivity.
    + rewrite lookup_insert_ne by congruence.
      destruct (products s !! (m, p')); ring.
  - intros m' p' Hm. rewrite Hp. rewrite lookup_insert_ne by congruence.
    reflexivity.
Qed.

Lemma stock_of_nonneg s m p : nonneg_stock s -> (0 <= stock_of s m p)%Q.
Proof.
  intros H. unfold stock_of.
  destruct (products s !! (m, p)) as [prod|] eqn:E; [eapply H; eauto | lra].
Qed.

(** Returning quantities, one [update_quantity] after another. *)
Lemma rollback_run m reason role (qs : list (string * Q)) :
  forall s,
    store_ok s -> (forall p, (0 <= stock_of s m p)%Q) ->
    Forall (fun pq => (0 <= pq.2)%Q /\ (~ (pq.2 == 0)%Q -> has_product s m pq.1)) qs ->
    exists rs s',
      gather_return_exceptions
        (map (fun pq => update_quantity m pq.1 pq.2 reason role) qs) s
      = (Ok rs, s') /\
      rs = map (fun _ => Ok true) qs /\
      stock_step m (fun p => total p qs) s s'.
Proof.
  induction qs as [|[p q] rest IH]; intros s Hok Hnn Hall; simpl.
  - exists [], s. split; [reflexivity|]. split; [reflexivity|].
    apply stock_step_refl. reflexivity.
  - inversion Hall as [|? ? [Hq Hhas] Hrest]; subst. simpl in Hq, Hhas.
    assert (Hstep : exists s1,
               update_quantity m p q reason role s = (Ok true, s1) /\
               stock_step m (fun p' => if String.eqb p p' then q else 0%Q) s s1).
    { destruct (Qeq_dec q 0) as [Hz|Hnz].
      - exists s. split; [apply update_quantity_zero; exact Hz|].
        apply stock_step_refl. intros p'.
        destruct (String.eqb p p'); [exact Hz|reflexivity].
      - apply update_quantity_step; auto.
        specialize (Hnn p). lra. }
    destruct Hstep as (s1 & Hrun & Hst).
    assert (Hnn1 : forall p', (0 <= stock_of s1 m p')%Q).
    { intros p'. destruct Hst as (_ & _ & Hs & _). rewrite Hs.
      specialize (Hnn p'). destruct (String.eqb p p'); lra. }
    destruct (IH s1) as (rs & s2 & Hg & Hrs & Hst2).
    { eapply store_ok_frame; [apply Hst | exact Hok]. }
    { exact Hnn1. }
    { eapply Forall_impl; [exact Hrest|]. intros [p' q'] [H1 H2]. simpl in *.
      split; [exact H1|]. intros H. eapply stock_step_has_product; eauto. }
    exists (Ok true :: rs), s2.
    split.
    { unfold bind, try_except, ret. rewrite Hrun, Hg. reflexivity. }
    split; [rewrite Hrs; reflexivity|].
    eapply stock_step_trans; [exact Hst | exact Hst2 |].
    intros p'. simpl. reflexivity.
Qed.

End StockSteps.

(** ** The loop of [batch_deduct_stock] *)

Section BatchLoop.

Import InventoryManagerV6.

Variables (m role : string).

Lemma item_qty_number item q : item_qty item = Some q -> item_quantity item = QtyNumber q.
Proof. unfold item_qty. destruct (item_quantity item); congruence. Qed.

(** An item that the stock covers is debited. *)
Lemma deduct_item_ok item q results successful s :
  store_ok s ->
  item_qty item = Some q -> (0 <= q)%Q ->
  (~ (q == 0)%Q -> has_product s m (item_product_id item)) ->
  (q <= stock_of s m (item_product_id item))%Q ->
  exists s',
    deduct_item m role item results successful s
    = (Ok (Continue (results ++ [item_ok_result item])
                    (successful ++ item_deductions item)), s') /\
    stock_step m (fun p => if String.eqb (item_product_id item) p then - q else 0%Q) s s'.
Proof.
  intros Hok Hq Hq0 Hhas Hcov.
  unfold deduct_item, item_ok_result, item_deductions.
  rewrite Hq. rewrite (item_qty_number _ Hq).
  unfold try_except.
  rewrite (bind_ok _ _ _ (eq_refl : lift (py_float None (QtyNumber q)) s = (Ok q, s))).
  assert (Hlt : Qlt_bool q 0 = false) by (apply Qlt_bool_false; exact Hq0).
  rewrite Hlt.
  destruct (Qeq_bool q 0) eqn:Hz.
  - exists s. split; [rewrite app_nil_r; reflexivity|].
    apply Qeq_bool_iff in Hz. apply stock_step_refl. intros p.
    destruct (String.eqb _ p); [rewrite Hz|]; reflexivity.
  - apply Qeq_bool_false in Hz.
    destruct (update_quantity_step (m:=m) (p:=item_product_id item) (d:=-q)
                "batch_deduction" role Hok (Hhas Hz))
      as (s' & Hrun & Hst).
    { intros H. apply Hz. lra. }
    { lra. }
    exists s'. rewrite (bind_ok _ _ _ Hrun). split; [reflexivity | exact Hst].
Qed.

Lemma demand_nonneg p its :
  Forall (fun it => forall q, item_qty it = Some q -> (0 <= q)%Q) its ->
  (0 <= demand p its)%Q.
Proof.
  induction 1 as [|it rest Hit _ IH]; simpl; [lra|].
  destruct (String.eqb (item_product_id it) p); [|lra].
  destruct (item_qty it) as [q|]; [|lra].
  specialize (Hit q eq_refl). lra.
Qed.

Lemma debitable_quantities s its :
  debitable s m its ->
  Forall (fun it => forall q, item_qty it = Some q -> (0 <= q)%Q) its.
Proof.
  intros [H _]. eapply Forall_impl; [exact H|].
  intros it (q & Hq & Hq0 & _) q' Hq'. congruence.
Qed.

(** The loop debits a debitable prefix and goes on with the rest. *)
Lemma deduct_loop_debitable pre :
  forall s results successful rest,
    store_ok s -> debitable s m pre ->
    exists s',
      deduct_loop m role (pre ++ rest) results successful s
      = deduct_loop m role rest (results ++ map item_ok_result pre)
                    (successful ++ flat_map item_deductions pre) s' /\
      stock_step m (fun p => - demand p pre) s s'.
Proof.
  induction pre as [|it pre IH]; intros s results successful rest Hok Hdeb.
  - exists s. simpl. rewrite !app_nil_r. split; [reflexivity|].
    apply stock_step_refl. intros p. reflexivity.
  - pose proof (debitable_quantities Hdeb) as Hqs.
    destruct Hdeb as [Hall Hdem].
    inversion Hall as [|? ? (q & Hq & Hq0 & Hhas) Hrest]; subst.
    inversion Hqs as [|? ? _ Hqs']; subst.
    assert (Hcov : (q <= stock_of s m (item_product_id it))%Q).
    { specialize (Hdem (item_product_id it)). simpl in Hdem.
      rewrite String.eqb_refl, Hq in Hdem.
      pose proof (demand_nonneg (item_product_id it) Hqs'). lra. }
    destruct (deduct_item_ok it results successful Hok Hq Hq0 Hhas Hcov)
      as (s1 & Hrun & Hst).
    destruct (IH s1 (results ++ [item_ok_result it])
                 (successful ++ item_deductions it) rest)
      as (s2 & Hloop & Hst2).
    { eapply store_ok_frame; [apply Hst | exact Hok]. }
    { split.
      - eapply Forall_impl; [exact Hrest|].
        intros it' (q' & H1 & H2 & H3). exists q'. split; [exact H1|].
        split; [exact H2|]. intros H. eapply stock_step_has_product; eauto.
      - intros p. destruct Hst as (_ & _ & Hs & _). rewrite Hs.
        specialize (Hdem p). simpl in Hdem. rewrite Hq in Hdem.
        destruct (String.eqb (item_product_id it) p); lra. }
    exists s2. split.
    + simpl. rewrite (bind_ok _ _ _ Hrun). rewrite Hloop.
      rewrite <- !app_assoc. reflexivity.
    + eapply stock_step_trans; [exact Hst | exact Hst2 |].
      intros p. simpl. rewrite Hq.
      destruct (String.eqb (item_product_id it) p); ring.
Qed.





End BatchLoop.

(** ** [batch_deduct_stock] *)

Section Batch.

Import InventoryManagerV6.

Variables (m role : string).

(** When the stock covers every line, the batch debits every line. *)
Lemma batch_deduct_stock_success items s :
  store_ok s -> debitable s m items ->
  exists s',
    batch_deduct_stock m items role s = (Ok (true, map item_ok_result items), s') /\
    stock_step m (fun p => - demand p items) s s'.
Proof.
  intros Hok Hdeb.
  destruct (deduct_loop_debitable role [] [] [] Hok Hdeb)
    as (s' & Hloop & Hst).
  rewrite app_nil_r in Hloop. simpl in Hloop.
  destruct items as [|it rest].
  - exists s. split; [reflexivity|].
    apply stock_step_refl. reflexivity.
  - exists s'. split; [|exact Hst].
    unfold batch_deduct_stock. unfold bind. rewrite Hloop. reflexivity.
Qed.

Lemma batch_deduct_stock_nonempty items :
  items <> [] ->
  batch_deduct_stock m items role
  = bind (deduct_loop m role items [] [])
      (fun step =>
         match step with
         | Break results successful (_ :: _) =>
             bind (gather_return_exceptions
                     (map (fun d => update_quantity m (d_product_id d) (d_quantity d)
                                      "batch_deduction_rollback" role)
                          successful))
                  (fun _ => ret (false, batch_stopped_results items results))
         | Break results _ [] | Continue results _ => ret (true, results)
         end).
Proof. destruct items; [congruence | reflexivity]. Qed.


End Batch.


(** ** What a successful batch tells about the stock it started from *)

Section BatchInversion.

Import InventoryManagerV6.

Variables (m role : string).






End BatchInversion.

(** ** The order transitions *)

Section OrderTransitions.

Import OrderManagerV6 OrderStatus.

Lemma get_order_run id s :
  DatabaseV6.get_order id s = (Ok (orders s !! id), s).
Proof. reflexivity. Qed.

(** On a store that applies order writes, [update_order] rewrites the
    order on record. *)
Lemma update_order_run id u o s :
  str_truthy id = true -> orders_ok s -> orders s !! id = Some o ->
  update_order id u s
  = (Ok tt, set_orders <[ id := apply_update (clock s) u o ]> s).
Proof.
  intros Hid Hok Ho. unfold update_order. rewrite Hid. simpl.
  assert (Hdb : DatabaseV6.update_order id u s
                = (Ok true, set_orders <[ id := apply_update (clock s) u o ]> s)).
  { unfold DatabaseV6.update_order, bind, get_state.
    unfold orders_ok in Hok. rewrite Hok, Ho. reflexivity. }
  unfold try_except. rewrite (bind_ok _ _ _ Hdb). reflexivity.
Qed.

(** The expiry check of step 2 never stops an acceptance: the lookup of
    [self._parse_iso_datetime] raises an [AttributeError] whose text does
    not contain "expired", and the handler swallows it. *)
Lemma expiry_check_passes (order_id : string) (field : TimeField) (s : State) :
  try_except
    (expiry <- self_parse_iso_datetime field ;;
     s0 <- get_state ;;
     match expiry with
     | Some expiry =>
         if (expiry <=? clock s0)%Z then
           try_except (expire_order order_id ;; ret tt) (fun _ => ret tt) ;;
           raise (ValueError ("Order " +:+ order_id +:+ " has expired"))
         else ret tt
     | None => ret tt
     end)
    (fun e => if str_contains "expired" (exc_str e) then raise e else ret tt) s
  = (Ok tt, s).
Proof. reflexivity. Qed.




Lemma rollback_quantities_numeric its :
  Forall (fun it => is_Some (item_qty it)) its ->
  rollback_quantities its = Ok (item_returns its).
Proof.
  induction 1 as [|it rest [q Hq] _ IH]; simpl; [reflexivity|].
  rewrite IH. unfold item_qty in *.
  destruct (item_quantity it); try discriminate.
  reflexivity.
Qed.

Lemma total_item_returns p its :
  (total p (item_returns its) == demand p its)%Q.
Proof.
  induction its as [|it rest IH]; simpl; [reflexivity|].
  rewrite IH. reflexivity.
Qed.

Lemma item_returns_returnable s m its :
  Forall (fun it => exists q, item_qty it = Some q /\ (0 <= q)%Q /\
                              (~ (q == 0)%Q -> has_product s m (item_product_id it))) its ->
  Forall (fun pq => (0 <= pq.2)%Q /\ (~ (pq.2 == 0)%Q -> has_product s m pq.1))
         (item_returns its).
Proof.
  intros H. apply Forall_map. eapply Forall_impl; [exact H|].
  intros it (q & Hq & Hq0 & Hhas). simpl. rewrite Hq. auto.
Qed.






End OrderTransitions.



(** ** [cancel_order] *)

Section Cancel.

Import OrderManagerV6 OrderStatus.

(** The test that [cancel_order] applies to the results of its rollback
    coroutines fails on the first result: [update_quantity] returns a
    [bool], and the test calls [.get] on it. *)
Lemma any_not_success_raises (its : list Item) :
  its <> [] ->
  any_not_success (map (fun _ => Ok true) its)
  = Raise (AttributeError "'bool' object has no attribute 'get'").
Proof. destruct its; [congruence | reflexivity]. Qed.

(** C5, as the code runs.  For an ACCEPTED order with at least one line
    whose [inventory_deducted] flag is true, [cancel_order] adds every
    line's quantity back to the stock and sets the status to CANCELLED, but
    the flag it writes is still true: the check of the rollback results
    raises, so [inventory_returned] stays false. *)
Theorem cancel_order_keeps_flag id reason cancelled_by order s :
  str_truthy id = true -> str_truthy reason = true ->
  orders s !! id = Some order ->
  status order = ACCEPTED -> inventory_deducted order = true ->
  items order <> [] ->
  store_ok s -> orders_ok s -> nonneg_stock s ->
  Forall (fun it => exists q, item_qty it = Some q /\ (0 <= q)%Q /\
                              (~ (q == 0)%Q ->
                               has_product s (o_merchant_id order) (item_product_id it)))
         (items order) ->
  exists o' s',
    cancel_order id reason cancelled_by s = (Ok o', s') /\
    orders s' !! id = Some o' /\
    status o' = CANCELLED /\
    inventory_deducted o' = true /\
    forall p, (stock_of s' (o_merchant_id order) p
               == stock_of s (o_merchant_id order) p + demand p (items order))%Q.
Proof.
  intros Hid Hreason Ho Hst Hded Hne Hok Hoo Hnn Hall.
  unfold cancel_order. rewrite Hid, Hreason. simpl.
  unfold async_with_order_lock.
  set (s2 := set_lock_acquisitions (cons "_order_lock") s).
  assert (Hnum : Forall (fun it => is_Some (item_qty it)) (items order)).
  { eapply Forall_impl; [exact Hall|]. intros it (q & Hq & _). eauto. }
  destruct (@rollback_run (o_merchant_id order) "order_cancellation_rollback"
              cancelled_by (item_returns (items order)) s2 Hok
              (fun p => stock_of_nonneg _ p Hnn) (item_returns_returnable Hall))
    as (rs & s3 & Hroll & Hrs & Hstep).
  assert (Hoo3 : orders_ok s3) by (eapply orders_ok_frame; [apply Hstep | exact Hoo]).
  assert (Ho3 : orders s3 !! id = Some order).
  { destruct Hstep as ((_ & -> & _) & _). exact Ho. }
  do 2 eexists. split.
  - unfold bind at 1. unfold modify at 1. fold s2.
    rewrite (bind_ok _ _ _ (get_order_run _ _)).
    change (orders s2) with (orders s). rewrite Ho, Hst, Hded.
    assert (Hopen : bool_decide (ACCEPTED ∈ [COMPLETED; CANCELLED; EXPIRED]) = false)
      by (vm_compute; reflexivity).
    rewrite Hopen.
    assert (Hret : try_except
              (qs <- lift (rollback_quantities (items order)) ;;
               results <- gather_return_exceptions
                            (rollback_tasks (o_merchant_id order)
                               "order_cancellation_rollback" cancelled_by qs) ;;
               failed <- lift (any_not_success results) ;;
               if failed : bool then ret false else ret true)
              (fun _ => ret false) s2 = (Ok false, s3)).
    { unfold try_except.
      rewrite (rollback_quantities_numeric Hnum).
      unfold bind at 1. unfold lift at 1.
      unfold rollback_tasks. rewrite (bind_ok _ _ _ Hroll).
      rewrite Hrs. unfold item_returns. rewrite map_map.
      unfold bind, lift. rewrite (any_not_success_raises Hne). reflexivity. }
    rewrite (bind_ok _ _ _ Hret).
    unfold bind at 1. unfold get_state at 1.
    unfold try_except.
    rewrite (bind_ok _ _ _ (@update_order_run id _ order s3 Hid Hoo3 Ho3)).
    rewrite (bind_ok _ _ _ (get_order_run _ _)). simpl.
    rewrite lookup_insert_eq. reflexivity.
  - simpl. rewrite lookup_insert_eq.
    split; [reflexivity|]. split; [reflexivity|]. split; [reflexivity|].
    intros p. unfold stock_of at 1. simpl. fold (stock_of s3 (o_merchant_id order) p).
    destruct Hstep as (_ & _ & Hs & _). rewrite Hs.
    rewrite total_item_returns.
    unfold stock_of. simpl. reflexivity.
Qed.

End Cancel.

(** ** Scenario facts *)

Section ScenarioFacts.

Import Scenario.

Lemma shop_nonneg q d : (0 <= q)%Q -> nonneg_stock (shop q d).
Proof.
  intros Hq k pr Hk.
  change (products (shop q d)) with (rice q) in Hk. unfold rice in Hk.
  apply lookup_singleton_Some in Hk as [_ <-]. exact Hq.
Qed.

Lemma shop_has_rice q d : has_product (shop q d) "m1" "rice".
Proof. eexists. reflexivity. Qed.

Lemma shop_stock_of q d p :
  stock_of (shop q d) "m1" p = if String.eqb "rice" p then q else 0%Q.
Proof.
  unfold stock_of.
  change (products (shop q d)) with (rice q). unfold rice.
  destruct (String.eqb_spec "rice" p) as [<-|Hne].
  - rewrite lookup_singleton_eq. reflexivity.
  - rewrite lookup_singleton_ne by congruence. reflexivity.
Qed.

Lemma rice_lines_debitable (stock : Q) (d : Driver) (qs : list Q) :
  Forall (fun q => (0 <= q)%Q) qs ->
  (demand "rice" (map rice_line qs) <= stock)%Q ->
  debitable (shop stock d) "m1" (map rice_line qs).
Proof.
  intros Hqs Hdem. split.
  - apply Forall_map. eapply Forall_impl; [exact Hqs|].
    intros q Hq. exists q. split; [reflexivity|]. split; [exact Hq|].
    intros _. apply shop_has_rice.
  - intros p. rewrite shop_stock_of.
    destruct (String.eqb_spec "rice" p) as [<-|Hne]; [exact Hdem|].
    clear Hdem Hqs. induction qs as [|q rest IH]; [apply Qle_refl|].
    cbn [map demand].
    change (item_product_id (rice_line q)) with "rice".
    destruct (String.eqb_spec "rice" p); [contradiction|]. lra.
Qed.

End ScenarioFacts.




Lemma cancel_order_keeps_flag_witness :
  let o := Scenario.an_order [rice_line 4] OrderStatus.ACCEPTED true in
  let s := Scenario.shop_with 6 Scenario.obliging o in
  exists o' s',
    OrderManagerV6.cancel_order "ORD-1" "changed my mind" "customer" s = (Ok o', s') /\
    orders s' !! "ORD-1" = Some o' /\
    status o' = OrderStatus.CANCELLED /\
    inventory_deducted o' = true /\
    forall p, (stock_of s' "m1" p == stock_of s "m1" p + demand p [rice_line 4])%Q.
Proof.
  intros o s.
  apply (@cancel_order_keeps_flag "ORD-1" "changed my mind" "customer" o s).
  - reflexivity.
  - reflexivity.
  - reflexivity.
  - reflexivity.
  - reflexivity.
  - discriminate.
  - split; reflexivity.
  - reflexivity.
  - apply (@shop_nonneg 6%Q Scenario.obliging). discriminate.
  - repeat constructor. exists 4%Q. split; [reflexivity|].
    split; [discriminate|]. intros _. apply (@shop_has_rice 6%Q Scenario.obliging).
Defined.

(** ** [expire_order] *)

Section Expire.

Import OrderManagerV6 OrderStatus.

Lemma expire_order_noop id order s :
  str_truthy id = true -> orders s !! id = Some order ->
  status order ∉ [PENDING; "pending_confirmation"] ->
  expire_order id s
  = (Ok (Some order), set_lock_acquisitions (cons "_order_lock") s).
Proof.
  intros Hid Ho Hst. unfold expire_order. rewrite Hid. simpl.
  unfold async_with_order_lock.
  unfold bind at 1. unfold modify at 1.
  rewrite (bind_ok _ _ _ (get_order_run _ _)).
  simpl. rewrite Ho.
  rewrite (bool_decide_eq_true_2 _ Hst). reflexivity.
Qed.

Lemma expire_order_transition id order s :
  str_truthy id = true -> orders s !! id = Some order -> orders_ok s ->
  status order ∈ [PENDING; "pending_confirmation"] ->
  expire_order id s
  = (Ok (Some (expired_version (clock s) order)),
     set_orders <[ id := expired_version (clock s) order ]>
       (set_lock_acquisitions (cons "_order_lock") s)).
Proof.
  intros Hid Ho Hok Hst. unfold expire_order. rewrite Hid. simpl.
  unfold async_with_order_lock.
  unfold bind at 1. unfold modify at 1.
  set (s2 := set_lock_acquisitions (cons "_order_lock") s).
  rewrite (bind_ok _ _ _ (get_order_run _ _)).
  change (orders s2) with (orders s). rewrite Ho.
  assert (Hb : bool_decide (status order ∉ [PENDING; "pending_confirmation"]) = false).
  { apply bool_decide_eq_false. intros H. contradiction. }
  rewrite Hb.
  unfold bind at 1. unfold get_state at 1.
  unfold try_except.
  rewrite (bind_ok _ _ _ (@update_order_run id _ order s2 Hid Hok Ho)).
  rewrite get_order_run. simpl. rewrite lookup_insert_eq. reflexivity.
Qed.

End Expire.

(** C8, as the code has it.  On a store that applies order writes, two
    calls of [expire_order] on a pending order (status [pending] or the
    legacy [pending_confirmation]) make one transition to EXPIRED and add
    one EXPIRED timeline entry: the second call returns the order that the
    first one wrote and leaves the order collection alone.  A call on an
    order in any other status returns that order unchanged, does not raise,
    and changes neither the orders nor the stock. *)
Theorem expire_order_idempotent (id : string) (order : Order) (s : State) :
  str_truthy id = true -> orders s !! id = Some order ->
  (status order ∈ [OrderStatus.PENDING; "pending_confirmation"] -> orders_ok s ->
   exists o1 s1 s2,
     OrderManagerV6.expire_order id s = (Ok (Some o1), s1) /\
     orders s1 !! id = Some o1 /\
     status o1 = OrderStatus.EXPIRED /\
     timeline o1 = timeline order ++ [expired_entry (clock s)] /\
     OrderManagerV6.expire_order id s1 = (Ok (Some o1), s2) /\
     orders s2 = orders s1 /\
     expired_entries (timeline o1) = S (expired_entries (timeline order))) /\
  (status order ∉ [OrderStatus.PENDING; "pending_confirmation"] ->
   exists s',
     OrderManagerV6.expire_order id s = (Ok (Some order), s') /\
     orders s' = orders s /\ products s' = products s).
Proof.
  intros Hid Ho. split.
  - intros Hst Hok.
    rewrite (@expire_order_transition id order s Hid Ho Hok Hst).
    set (o1 := expired_version (clock s) order).
    set (s1 := set_orders _ _).
    assert (Ho1 : orders s1 !! id = Some o1) by (simpl; apply lookup_insert_eq).
    assert (Hst1 : status o1 ∉ [OrderStatus.PENDING; "pending_confirmation"]).
    { change (status o1) with OrderStatus.EXPIRED.
      intros H. apply elem_of_cons in H as [H|H]; [discriminate|].
      apply list_elem_of_singleton in H. discriminate. }
    exists o1, s1. eexists.
    split; [reflexivity|]. split; [exact Ho1|]. split; [reflexivity|].
    split; [reflexivity|].
    split; [apply (@expire_order_noop id o1 s1 Hid Ho1 Hst1)|].
    split; [reflexivity|].
    change (timeline o1) with (timeline order ++ [expired_entry (clock s)]).
    unfold expired_entries. rewrite filter_app, length_app. simpl. lia.
  - intros Hst. rewrite (@expire_order_noop id order s Hid Ho Hst).
    eexists. split; [reflexivity|]. split; reflexivity.
Qed.

Lemma expire_order_idempotent_witness :
  let s := Scenario.shop_with 10 Scenario.obliging pending_order_for_4 in
  exists o1 s1 s2,
    OrderManagerV6.expire_order "ORD-1" s = (Ok (Some o1), s1) /\
    orders s1 !! "ORD-1" = Some o1 /\
    status o1 = OrderStatus.EXPIRED /\
    timeline o1 = timeline pending_order_for_4 ++ [expired_entry (clock s)] /\
    OrderManagerV6.expire_order "ORD-1" s1 = (Ok (Some o1), s2) /\
    orders s2 = orders s1 /\
    expired_entries (timeline o1) = S (expired_entries (timeline pending_order_for_4)).
Proof.
  intros s.
  apply (@expire_order_idempotent "ORD-1" pending_order_for_4 s).
  - reflexivity.
  - reflexivity.
  - apply elem_of_cons. left. reflexivity.
  - reflexivity.
Defined.

(** C8 as stated fails for the legacy status: an order whose status is
    [pending_confirmation], not [pending], is expired by the call. *)
Lemma expire_order_expires_legacy_pending :
  let o := Scenario.an_order [rice_line 4] "pending_confirmation" false in
  let s := Scenario.shop_with 10 Scenario.obliging o in
  let run := OrderManagerV6.expire_order "ORD-1" s in
  status o <> OrderStatus.PENDING /\
  option_map status (orders s !! "ORD-1") = Some "pending_confirmation" /\
  option_map status (orders run.2 !! "ORD-1") = Some OrderStatus.EXPIRED /\
  orders run.2 <> orders s.
Proof.
  intros o s run.
  split; [discriminate|].
  split; [reflexivity|].
  split; [vm_compute; reflexivity|].
  intros H.
  assert (H' : option_map status (orders run.2 !! "ORD-1")
               = option_map status (orders s !! "ORD-1")) by (rewrite H; reflexivity).
  vm_compute in H'. discriminate.
Qed.


(** ** The reminder selection *)

Section Reminders.

Import ReminderSystem.

Lemma insert_sorted_elem h l x : x ∈ insert_sorted h l <-> x = h \/ x ∈ l.
Proof.
  induction l as [|y rest IH]; simpl.
  - rewrite list_elem_of_singleton, elem_of_nil. tauto.
  - destruct (h <=? y)%Z.
    + rewrite elem_of_cons. tauto.
    + rewrite !elem_of_cons, IH. tauto.
Qed.

Lemma insert_sorted_sorted h l :
  StronglySorted Z.le l -> StronglySorted Z.le (insert_sorted h l).
Proof.
  induction 1 as [|y rest Hrest IH Hy]; simpl.
  - repeat constructor.
  - destruct (h <=? y)%Z eqn:E.
    + apply Z.leb_le in E. constructor; [constructor; assumption|].
      constructor; [exact E|].
      eapply Forall_impl; [exact Hy|]. intros z Hz. simpl in Hz. lia.
    + apply Z.leb_gt in E. constructor; [exact IH|].
      apply Forall_forall. intros z Hz.
      apply insert_sorted_elem in Hz as [->|Hz]; [lia|].
      rewrite Forall_forall in Hy. apply Hy. exact Hz.
Qed.

Lemma sorted_sorted l : StronglySorted Z.le (sorted l).
Proof.
  induction l as [|h rest IH]; simpl; [constructor|].
  apply insert_sorted_sorted. exact IH.
Qed.

Lemma sorted_elem l x : x ∈ sorted l <-> x ∈ l.
Proof.
  induction l as [|h rest IH]; simpl; [tauto|].
  rewrite insert_sorted_elem, elem_of_cons, IH. tauto.
Qed.




(** [_send_reminder] either sends nothing and returns false, or hands one
    message to the gateway and returns true. *)
Lemma send_reminder_cases order h s :
  _send_reminder order h s = (Ok false, s) \/
  exists to_phone,
    _send_reminder order h s
    = (Ok true,
       set_outbox (fun l => l ++ [ReminderMsg to_phone (o_order_id order) h]) s).
Proof.
  unfold _send_reminder.
  destruct (negb (str_truthy (o_merchant_id order)) || negb (str_truthy (o_order_id order)));
    [left; reflexivity|].
  unfold try_except, bind, DatabaseV6.get_merchant.
  destruct (merchants s !! o_merchant_id order) as [[[ph|]]|]; try (left; reflexivity).
  cbn [phone].
  destruct (negb (str_truthy ph)); [left; reflexivity|].
  unfold send_whatsapp_message, bind, get_state.
  destruct (gateway_delivers (driver s)); [right; exists ph|left]; reflexivity.
Qed.

Lemma db_update_order_eq id u s :
  DatabaseV6.update_order id u s
  = match orders_update_one (driver s) with
    | WriteApplied =>
        match orders s !! id with
        | Some o => (Ok true, set_orders <[ id := apply_update (clock s) u o ]> s)
        | None => (Ok false, s)
        end
    | WriteLost => (Ok false, s)
    | WriteRaises => (Raise (DriverError "orders.update_one failed"), s)
    end.
Proof.
  unfold DatabaseV6.update_order, bind, get_state.
  destruct (orders_update_one (driver s)); [|reflexivity|reflexivity].
  destruct (orders s !! id); reflexivity.
Qed.

(** Recording a reminder never raises and touches at most the one order. *)
Lemma record_reminder_cases id h s :
  exists s',
    try_except (OrderManagerV6.update_order id (mkUpdateSpec [] [] [h]))
               (fun _ => ret tt) s = (Ok tt, s') /\
    outbox s' = outbox s /\
    (orders s' = orders s \/
     exists o, orders s !! id = Some o /\
               orders s' = <[ id := apply_update (clock s) (mkUpdateSpec [] [] [h]) o ]>
                             (orders s)).
Proof.
  unfold OrderManagerV6.update_order.
  destruct (negb (str_truthy id)).
  { exists s. split; [reflexivity|]. auto. }
  unfold try_except, bind. rewrite db_update_order_eq.
  destruct (orders_update_one (driver s)).
  - destruct (orders s !! id) as [o|] eqn:Ho.
    + eexists. split; [reflexivity|]. split; [reflexivity|].
      right. exists o. split; [reflexivity|]. reflexivity.
    + exists s. split; [reflexivity|]. auto.
  - exists s. split; [reflexivity|]. auto.
  - exists s. split; [reflexivity|]. auto.
Qed.

End Reminders.




(** A remark on step 2 of [accept_order]: an order past its expiry time is
    accepted all the same, because the expiry check never gets to compare
    the times ([expiry_check_passes]). *)
Remark accept_order_ignores_expiry :
  let o := pending_order_for_4 in
  let s := mkState true (Scenario.rice 10) {[ "ORD-1" := o ]} ∅ [] ∅ [] [] 90000
                   Scenario.obliging in
  past_expiry (clock s) o /\
  option_map status
    (orders (OrderManagerV6.accept_order "ORD-1" "m1" None None s).2 !! "ORD-1")
  = Some OrderStatus.ACCEPTED.
Proof.
  split; [unfold past_expiry; simpl; lia | vm_compute; reflexivity].
Qed.

(** * Further properties of the Inventory Engine *)

Section InventoryFurther.

Import InventoryManagerV6.

Lemma str_truthy_true (x : string) : str_truthy x = true <-> x <> "".
Proof.
  unfold str_truthy. rewrite negb_true_iff.
  destruct (String.eqb_spec x ""); split; congruence.
Qed.

Lemma check_item_run m item s :
  exists r, check_item m item s = (Ok r, s) /\ (r = None <-> line_available s m item).
Proof.
  unfold check_item, line_available, item_qty.
  destruct (str_truthy (item_product_id item)) eqn:Hid; simpl.
  2:{ eexists. split; [reflexivity|]. split; [discriminate|].
      intros [H _]. apply str_truthy_true in H. congruence. }
  apply str_truthy_true in Hid.
  destruct (item_quantity item) as [| |q|t]; simpl.
  - eexists. split; [reflexivity|]. split; [discriminate|].
    intros (_ & q & prod & H & _). discriminate.
  - eexists. split; [reflexivity|]. split; [discriminate|].
    intros (_ & q & prod & H & _). discriminate.
  - destruct (Qle_bool q 0) eqn:Hq.
    { eexists. split; [reflexivity|]. split; [discriminate|].
      intros (_ & q' & prod & H & Hpos & _). inversion H; subst q'.
      apply Qle_bool_iff in Hq. lra. }
    assert (Hpos : (0 < q)%Q).
    { apply Qnot_le_lt. intros H. apply Qle_bool_iff in H. congruence. }
    rewrite (bind_ok _ _ _ (get_product_eq _ _ _)).
    destruct (db_initialized s) eqn:Hinit.
    2:{ eexists. split; [reflexivity|]. split; [discriminate|].
        intros (_ & q' & prod & _ & _ & H & _). discriminate. }
    destruct (products s !! (m, item_product_id item)) as [prod|] eqn:Hprod.
    2:{ eexists. split; [reflexivity|]. split; [discriminate|].
        intros (_ & q' & prod & _ & _ & _ & H & _). discriminate. }
    destruct (Qlt_bool (stock_qty prod) q) eqn:Hlt.
    + eexists. split; [reflexivity|]. split; [discriminate|].
      intros (_ & q' & prod' & H1 & _ & _ & H2 & H3).
      inversion H1; subst q'. inversion H2; subst prod'.
      apply Qlt_bool_true in Hlt. lra.
    + eexists. split; [reflexivity|]. split; [|reflexivity].
      intros _. split; [exact Hid|]. exists q, prod.
      apply Qlt_bool_false in Hlt. auto.
  - eexists. split; [reflexivity|]. split; [discriminate|].
    intros (_ & q & prod & H & _). discriminate.
Qed.

Lemma gather_check_items m items s :
  exists rs,
    gather (map (check_item m) items) s = (Ok rs, s) /\
    length rs = length items /\
    (omap id rs = [] <-> Forall (line_available s m) items).
Proof.
  induction items as [|it rest IH]; simpl.
  - exists []. split; [reflexivity|]. split; [reflexivity|].
    split; [constructor | reflexivity].
  - destruct (check_item_run m it s) as (r & Hr & Hiff).
    destruct IH as (rs & Hrs & Hlen & Hall).
    exists (r :: rs).
    rewrite (bind_ok _ _ _ Hr), (bind_ok _ _ _ Hrs).
    split; [reflexivity|]. split; [simpl; congruence|].
    simpl. destruct r as [i|]; simpl.
    + split; [discriminate|]. intros H. inversion H; subst.
      assert (Some i = None) by (apply Hiff; assumption). discriminate.
    + rewrite Hall. split.
      * intros H. constructor; [apply Hiff; reflexivity | exact H].
      * intros H. inversion H; assumption.
Qed.


Lemma demand_absent p items :
  p ∉ map item_product_id items -> demand p items = 0%Q.
Proof.
  induction items as [|it rest IH]; simpl; intros H; [reflexivity|].
  rewrite not_elem_of_cons in H. destruct H as [H1 H2].
  destruct (String.eqb_spec (item_product_id it) p) as [E|_]; [congruence|].
  rewrite IH by exact H2. reflexivity.
Qed.

Lemma available_distinct_debitable m items s :
  nonneg_stock s -> NoDup (map item_product_id items) ->
  Forall (line_available s m) items -> debitable s m items.
Proof.
  intros Hnn Hnd Hall. split.
  - eapply Forall_impl; [exact Hall|].
    intros it (_ & q & prod & Hq & Hpos & _ & Hprod & _).
    exists q. split; [exact Hq|]. split; [lra|]. intros _. exists prod. exact Hprod.
  - intros p. induction Hall as [|it rest Hit _ IH]; simpl.
    + apply (stock_of_nonneg m p Hnn).
    + simpl in Hnd. apply NoDup_cons in Hnd as [Hnotin Hnd].
      destruct Hit as (_ & q & prod & Hq & Hpos & _ & Hprod & Hle).
      rewrite Hq.
      destruct (String.eqb_spec (item_product_id it) p) as [E|_].
      * subst p. rewrite (demand_absent _ Hnotin).
        unfold stock_of. rewrite Hprod. simpl. lra.
      * specialize (IH Hnd). lra.
Qed.

(** X2.  Validation and deduction compose: when [validate_order_stock]
    answers true for lines that name pairwise distinct products, then
    [batch_deduct_stock] on the same lines and the same state (a store that
    applies its writes, with no negative quantity) returns true with one
    success entry per line, and lowers each product by what its line asks
    and nothing else. *)
Theorem validated_distinct_lines_are_debited (m role : string) (items : list Item)
    (issues : list Issue) (s s0 : State) :
  store_ok s -> nonneg_stock s ->
  NoDup (map item_product_id items) ->
  validate_order_stock m items s = (Ok (true, issues), s0) ->
  exists s',
    batch_deduct_stock m items role s = (Ok (true, map item_ok_result items), s') /\
    stock_step m (fun p => (- demand p items)%Q) s s'.
Proof.
  intros Hok Hnn Hnd Hval.
  apply batch_deduct_stock_success; [exact Hok|].
  apply available_distinct_debitable; [exact Hnn | exact Hnd |].
  destruct items as [|it rest]; [constructor|].
  destruct (gather_check_items m (it :: rest) s) as (rs & Hrs & _ & Hall).
  unfold validate_order_stock in Hval. rewrite (bind_ok _ _ _ Hrs) in Hval.
  injection Hval as Hlen Hiss Hs.
  apply Hall. apply Nat.eqb_eq in Hlen.
  destruct (omap id rs); [reflexivity | discriminate].
Qed.

(** X2 at work. *)
Lemma validated_distinct_lines_are_debited_witness :
  let s := Scenario.shop 10 Scenario.obliging in
  exists s',
    batch_deduct_stock "m1" [rice_line 4] "merchant" s
    = (Ok (true, map item_ok_result [rice_line 4]), s') /\
    stock_step "m1" (fun p => (- demand p [rice_line 4])%Q) s s'.
Proof.
  intros s.
  apply (@validated_distinct_lines_are_debited "m1" "merchant" [rice_line 4] [] s s).
  - split; reflexivity.
  - apply (@shop_nonneg 10%Q Scenario.obliging). discriminate.
  - apply NoDup_singleton.
  - vm_compute. reflexivity.
Defined.

(** ** What the engine may do to the store *)

Section Fields.

Lemma get_lock_fields (key : string) (s : State) :
  exists s', _get_lock key s = (Ok tt, s') /\
    products s' = products s /\ stock_movements s' = stock_movements s /\
    lock_acquisitions s' = lock_acquisitions s /\ inventory_frame s s' /\
    locks s' = {[ key ]} ∪ locks s.
Proof.
  unfold _get_lock, bind, get_state.
  destruct (decide (key ∈ locks s)) as [Hin|Hnin].
  - exists s. unfold inventory_frame. repeat split; auto.
    apply leibniz_equiv. intros x. rewrite elem_of_union, elem_of_singleton.
    split; [auto | intros [->|H]; assumption].
  - eexists. split; [reflexivity|]. unfold inventory_frame. simpl. auto 10.
Qed.

(** The state in which the body of [async with lock] starts. *)
Lemma lock_taken (key : string) (s : State) :
  exists s2,
    (forall A (body : M A),
       bind (_get_lock key) (fun _ => async_with_lock key body) s = body s2) /\
    inventory_frame s s2 /\ products s2 = products s /\
    stock_movements s2 = stock_movements s /\
    locks s2 = {[ key ]} ∪ locks s /\
    lock_acquisitions s2 = key :: lock_acquisitions s.
Proof.
  destruct (get_lock_fields key s) as (s1 & Hlock & Hp1 & Hm1 & Ha1 & Hf1 & Hl1).
  exists (set_lock_acquisitions (cons key) s1).
  split.
  { intros A body. rewrite (bind_ok _ _ _ Hlock). reflexivity. }
  split; [exact Hf1|]. split; [exact Hp1|]. split; [exact Hm1|].
  split; [exact Hl1|]. simpl. rewrite Ha1. reflexivity.
Qed.

Lemma update_quantity_fields m p d reason role s :
  ~ (d == 0)%Q ->
  exists b s',
    update_quantity m p d reason role s = (Ok b, s') /\
    inventory_frame s s' /\
    locks s' = {[ lock_key_of m p ]} ∪ locks s /\
    lock_acquisitions s' = lock_key_of m p :: lock_acquisitions s /\
    ((b = false /\ products s' = products s /\ stock_movements s' = stock_movements s) \/
     (b = true /\
      exists prod,
        db_initialized s = true /\
        products s !! (m, p) = Some prod /\
        ~ ((d < 0)%Q /\ (stock_qty prod + d < 0)%Q) /\
        (products s'
         = <[ (m, p) := mkProduct (product_name prod) (py_max (stock_qty prod + d) 0) ]>
             (products s) \/
         products s' = products s) /\
        stock_movements s'
        = stock_movements s ++
          (if handle_awaitable (driver s)
           then [movement_for m p reason d prod (py_max (stock_qty prod + d) 0) role s]
           else []))).
Proof.
  intros Hd. unfold update_quantity.
  apply Qeq_bool_false in Hd. rewrite Hd.
  destruct (lock_taken (lock_key_of m p) s) as (s2 & Hrun2 & Hf2 & Hp2 & Hm2 & Hl2 & Ha2).
  rewrite Hrun2. clear Hrun2.
  assert (Hc2 : clock s2 = clock s) by apply Hf2.
  assert (Hi2 : db_initialized s2 = db_initialized s) by apply Hf2.
  assert (Hd2 : driver s2 = driver s) by apply Hf2.
  unfold try_except.
  rewrite (bind_ok _ _ _ (get_product_eq _ _ _)).
  rewrite Hi2, Hp2.
  destruct (db_initialized s) eqn:Hinit.
  2:{ exists false. eexists. split; [reflexivity|]. auto 10. }
  destruct (products s !! (m, p)) as [prod|] eqn:Hprod.
  2:{ exists false. eexists. split; [reflexivity|]. auto 10. }
  destruct (Qlt_bool d 0 && Qlt_bool (stock_qty prod + d) 0) eqn:Hv.
  { exists false. eexists. split; [reflexivity|]. auto 10. }
  assert (Hsuff : ~ ((d < 0)%Q /\ (stock_qty prod + d < 0)%Q)).
  { intros [E1 E2]. apply Qlt_bool_true in E1. apply Qlt_bool_true in E2.
    rewrite E1, E2 in Hv. discriminate. }
  assert (Hprod2 : products s2 !! (m, p) = Some prod)
    by (rewrite Hp2; exact Hprod).
  assert (Hrun := update_product_stock_run m p s2
                    (py_max_nonneg (stock_qty prod + d)) Hprod2).
  rewrite Hd2 in Hrun.
  destruct (products_update_one (driver s)) eqn:Hmode.
  - rewrite (bind_ok _ _ _ Hrun).
    rewrite (bind_ok _ _ _ (get_product_eq _ _ _)).
    simpl. rewrite Hi2, lookup_insert_eq. simpl. rewrite verify_same.
    rewrite (bind_ok _ _ _ (log_stock_movement_run _ _ _ _ _ _ _ _ _)).
    exists true. eexists. split; [reflexivity|].
    simpl. rewrite Hi2, Hd2. simpl.
    unfold inventory_frame in *.
    destruct (handle_awaitable (driver s)) eqn:Haw; simpl;
      (split; [intuition congruence|]);
      (split; [exact Hl2|]); (split; [exact Ha2|]);
      right; (split; [reflexivity|]);
      exists prod; rewrite ?Hp2, ?Hm2, ?Hc2, ?app_nil_r;
      unfold movement_for; auto 10.
  - rewrite (bind_ok _ _ _ Hrun).
    rewrite (bind_ok _ _ _ (get_product_eq _ _ _)).
    rewrite Hi2, Hp2, Hprod.
    destruct (Qlt_bool (1 # 1000000)
                (Qabs (stock_qty prod - py_max (stock_qty prod + d) 0))) eqn:Hver.
    + exists false. eexists. split; [reflexivity|]. auto 10.
    + rewrite (bind_ok _ _ _ (log_stock_movement_run _ _ _ _ _ _ _ _ _)).
      exists true. eexists. split; [reflexivity|].
      rewrite Hi2, Hd2. simpl.
      unfold inventory_frame in *.
      destruct (handle_awaitable (driver s)) eqn:Haw; simpl;
        (split; [intuition congruence|]);
        (split; [exact Hl2|]); (split; [exact Ha2|]);
        right; (split; [reflexivity|]);
        exists prod; rewrite ?Hp2, ?Hm2, ?Hc2, ?app_nil_r;
        unfold movement_for; auto 10.
  - rewrite (bind_raise _ _ _ Hrun).
    exists false. eexists. split; [reflexivity|]. auto 10.
Qed.

Lemma adjust_stock_admin_fields m p new admin reason s :
  exists b s',
    adjust_stock_admin m p new admin reason s = (Ok b, s') /\
    inventory_frame s s' /\
    locks s' = {[ lock_key_of m p ]} ∪ locks s /\
    lock_acquisitions s' = lock_key_of m p :: lock_acquisitions s /\
    ((b = false /\ products s' = products s /\ stock_movements s' = stock_movements s /\
      (db_initialized s = false \/ products s !! (m, p) = None \/
       products_update_one (driver s) <> WriteApplied)) \/
     (b = true /\
      exists prod,
        db_initialized s = true /\
        products s !! (m, p) = Some prod /\
        (products s'
         = <[ (m, p) := mkProduct (product_name prod) (py_max new 0) ]> (products s) \/
         products s' = products s /\ products_update_one (driver s) <> WriteApplied) /\
        stock_movements s'
        = stock_movements s ++
          (if handle_awaitable (driver s)
           then [movement_for m p reason (py_max new 0 - stock_qty prod) prod
                              (py_max new 0) "admin" s]
           else []))).
Proof.
  unfold adjust_stock_admin.
  destruct (lock_taken (lock_key_of m p) s) as (s2 & Hrun2 & Hf2 & Hp2 & Hm2 & Hl2 & Ha2).
  rewrite Hrun2. clear Hrun2.
  assert (Hc2 : clock s2 = clock s) by apply Hf2.
  assert (Hi2 : db_initialized s2 = db_initialized s) by apply Hf2.
  assert (Hd2 : driver s2 = driver s) by apply Hf2.
  unfold try_except.
  rewrite (bind_ok _ _ _ (get_product_eq _ _ _)).
  rewrite Hi2, Hp2.
  destruct (db_initialized s) eqn:Hinit.
  2:{ exists false. eexists. split; [reflexivity|]. auto 10. }
  destruct (products s !! (m, p)) as [prod|] eqn:Hprod.
  2:{ exists false. eexists. split; [reflexivity|]. auto 10. }
  assert (Hprod2 : products s2 !! (m, p) = Some prod)
    by (rewrite Hp2; exact Hprod).
  assert (Hrun := update_product_stock_run m p s2 (py_max_nonneg new) Hprod2).
  rewrite Hd2 in Hrun.
  destruct (products_update_one (driver s)) eqn:Hmode.
  - rewrite (bind_ok _ _ _ Hrun).
    rewrite (bind_ok _ _ _ (get_product_eq _ _ _)).
    simpl. rewrite Hi2, lookup_insert_eq. simpl. rewrite verify_same.
    rewrite (bind_ok _ _ _ (log_stock_movement_run _ _ _ _ _ _ _ _ _)).
    exists true. eexists. split; [reflexivity|].
    simpl. rewrite Hi2, Hd2. simpl.
    unfold inventory_frame in *.
    destruct (handle_awaitable (driver s)) eqn:Haw; simpl;
      (split; [intuition congruence|]);
      (split; [exact Hl2|]); (split; [exact Ha2|]);
      right; (split; [reflexivity|]);
      exists prod; rewrite ?Hp2, ?Hm2, ?Hc2, ?app_nil_r;
      unfold movement_for; auto 10.
  - rewrite (bind_ok _ _ _ Hrun).
    rewrite (bind_ok _ _ _ (get_product_eq _ _ _)).
    rewrite Hi2, Hp2, Hprod.
    destruct (Qlt_bool (1 # 1000000) (Qabs (stock_qty prod - py_max new 0))) eqn:Hver.
    + exists false. eexists. split; [reflexivity|].
      split; [exact Hf2|]. split; [exact Hl2|]. split; [exact Ha2|].
      left. split; [reflexivity|]. split; [exact Hp2|]. split; [exact Hm2|].
      right. right. discriminate.
    + rewrite (bind_ok _ _ _ (log_stock_movement_run _ _ _ _ _ _ _ _ _)).
      exists true. eexists. split; [reflexivity|].
      rewrite Hi2, Hd2. simpl.
      unfold inventory_frame in *.
      destruct (handle_awaitable (driver s)) eqn:Haw; simpl;
        (split; [intuition congruence|]);
        (split; [exact Hl2|]); (split; [exact Ha2|]);
        right; (split; [reflexivity|]);
        exists prod; rewrite ?Hp2, ?Hm2, ?Hc2, ?app_nil_r;
        unfold movement_for;
        (split; [reflexivity|]); (split; [reflexivity|]);
        (split; [right; split; [reflexivity|discriminate] | reflexivity]).
  - rewrite (bind_raise _ _ _ Hrun).
    exists false. eexists. split; [reflexivity|].
    split; [exact Hf2|]. split; [exact Hl2|]. split; [exact Ha2|].
    left. split; [reflexivity|]. split; [exact Hp2|]. split; [exact Hm2|].
    right. right. discriminate.
Qed.

End Fields.

Section Keeps.

Context (R : State -> State -> Prop).
Hypothesis R_refl : forall s, R s s.
Hypothesis R_trans : forall s1 s2 s3, R s1 s2 -> R s2 s3 -> R s1 s3.

Lemma keeps_ret {A} (a : A) : keeps R (ret a).
Proof. intros s r s' H. inversion H; subst. apply R_refl. Qed.

Lemma keeps_raise {A} (e : PyExc) : keeps R (@raise A e).
Proof. intros s r s' H. inversion H; subst. apply R_refl. Qed.

Lemma keeps_lift {A} (x : Result A) : keeps R (lift x).
Proof. intros s r s' H. inversion H; subst. apply R_refl. Qed.

Lemma keeps_get_state : keeps R get_state.
Proof. intros s r s' H. inversion H; subst. apply R_refl. Qed.

Lemma keeps_bind {A B} (c : M A) (k : A -> M B) :
  keeps R c -> (forall a, keeps R (k a)) -> keeps R (bind c k).
Proof.
  intros Hc Hk s r s' H.
  apply bind_inv in H as [(a & s1 & H1 & H2) | (e & H1 & _)].
  - eapply R_trans; [eapply Hc; eauto | eapply Hk; eauto].
  - eapply Hc; eauto.
Qed.

Lemma keeps_try_except {A} (body : M A) (handler : PyExc -> M A) :
  keeps R body -> (forall e, keeps R (handler e)) -> keeps R (try_except body handler).
Proof.
  intros Hb Hh s r s' H.
  apply try_except_inv in H as [(a & H1 & _) | (e & s1 & H1 & H2)].
  - eapply Hb; eauto.
  - eapply R_trans; [eapply Hb; eauto | eapply Hh; eauto].
Qed.

Lemma keeps_gather_return_exceptions {A} (tasks : list (M A)) :
  Forall (keeps R) tasks -> keeps R (gather_return_exceptions tasks).
Proof.
  induction 1 as [|t rest Ht _ IH]; simpl.
  - apply keeps_ret.
  - apply keeps_bind.
    + apply keeps_try_except.
      * apply keeps_bind; [exact Ht | intros; apply keeps_ret].
      * intros; apply keeps_ret.
    + intros r. apply keeps_bind; [exact IH | intros; apply keeps_ret].
Qed.

Lemma keeps_get_product m p : keeps R (get_product m p).
Proof.
  intros s r s' H. rewrite get_product_eq in H. inversion H; subst. apply R_refl.
Qed.

(** The products that the relation lets [update_quantity] change. *)
Context (touch : string -> string -> Prop).
Hypothesis R_update_quantity :
  forall m p d reason role, touch m p -> keeps R (update_quantity m p d reason role).

Lemma keeps_deduct_stock m p q role : touch m p -> keeps R (deduct_stock m p q role).
Proof.
  intros Ht. unfold deduct_stock.
  destruct (Qlt_bool q 0); [apply R_update_quantity; exact Ht|].
  destruct (Qeq_bool q 0); [apply keeps_ret | apply R_update_quantity; exact Ht].
Qed.

Lemma keeps_return_stock m p q role : touch m p -> keeps R (return_stock m p q role).
Proof.
  intros Ht. unfold return_stock.
  destruct (Qlt_bool q 0); [apply R_update_quantity; exact Ht|].
  destruct (Qeq_bool q 0); [apply keeps_ret | apply R_update_quantity; exact Ht].
Qed.

Lemma keeps_deduct_item m role item results successful :
  touch m (item_product_id item) ->
  keeps R (deduct_item m role item results successful).
Proof.
  intros Ht. unfold deduct_item, get_product_stock.
  apply keeps_try_except; [|intros; apply keeps_ret].
  apply keeps_bind.
  { destruct (item_quantity item); first [apply keeps_raise | apply keeps_lift]. }
  intros q. destruct (Qlt_bool q 0); [apply keeps_raise|].
  destruct (Qeq_bool q 0); [apply keeps_ret|].
  apply keeps_bind; [apply R_update_quantity; exact Ht|].
  intros [|]; [apply keeps_ret|].
  apply keeps_bind; [|intros; apply keeps_ret].
  apply keeps_bind; [apply keeps_get_product | intros; apply keeps_ret].
Qed.

Lemma keeps_deduct_loop m role items :
  Forall (touch m) (map item_product_id items) ->
  forall results successful, keeps R (deduct_loop m role items results successful).
Proof.
  induction items as [|item rest IH]; intros Hall results successful; simpl.
  - apply keeps_ret.
  - inversion Hall; subst.
    apply keeps_bind; [apply keeps_deduct_item; assumption|].
    intros [r1 s1|r1 s1 f1]; [apply IH; assumption | apply keeps_ret].
Qed.

(** The loop only ever records deductions for the products of its items. *)
Lemma deduct_item_ids (P : string -> Prop) m role item results successful s step s' :
  deduct_item m role item results successful s = (Ok step, s') ->
  P (item_product_id item) ->
  Forall (fun d => P (d_product_id d)) successful ->
  Forall (fun d => P (d_product_id d)) (step_successful step).
Proof.
  intros H Hp Hsu. unfold deduct_item in H.
  apply try_except_inv in H as [(a & Hbody & Ha)|(e & s2 & _ & Hh)].
  - inversion Ha; subst a. clear Ha.
    apply bind_inv in Hbody as [(q & s2 & _ & Hk)|(e & _ & He)]; [|discriminate].
    destruct (Qlt_bool q 0); [discriminate|].
    destruct (Qeq_bool q 0); [inversion Hk; subst; exact Hsu|].
    apply bind_inv in Hk as [(b & s3 & _ & Hk)|(e & _ & He)]; [|discriminate].
    destruct b.
    + inversion Hk; subst. simpl. apply Forall_app. split; [exact Hsu|].
      constructor; [exact Hp | constructor].
    + apply bind_inv in Hk as [(c & s4 & _ & Hk)|(e & _ & He)]; [|discriminate].
      inversion Hk; subst. exact Hsu.
  - inversion Hh; subst. exact Hsu.
Qed.

Lemma deduct_loop_ids (P : string -> Prop) m role items :
  Forall P (map item_product_id items) ->
  forall results successful s step s',
    deduct_loop m role items results successful s = (Ok step, s') ->
    Forall (fun d => P (d_product_id d)) successful ->
    Forall (fun d => P (d_product_id d)) (step_successful step).
Proof.
  induction items as [|item rest IH]; intros Hall results successful s step s' H Hsu.
  - inversion H; subst. exact Hsu.
  - inversion Hall; subst. simpl in H.
    apply bind_inv in H as [(st & s1 & Hitem & Hrest)|(e & _ & He)]; [|discriminate].
    assert (Hst : Forall (fun d => P (d_product_id d)) (step_successful st))
      by (eapply deduct_item_ids; eauto).
    destruct st as [r1 su1|r1 su1 f1].
    + eapply IH; eauto.
    + inversion Hrest; subst. exact Hst.
Qed.

Lemma keeps_batch_deduct_stock m items role :
  Forall (touch m) (map item_product_id items) ->
  keeps R (batch_deduct_stock m items role).
Proof.
  intros Hall. destruct items as [|it rest]; [apply keeps_ret|].
  rewrite batch_deduct_stock_nonempty by discriminate.
  intros s r s' H.
  apply bind_inv in H as [(step & s1 & Hloop & Hrest)|(e & Hloop & _)].
  2:{ eapply keeps_deduct_loop; eauto. }
  eapply R_trans; [eapply keeps_deduct_loop; eauto|].
  assert (Hids : Forall (fun d => touch m (d_product_id d)) (step_successful step))
    by (eapply deduct_loop_ids; eauto).
  revert Hrest.
  destruct step as [r1 su1|r1 su1 [|f fs]]; try apply keeps_ret.
  apply keeps_bind; [|intros; apply keeps_ret].
  apply keeps_gather_return_exceptions. apply Forall_map.
  simpl in Hids. eapply Forall_impl; [exact Hids|].
  intros d Hd. simpl. apply R_update_quantity. exact Hd.
Qed.

End Keeps.

Section Ledger.

Lemma ledger_step_refl s : ledger_step s s.
Proof.
  split; [apply inventory_frame_refl|]. split; [reflexivity|].
  split; [reflexivity|]. split; [tauto|].
  exists []. rewrite app_nil_r. auto.
Qed.

Lemma ledger_step_trans s1 s2 s3 :
  ledger_step s1 s2 -> ledger_step s2 s3 -> ledger_step s1 s3.
Proof.
  intros (F1 & N1 & L1 & P1 & l1 & M1 & A1 & B1) (F2 & N2 & L2 & P2 & l2 & M2 & A2 & B2).
  split; [eapply inventory_frame_trans; eauto|].
  split; [intros k; rewrite N2; apply N1|].
  split; [etransitivity; eauto|].
  split; [tauto|].
  exists (l1 ++ l2). split; [rewrite M2, M1, app_assoc; reflexivity|].
  assert (Hd : driver s2 = driver s1) by apply F1.
  split.
  - intros H. rewrite A1 by exact H. rewrite A2 by (rewrite Hd; exact H). reflexivity.
  - intros H. apply Forall_app. split; [apply B1; exact H | apply B2, P1, H].
Qed.

Lemma insert_same_name (prods : gmap (string * string) Product) k prod q k' :
  prods !! k = Some prod ->
  product_name <$> <[ k := mkProduct (product_name prod) q ]> prods !! k'
  = product_name <$> prods !! k'.
Proof.
  intros H. destruct (decide (k' = k)) as [->|Hne].
  - rewrite lookup_insert_eq, H. reflexivity.
  - rewrite lookup_insert_ne by congruence. reflexivity.
Qed.

Lemma keeps_ledger_update_quantity m p d reason role :
  keeps ledger_step (update_quantity m p d reason role).
Proof.
  intros s r s' Hrun.
  destruct (Qeq_dec d 0) as [Hz|Hnz].
  { rewrite (update_quantity_zero m p reason role s Hz) in Hrun.
    inversion Hrun; subst. apply ledger_step_refl. }
  destruct (update_quantity_fields m p reason role s Hnz)
    as (b & s1 & Hrun1 & Hf & Hl & Ha & Hcases).
  rewrite Hrun1 in Hrun. inversion Hrun; subst r s1. clear Hrun.
  split; [exact Hf|].
  assert (Hnn : nonneg_stock s -> nonneg_stock s')
    by (intros H; eapply preserves_update_quantity; eauto).
  destruct Hcases as [(_ & Hp & Hm)|(_ & prod & Hi & Hprod & Hsuff & Hp & Hm)].
  - split; [intros k; rewrite Hp; reflexivity|].
    split; [rewrite Hl; apply union_subseteq_r|].
    split; [exact Hnn|].
    exists []. rewrite app_nil_r. auto.
  - split.
    { intros k. destruct Hp as [-> | ->]; [|reflexivity].
      apply insert_same_name. exact Hprod. }
    split; [rewrite Hl; apply union_subseteq_r|].
    split; [exact Hnn|].
    eexists. split; [exact Hm|]. split.
    + intros Haw. rewrite Haw. reflexivity.
    + intros Hs. destruct (handle_awaitable (driver s)); constructor; [|constructor].
      assert (Hcur : (0 <= stock_qty prod)%Q) by (eapply Hs; eauto).
      assert (Hnew : (0 <= stock_qty prod + d)%Q).
      { destruct (Qlt_le_dec d 0); [|lra].
        destruct (Qlt_le_dec (stock_qty prod + d) 0); [tauto|assumption]. }
      unfold movement_balanced, movement_for. simpl.
      rewrite (py_max_id Hnew).
      split; [exact Hcur|]. split; [exact Hnew | reflexivity].
Qed.

Lemma keeps_ledger_adjust_stock_admin m p new admin reason :
  keeps ledger_step (adjust_stock_admin m p new admin reason).
Proof.
  intros s r s' Hrun.
  destruct (adjust_stock_admin_fields m p new admin reason s)
    as (b & s1 & Hrun1 & Hf & Hl & Ha & Hcases).
  rewrite Hrun1 in Hrun. inversion Hrun; subst r s1. clear Hrun.
  split; [exact Hf|].
  assert (Hnn : nonneg_stock s -> nonneg_stock s')
    by (intros H; eapply preserves_adjust_stock_admin; eauto).
  destruct Hcases as [(_ & Hp & Hm & _)|(_ & prod & Hi & Hprod & Hp & Hm)].
  - split; [intros k; rewrite Hp; reflexivity|].
    split; [rewrite Hl; apply union_subseteq_r|].
    split; [exact Hnn|].
    exists []. rewrite app_nil_r. auto.
  - split.
    { intros k. destruct Hp as [-> | [-> _]]; [|reflexivity].
      apply insert_same_name. exact Hprod. }
    split; [rewrite Hl; apply union_subseteq_r|].
    split; [exact Hnn|].
    eexists. split; [exact Hm|]. split.
    + intros Haw. rewrite Haw. reflexivity.
    + intros Hs. destruct (handle_awaitable (driver s)); constructor; [|constructor].
      assert (Hcur : (0 <= stock_qty prod)%Q) by (eapply Hs; eauto).
      pose proof (py_max_nonneg new) as Hnew.
      unfold movement_balanced, movement_for. simpl.
      split; [exact Hcur|]. split; [exact Hnew | ring].
Qed.

Lemma keeps_ledger_run_op op : keeps ledger_step (run_op op).
Proof.
  pose proof ledger_step_refl as Hr. pose proof ledger_step_trans as Ht.
  assert (Hu : forall m p d reason role,
             True -> keeps ledger_step (update_quantity m p d reason role))
    by (intros; apply keeps_ledger_update_quantity).
  destruct op; simpl; (apply keeps_bind; [exact Ht| |intros; apply keeps_ret; exact Hr]).
  - apply keeps_ledger_update_quantity.
  - apply (keeps_deduct_stock Hr (fun _ _ => True) Hu); exact I.
  - apply (keeps_return_stock Hr (fun _ _ => True) Hu); exact I.
  - apply (keeps_batch_deduct_stock Hr Ht (fun _ _ => True) Hu).
    apply Forall_forall. intros; exact I.
  - apply keeps_ledger_adjust_stock_admin.
Qed.

Lemma run_ops_ledger_step ops : forall s, ledger_step s (run_ops ops s).
Proof.
  induction ops as [|op rest IH]; intros s; simpl.
  - apply ledger_step_refl.
  - eapply ledger_step_trans; [|apply IH].
    destruct (run_op op s) as [r s1] eqn:E. simpl.
    eapply keeps_ledger_run_op; eauto.
Qed.

End Ledger.

(** X3.  Whatever sequence of [update_quantity], [deduct_stock],
    [return_stock], [batch_deduct_stock] and [adjust_stock_admin] runs, and
    however the store behaves, the engine leaves orders, merchants, sent
    messages, clock and store alone, no product appears, disappears or
    changes its name, and no registered lock is dropped. *)
Theorem engine_never_creates_or_renames_products (ops : list EngineOp) (s : State) :
  inventory_frame s (run_ops ops s) /\
  (forall k, product_name <$> products (run_ops ops s) !! k
             = product_name <$> products s !! k) /\
  locks s ⊆ locks (run_ops ops s).
Proof.
  destruct (run_ops_ledger_step ops s) as (F & N & L & _). auto.
Qed.

(** X4.  Whatever sequence of engine operations runs, the movement log
    only grows at its end; nothing is appended on a store whose collection
    handle cannot be awaited; and when no quantity was negative at the
    start, every appended movement records non-negative old and new
    quantities with new = old + change. *)
Theorem movement_log_is_append_only (ops : list EngineOp) (s : State) :
  exists l,
    stock_movements (run_ops ops s) = stock_movements s ++ l /\
    (handle_awaitable (driver s) = false -> l = []) /\
    (nonneg_stock s -> Forall movement_balanced l).
Proof.
  destruct (run_ops_ledger_step ops s) as (_ & _ & _ & _ & H). exact H.
Qed.

Section OnlyLines.

Variables (m : string) (ids : list string).




End OnlyLines.



Section RoundTrip.




End RoundTrip.



(** X7.  [adjust_stock_admin] never raises.  For a product that is not
    on record it returns false and changes neither products nor movement
    log.  For a product on record, on a store that applies its writes, it
    returns true and sets the quantity to [max(new_stock, 0)] (a negative
    target is stored as zero), keeping the name; where the collection
    handle can be awaited it logs one movement with the difference, the
    old and the new quantity and the role "admin". *)
Theorem adjust_stock_admin_sets_quantity (m p admin reason : string) (new : Q)
    (s : State) :
  let run := adjust_stock_admin m p new admin reason s in
  (exists b, run.1 = Ok b) /\
  (products s !! (m, p) = None ->
   run.1 = Ok false /\ products run.2 = products s /\
   stock_movements run.2 = stock_movements s) /\
  (forall prod, store_ok s -> products s !! (m, p) = Some prod ->
     run.1 = Ok true /\
     products run.2
     = <[ (m, p) := mkProduct (product_name prod) (py_max new 0) ]> (products s) /\
     (handle_awaitable (driver s) = true ->
      stock_movements run.2
      = stock_movements s ++
        [mkMovement m p (product_name prod) reason (py_max new 0 - stock_qty prod)
                    (stock_qty prod) (py_max new 0) "admin" (clock s)])).
Proof.
  destruct (adjust_stock_admin_fields m p new admin reason s)
    as (b & s' & Hrun & _ & _ & _ & Hcases).
  rewrite Hrun. simpl. split; [eauto|]. split.
  - intros Hnone.
    destruct Hcases as [(-> & Hp & Hm & _)|(_ & prod & _ & Hprod & _)]; [auto|congruence].
  - intros prod [Hinit Hdrv] Hprod.
    destruct Hcases as [(_ & _ & _ & [H|[H|H]])|(-> & prod' & _ & Hprod' & Hp & Hm)];
      try congruence.
    assert (prod' = prod) by congruence. subst prod'.
    split; [reflexivity|]. split.
    + destruct Hp as [Hp|[_ Hp]]; [exact Hp | congruence].
    + intros Haw. rewrite Hm, Haw. reflexivity.
Qed.

Section AllOrNothing.

Variables (m role : string).




End AllOrNothing.



Section UnderLock.







End UnderLock.


End InventoryFurther.

(** * Further properties of the Order Manager *)

Section OrderFurther.

Import InventoryManagerV6.
Import OrderManagerV6 OrderStatus.

Section OrderSteps.

Lemma om_update_order_cases id u s r s' :
  update_order id u s = (r, s') ->
  s' = s \/
  (r = Ok tt /\ exists o, orders s !! id = Some o /\
                          s' = set_orders <[ id := apply_update (clock s) u o ]> s).
Proof.
  unfold update_order.
  destruct (negb (str_truthy id)); [intros H; inversion H; auto|].
  unfold try_except, bind. rewrite db_update_order_eq.
  destruct (orders_update_one (driver s)).
  - destruct (orders s !! id) as [o|] eqn:Ho; intros H; inversion H; subst; eauto.
  - intros H; inversion H; auto.
  - intros H; inversion H; auto.
Qed.

Lemma keeps_modify (R : State -> State -> Prop) (f : State -> State) :
  (forall s, R s (f s)) -> keeps R (modify f).
Proof. intros Hf s r s' H. inversion H; subst. apply Hf. Qed.

Lemma ledger_step_lock_acquired f s : ledger_step s (set_lock_acquisitions f s).
Proof.
  split; [unfold inventory_frame; simpl; auto 10|].
  split; [reflexivity|]. split; [reflexivity|]. split; [intros H; exact H|].
  exists []. simpl. rewrite app_nil_r. auto.
Qed.

Lemma keeps_ledger_rollback m reason role (qs : list (string * Q)) :
  keeps ledger_step (gather_return_exceptions (rollback_tasks m reason role qs)).
Proof.
  apply keeps_gather_return_exceptions;
    [exact ledger_step_refl | exact ledger_step_trans |].
  unfold rollback_tasks. apply Forall_map. apply Forall_forall.
  intros pq _. apply keeps_ledger_update_quantity.
Qed.

Lemma keeps_ledger_batch m items role :
  keeps ledger_step (InventoryManagerV6.batch_deduct_stock m items role).
Proof.
  apply (@keeps_batch_deduct_stock ledger_step ledger_step_refl ledger_step_trans
           (fun _ _ => True)).
  - intros. apply keeps_ledger_update_quantity.
  - apply Forall_forall. intros; exact I.
Qed.

Lemma ledger_step_orders s s' : ledger_step s s' -> orders s' = orders s.
Proof. intros ((_ & H & _) & _). exact H. Qed.

End OrderSteps.

Ltac ledger_keeps :=
  repeat first
    [ apply keeps_ret; exact ledger_step_refl
    | apply keeps_raise; exact ledger_step_refl
    | apply keeps_lift; exact ledger_step_refl
    | apply keeps_get_state; exact ledger_step_refl
    | apply keeps_ledger_rollback
    | apply keeps_ledger_batch
    | apply keeps_ledger_update_quantity
    | apply keeps_modify; intros; apply ledger_step_lock_acquired
    | apply keeps_bind; [exact ledger_step_trans | | intros]
    | apply keeps_try_except; [exact ledger_step_trans | | intros]
    | match goal with
      | |- keeps _ (match ?x with _ => _ end) => destruct x
      | |- keeps _ (if ?b then _ else _) => destruct b
      end ].

Section OrderSteps2.

(** Writing [u] over the order on record is a step along the edge of
    [op] when [u] sets the status accordingly. *)
Lemma written_step op id u o s2 s r s' :
  op_target op = id ->
  orders s2 = orders s -> orders s !! id = Some o ->
  update_order id u s2 = (r, s') ->
  (forall now, op_edge op (status o) (status (apply_update now u o)) /\
               order_rewritten o (apply_update now u o)) ->
  order_step op s s'.
Proof.
  intros Ht Hsame Ho Hrun Hedge.
  apply om_update_order_cases in Hrun as [->|(_ & o2 & Ho2 & ->)].
  - left; exact Hsame.
  - rewrite Hsame, Ho in Ho2. inversion Ho2; subst o2.
    right. exists o, (apply_update (clock s2) u o). rewrite Ht.
    split; [exact Ho|]. split; [simpl; rewrite Hsame; reflexivity|].
    apply Hedge.
Qed.

End OrderSteps2.


Section PerOp.

Lemma keeps_ledger_get_order id : keeps ledger_step (DatabaseV6.get_order id).
Proof. intros s r s' H. inversion H; subst. apply ledger_step_refl. Qed.

(** A continuation that only reads leaves the state to what ran before. *)
Lemma bind_reads {A B} (c : M A) (k : A -> M B) s :
  (forall a s0, (k a s0).2 = s0) -> (bind c k s).2 = (c s).2.
Proof.
  intros Hk. unfold bind. destruct (c s) as [[a|e] s1]; [apply Hk | reflexivity].
Qed.

(** The state that the closing block of a transition leaves is the one
    its write leaves. *)
Lemma commit_block_state id u (order : Order) s2 :
  (try_except
     (update_order id u ;;
      updated_order <- DatabaseV6.get_order id ;;
      match updated_order with
      | Some updated_order => ret updated_order
      | None => ret order
      end)
     (fun e => raise e) s2).2
  = (update_order id u s2).2.
Proof.
  unfold try_except, bind.
  destruct (update_order id u s2) as [[[]|e] s3]; simpl; [|reflexivity].
  destruct (orders s3 !! id); reflexivity.
Qed.

Lemma update_order_step op id u o s2 s :
  op_target op = id ->
  orders s2 = orders s -> orders s !! id = Some o ->
  (forall now, op_edge op (status o) (status (apply_update now u o)) /\
               order_rewritten o (apply_update now u o)) ->
  order_step op s (update_order id u s2).2.
Proof.
  intros Ht Hsame Ho Hedge.
  destruct (update_order id u s2) as [r s'] eqn:Hrun.
  eapply written_step; eauto.
Qed.

Ltac rewritten :=
  unfold order_rewritten, apply_update; simpl;
  repeat match goal with
         | |- _ /\ _ => split
         | |- exists e, _ ++ [?x] = _ ++ [e] /\ _ => exists x; split; reflexivity
         end;
  try reflexivity; try (intros; left; assumption).

Lemma decline_order_step id m reason s :
  order_step (OpDeclineOrder id m reason) s (decline_order id m reason s).2.
Proof.
  unfold decline_order.
  destruct (negb (str_truthy id) || negb (str_truthy m)); [left; reflexivity|].
  unfold async_with_order_lock. unfold bind at 1. unfold modify at 1.
  set (s2 := set_lock_acquisitions _ s).
  rewrite (bind_ok _ _ _ (get_order_run _ _)).
  change (orders s2) with (orders s).
  destruct (orders s !! id) as [o|] eqn:Ho; [|left; reflexivity].
  destruct (String.eqb_spec (o_merchant_id o) m); simpl; [|left; reflexivity].
  destruct (String.eqb_spec (status o) PENDING) as [Hst|]; simpl; [|left; reflexivity].
  unfold bind at 1. unfold get_state at 1.
  rewrite commit_block_state.
  apply update_order_step with (o := o); [reflexivity | reflexivity | exact Ho |].
  intros now. split; [split; [exact Hst | reflexivity] | rewritten].
Qed.

Lemma complete_order_step id m note s :
  order_step (OpCompleteOrder id m note) s (complete_order id m note s).2.
Proof.
  unfold complete_order.
  destruct (negb (str_truthy id) || negb (str_truthy m)); [left; reflexivity|].
  unfold async_with_order_lock. unfold bind at 1. unfold modify at 1.
  set (s2 := set_lock_acquisitions _ s).
  rewrite (bind_ok _ _ _ (get_order_run _ _)).
  change (orders s2) with (orders s).
  destruct (orders s !! id) as [o|] eqn:Ho; [|left; reflexivity].
  destruct (String.eqb_spec (o_merchant_id o) m); simpl; [|left; reflexivity].
  destruct (String.eqb_spec (status o) ACCEPTED) as [Hst|]; simpl; [|left; reflexivity].
  unfold bind at 1. unfold get_state at 1.
  rewrite commit_block_state.
  apply update_order_step with (o := o); [reflexivity | reflexivity | exact Ho |].
  intros now. split; [split; [exact Hst | reflexivity] | rewritten].
Qed.

Lemma expire_order_step id s :
  order_step (OpExpireOrder id) s (expire_order id s).2.
Proof.
  unfold expire_order.
  destruct (negb (str_truthy id)); [left; reflexivity|].
  unfold async_with_order_lock. unfold bind at 1. unfold modify at 1.
  set (s2 := set_lock_acquisitions _ s).
  rewrite (bind_ok _ _ _ (get_order_run _ _)).
  change (orders s2) with (orders s).
  destruct (orders s !! id) as [o|] eqn:Ho; [|left; reflexivity].
  destruct (bool_decide (status o ∉ [PENDING; "pending_confirmation"])) eqn:Hst;
    [left; reflexivity|].
  apply bool_decide_eq_false in Hst.
  assert (Hin : status o ∈ [PENDING; "pending_confirmation"]).
  { destruct (decide (status o ∈ [PENDING; "pending_confirmation"])); [assumption|contradiction]. }
  unfold bind at 1. unfold get_state at 1.
  match goal with
  | |- order_step _ _ (try_except (bind (update_order id ?u) _) _ s2).2 =>
      assert (Hstate : (try_except (bind (update_order id u)
                                         (fun _ => DatabaseV6.get_order id))
                                   (fun _ => ret None) s2).2
                       = (update_order id u s2).2)
  end.
  { unfold try_except, bind.
    destruct (update_order id _ s2) as [[[]|e] s3]; reflexivity. }
  rewrite Hstate.
  apply update_order_step with (o := o); [reflexivity | reflexivity | exact Ho |].
  intros now. split; [split; [exact Hin | reflexivity] | rewritten].
Qed.

Lemma cancel_order_step id reason by_whom s :
  order_step (OpCancelOrder id reason by_whom) s (cancel_order id reason by_whom s).2.
Proof.
  unfold cancel_order.
  destruct (negb (str_truthy id) || negb (str_truthy reason)); [left; reflexivity|].
  unfold async_with_order_lock. unfold bind at 1. unfold modify at 1.
  set (s2 := set_lock_acquisitions _ s).
  rewrite (bind_ok _ _ _ (get_order_run _ _)).
  change (orders s2) with (orders s).
  destruct (orders s !! id) as [o|] eqn:Ho; [|left; reflexivity].
  destruct (bool_decide (status o ∈ [COMPLETED; CANCELLED; EXPIRED])) eqn:Hst;
    [left; reflexivity|].
  apply bool_decide_eq_false in Hst.
  match goal with
  | |- order_step _ _ (bind ?inv ?k s2).2 =>
      assert (Hinv : keeps ledger_step inv) by ledger_keeps;
      unfold bind at 1;
      destruct (inv s2) as [[b|e] s3] eqn:Hrun
  end.
  - apply Hinv, ledger_step_orders in Hrun.
    unfold bind at 1. unfold get_state at 1.
    rewrite commit_block_state.
    apply update_order_step with (o := o); [reflexivity | exact Hrun | exact Ho |].
    intros now. split; [split; [exact Hst | reflexivity]|].
    rewritten. destruct b; [discriminate | intros H; left; exact H].
  - apply Hinv, ledger_step_orders in Hrun. left. exact Hrun.
Qed.

Lemma force_cancel_order_admin_step id admin reason s :
  order_step (OpForceCancelOrderAdmin id admin reason) s
    (force_cancel_order_admin id admin reason s).2.
Proof.
  unfold force_cancel_order_admin.
  destruct (negb (str_truthy admin)); [left; reflexivity|].
  unfold async_with_order_lock. unfold bind at 1. unfold modify at 1.
  set (s2 := set_lock_acquisitions _ s).
  rewrite (bind_ok _ _ _ (get_order_run _ _)).
  change (orders s2) with (orders s).
  destruct (orders s !! id) as [o|] eqn:Ho; [|left; reflexivity].
  destruct (bool_decide (status o ∈ [CANCELLED; COMPLETED])) eqn:Hst;
    [left; reflexivity|].
  apply bool_decide_eq_false in Hst.
  match goal with
  | |- order_step _ _ (bind ?inv ?k s2).2 =>
      assert (Hinv : keeps ledger_step inv) by ledger_keeps;
      unfold bind at 1;
      destruct (inv s2) as [[b|e] s3] eqn:Hrun
  end.
  - apply Hinv, ledger_step_orders in Hrun.
    unfold bind at 1. unfold get_state at 1.
    rewrite bind_reads by reflexivity.
    apply update_order_step with (o := o); [reflexivity | exact Hrun | exact Ho |].
    intros now.
    destruct b; (split; [split; [exact Hst | reflexivity] | rewritten]).
    discriminate.
  - apply Hinv, ledger_step_orders in Hrun. left. exact Hrun.
Qed.

(** Steps 1 to 3 of an acceptance leave the order collection alone. *)
Lemma accept_steps_1_3_ledger id m ed : keeps ledger_step (accept_steps_1_3 id m ed).
Proof.
  intros s r s1. unfold accept_steps_1_3.
  destruct (negb (str_truthy id) || negb (str_truthy m));
    [intros H; inversion H; subst; apply ledger_step_refl|].
  rewrite (bind_ok _ _ _ (get_order_run _ _)).
  destruct (orders s !! id) as [o|] eqn:Ho;
    [|intros H; inversion H; subst; apply ledger_step_refl].
  destruct (negb (String.eqb (o_merchant_id o) m));
    [intros H; inversion H; subst; apply ledger_step_refl|].
  destruct (negb (String.eqb (status o) PENDING));
    [intros H; inversion H; subst; apply ledger_step_refl|].
  assert (Hexp : forall k : unit -> M Order,
             bind (match expiry_time o with
                   | TimeAbsent => ret tt
                   | _ =>
                       try_except
                         (expiry <- self_parse_iso_datetime (expiry_time o) ;;
                          s0 <- get_state ;;
                          match expiry with
                          | Some expiry =>
                              if (expiry <=? clock s0)%Z then
                                try_except (expire_order id ;; ret tt) (fun _ => ret tt) ;;
                                raise (ValueError ("Order " +:+ id +:+ " has expired"))
                              else ret tt
                          | None => ret tt
                          end)
                         (fun e => if str_contains "expired" (exc_str e)
                                   then raise e else ret tt)
                   end) k s = k tt s).
  { intros k. destruct (expiry_time o); reflexivity. }
  rewrite Hexp. clear Hexp.
  match goal with
  | |- ?c s = _ -> _ => assert (Hk : keeps ledger_step c) by ledger_keeps
  end.
  apply Hk.
Qed.

Lemma approve_steps_1_3_ledger id admin : keeps ledger_step (approve_steps_1_3 id admin).
Proof.
  unfold approve_steps_1_3. ledger_keeps.
  apply keeps_ledger_get_order.
Qed.

(** Step 4 writes the acceptance only over an order it has just read as
    pending. *)
Lemma accept_steps_4_5_step id m note ed order s1 :
  let s' := (accept_steps_4_5 id m note ed order s1).2 in
  orders s' = orders s1 \/
  exists cur o',
    orders s1 !! id = Some cur /\ status cur = PENDING /\
    orders s' = <[ id := o' ]> (orders s1) /\
    status o' = ACCEPTED /\ order_rewritten cur o'.
Proof.
  intros s'. assert (Hs' : s' = (accept_steps_4_5 id m note ed order s1).2) by reflexivity.
  clearbody s'. revert Hs'. unfold accept_steps_4_5.
  rewrite bind_reads
    by (intros a s0; unfold bind, DatabaseV6.get_order;
        destruct (orders s0 !! id); reflexivity).
  unfold async_with_order_lock. unfold bind at 1. unfold modify at 1.
  set (s2 := set_lock_acquisitions _ s1).
  rewrite (bind_ok _ _ _ (get_order_run _ _)).
  change (orders s2) with (orders s1).
  destruct (orders s1 !! id) as [cur|] eqn:Hcur; [|intros ->; left; reflexivity].
  destruct (String.eqb_spec (status cur) PENDING) as [Hst|Hst]; simpl.
  - unfold bind at 1. unfold get_state at 1. unfold try_except.
    match goal with
    | |- context [update_order id ?u s2] =>
        destruct (update_order id u s2) as [[[]|e] s3] eqn:Hrun
    end.
    + apply om_update_order_cases in Hrun as [->|(_ & o2 & Ho2 & ->)];
        [intros ->; left; reflexivity|].
      change (orders s2) with (orders s1) in Ho2. rewrite Hcur in Ho2.
      inversion Ho2; subst o2. intros ->.
      right. exists cur. eexists. split; [reflexivity|]. split; [exact Hst|].
      split; [reflexivity|].
      destruct ed; (split; [reflexivity|]); rewritten; intros; right; reflexivity.
    + apply om_update_order_cases in Hrun as [->|(Hr & _)]; [|discriminate].
      match goal with
      | |- _ = (?c s2).2 -> _ =>
          assert (Hk : keeps ledger_step c) by ledger_keeps;
          destruct (c s2) as [r s4] eqn:Hh
      end.
      apply Hk, ledger_step_orders in Hh. intros ->. left. exact Hh.
  - match goal with
    | |- _ = (?c s2).2 -> _ =>
        assert (Hk : keeps ledger_step c) by ledger_keeps;
        destruct (c s2) as [r s4] eqn:Hh
    end.
    apply Hk, ledger_step_orders in Hh. intros ->. left. exact Hh.
Qed.

Lemma approve_steps_4_5_step id admin note order s1 :
  let s' := (approve_steps_4_5 id admin note order s1).2 in
  orders s' = orders s1 \/
  exists cur o',
    orders s1 !! id = Some cur /\ status cur ∈ [PENDING; REVIEW] /\
    orders s' = <[ id := o' ]> (orders s1) /\
    status o' = ACCEPTED /\ order_rewritten cur o'.
Proof.
  intros s'. assert (Hs' : s' = (approve_steps_4_5 id admin note order s1).2) by reflexivity.
  clearbody s'. revert Hs'. unfold approve_steps_4_5.
  rewrite bind_reads by reflexivity.
  unfold async_with_order_lock. unfold bind at 1. unfold modify at 1.
  set (s2 := set_lock_acquisitions _ s1).
  rewrite (bind_ok _ _ _ (get_order_run _ _)).
  change (orders s2) with (orders s1).
  destruct (orders s1 !! id) as [cur|] eqn:Hcur; [|intros ->; left; reflexivity].
  destruct (bool_decide (status cur ∉ [PENDING; REVIEW])) eqn:Hst.
  - match goal with
    | |- _ = (?c s2).2 -> _ =>
        assert (Hk : keeps ledger_step c) by ledger_keeps;
        destruct (c s2) as [r s4] eqn:Hh
    end.
    apply Hk, ledger_step_orders in Hh. intros ->. left. exact Hh.
  - apply bool_decide_eq_false in Hst.
    assert (Hin : status cur ∈ [PENDING; REVIEW]).
    { destruct (decide (status cur ∈ [PENDING; REVIEW])); [assumption|contradiction]. }
    unfold bind at 1. unfold get_state at 1. unfold try_except.
    match goal with
    | |- context [update_order id ?u s2] =>
        destruct (update_order id u s2) as [[[]|e] s3] eqn:Hrun
    end.
    + apply om_update_order_cases in Hrun as [->|(_ & o2 & Ho2 & ->)];
        [intros ->; left; reflexivity|].
      change (orders s2) with (orders s1) in Ho2. rewrite Hcur in Ho2.
      inversion Ho2; subst o2. intros ->.
      right. exists cur. eexists. split; [reflexivity|]. split; [exact Hin|].
      split; [reflexivity|]. split; [reflexivity|].
      rewritten; intros; right; reflexivity.
    + apply om_update_order_cases in Hrun as [->|(Hr & _)]; [|discriminate].
      match goal with
      | |- _ = (?c s2).2 -> _ =>
          assert (Hk : keeps ledger_step c) by ledger_keeps;
          destruct (c s2) as [r s4] eqn:Hh
      end.
      apply Hk, ledger_step_orders in Hh. intros ->. left. exact Hh.
Qed.

Lemma accept_order_step id m note ed s :
  order_step (OpAcceptOrder id m note ed) s (accept_order id m note ed s).2.
Proof.
  unfold accept_order, accept_order_interleaved.
  unfold bind at 1.
  destruct (accept_steps_1_3 id m ed s) as [[order|e] s1] eqn:H13.
  - pose proof (ledger_step_orders (accept_steps_1_3_ledger id m ed _ H13)) as Hsame.
    unfold bind at 1. unfold ret at 1.
    destruct (accept_steps_4_5_step id m note ed order s1)
      as [H|(cur & o' & Hcur & Hst & Hw & Hst' & Hrw)].
    + left. rewrite H. exact Hsame.
    + right. exists cur, o'. simpl. rewrite <- Hsame.
      split; [exact Hcur|]. split; [exact Hw|]. split; [split; assumption | exact Hrw].
  - left. exact (ledger_step_orders (accept_steps_1_3_ledger id m ed _ H13)).
Qed.

Lemma approve_order_admin_step id admin note s :
  order_step (OpApproveOrderAdmin id admin note) s (approve_order_admin id admin note s).2.
Proof.
  unfold approve_order_admin, approve_order_admin_interleaved.
  unfold bind at 1.
  destruct (approve_steps_1_3 id admin s) as [[order|e] s1] eqn:H13.
  - pose proof (ledger_step_orders (approve_steps_1_3_ledger id admin _ H13)) as Hsame.
    unfold bind at 1. unfold ret at 1.
    destruct (approve_steps_4_5_step id admin note order s1)
      as [H|(cur & o' & Hcur & Hst & Hw & Hst' & Hrw)].
    + left. rewrite H. exact Hsame.
    + right. exists cur, o'. simpl. rewrite <- Hsame.
      split; [exact Hcur|]. split; [exact Hw|]. split; [split; assumption | exact Hrw].
  - left. exact (ledger_step_orders (approve_steps_1_3_ledger id admin _ H13)).
Qed.

Lemma run_order_op_step op s : order_step op s (run_order_op op s).2.
Proof.
  destruct op; simpl; rewrite bind_reads by reflexivity.
  - apply accept_order_step.
  - apply decline_order_step.
  - apply complete_order_step.
  - apply cancel_order_step.
  - apply expire_order_step.
  - apply force_cancel_order_admin_step.
  - apply approve_order_admin_step.
Qed.

End PerOp.

Section Lifecycle.

Lemma op_edge_lifecycle op from to : op_edge op from to -> lifecycle_edge from to.
Proof.
  unfold lifecycle_edge.
  destruct op; simpl; intros [H1 H2]; subst; auto 10.
  - left. split; [reflexivity|]. apply elem_of_cons. left. reflexivity.
  - do 4 right. split; [reflexivity|]. intros H. apply H1.
    rewrite !elem_of_cons in *. tauto.
Qed.

(** What holds of every order after a sequence of transitions, when it
    holds across each rewriting that the transitions can perform. *)
Lemma run_order_ops_related (P : OrderOp -> Prop) (R : Order -> Order -> Prop) :
  (forall o, R o o) ->
  (forall a b c, R a b -> R b c -> R a c) ->
  (forall op o o', P op -> op_edge op (status o) (status o') ->
                   order_rewritten o o' -> R o o') ->
  forall ops s id o,
    Forall P ops -> orders s !! id = Some o ->
    exists o', orders (run_order_ops ops s) !! id = Some o' /\ R o o'.
Proof.
  intros Hrefl Htrans Hstep.
  induction ops as [|op rest IH]; intros s id o Hall Ho; simpl.
  - exists o. auto.
  - inversion Hall as [|? ? Hop Hrest]; subst.
    destruct (run_order_op_step op s) as [Hsame|(o1 & o2 & Ho1 & Hw & Hedge & Hrw)].
    + apply IH; [exact Hrest | rewrite Hsame; exact Ho].
    + destruct (decide (id = op_target op)) as [->|Hne].
      * assert (o1 = o) by congruence. subst o1.
        destruct (IH (run_order_op op s).2 (op_target op) o2 Hrest)
          as (o' & Ho' & HR).
        { rewrite Hw. apply lookup_insert_eq. }
        exists o'. split; [exact Ho'|]. eapply Htrans; [|exact HR].
        eapply Hstep; eauto.
      * apply IH; [exact Hrest|]. rewrite Hw.
        rewrite lookup_insert_ne by congruence. exact Ho.
Qed.

Lemma run_order_ops_absent ops :
  forall s id, orders s !! id = None -> orders (run_order_ops ops s) !! id = None.
Proof.
  induction ops as [|op rest IH]; intros s id Ho; simpl; [exact Ho|].
  apply IH.
  destruct (run_order_op_step op s) as [Hsame|(o1 & o2 & Ho1 & Hw & _)].
  - rewrite Hsame. exact Ho.
  - rewrite Hw. rewrite lookup_insert_ne; [exact Ho|].
    intros E. rewrite <- E in Ho. congruence.
Qed.

End Lifecycle.

(** X10.  Whatever sequence of [accept_order], [decline_order],
    [complete_order], [cancel_order], [expire_order],
    [force_cancel_order_admin] and [approve_order_admin] runs, and however
    the store behaves, no order is created or deleted, every order keeps
    its id, merchant, customer, lines and creation time, and its status is
    reached from the one it had by steps of the life cycle only: to
    accepted from pending or review, to declined from pending, to completed
    from accepted, to expired from pending (or the legacy
    pending_confirmation), to cancelled from anything but cancelled or
    completed. *)
Theorem order_status_follows_lifecycle (ops : list OrderOp) (s : State) (id : string) :
  match orders s !! id with
  | None => orders (run_order_ops ops s) !! id = None
  | Some o =>
      exists o',
        orders (run_order_ops ops s) !! id = Some o' /\
        rtc lifecycle_edge (status o) (status o') /\
        o_order_id o' = o_order_id o /\ o_merchant_id o' = o_merchant_id o /\
        customer_phone o' = customer_phone o /\ items o' = items o /\
        created_at o' = created_at o
  end.
Proof.
  destruct (orders s !! id) as [o|] eqn:Ho; [|apply run_order_ops_absent; exact Ho].
  apply (@run_order_ops_related (fun _ => True)
           (fun o o' =>
              rtc lifecycle_edge (status o) (status o') /\
              o_order_id o' = o_order_id o /\ o_merchant_id o' = o_merchant_id o /\
              customer_phone o' = customer_phone o /\ items o' = items o /\
              created_at o' = created_at o)).
  - intros o0. repeat split; reflexivity.
  - intros a b c (H1 & H2 & H3 & H4 & H5 & H6) (G1 & G2 & G3 & G4 & G5 & G6).
    split; [etransitivity; eauto|]. repeat split; congruence.
  - intros op o1 o2 _ Hedge (H1 & H2 & H3 & H4 & H5 & _).
    split; [apply rtc_once; eapply op_edge_lifecycle; eauto|].
    repeat split; assumption.
  - apply Forall_forall. intros; exact I.
  - exact Ho.
Qed.

(** X11.  An order that is completed or cancelled is never changed
    again by any sequence of transitions; an expired order is not changed by
    any sequence that holds no [force_cancel_order_admin]. *)
Theorem closed_orders_are_final (ops : list OrderOp) (s : State) (id : string)
    (o : Order) :
  orders s !! id = Some o ->
  (status o ∈ [COMPLETED; CANCELLED]) \/
  (status o = EXPIRED /\ Forall (fun op => ~ is_force_cancel op) ops) ->
  orders (run_order_ops ops s) !! id = Some o.
Proof.
  intros Ho Hclosed.
  assert (Hno : forall op to,
             (status o ∈ [COMPLETED; CANCELLED]) \/
             (status o = EXPIRED /\ ~ is_force_cancel op) ->
             ~ op_edge op (status o) to).
  { intros op to Hc Hedge.
    destruct op; simpl in Hedge; destruct Hedge as [H1 H2];
      rewrite ?elem_of_cons, ?elem_of_nil in *;
      unfold PENDING, REVIEW, ACCEPTED, COMPLETED, CANCELLED, EXPIRED in *;
      destruct Hc as [Hc|[Hc Hf]]; rewrite ?elem_of_cons, ?elem_of_nil in *;
      try (simpl in Hf; tauto);
      intuition (try congruence). }
  destruct Hclosed as [Hc|[Hc Hall]].
  - destruct (@run_order_ops_related (fun _ => True)
                (fun a b => a = o -> b = o)) with (ops := ops) (s := s) (id := id) (o := o)
      as (o' & Ho' & HR); auto.
    + intros op a b _ Hedge _ ->. exfalso. eapply Hno; eauto.
    + apply Forall_forall. intros; exact I.
    + rewrite Ho'. f_equal. apply HR. reflexivity.
  - destruct (@run_order_ops_related (fun op => ~ is_force_cancel op)
                (fun a b => a = o -> b = o)) with (ops := ops) (s := s) (id := id) (o := o)
      as (o' & Ho' & HR); auto.
    + intros op a b Hf Hedge _ ->. exfalso. eapply Hno; eauto.
    + rewrite Ho'. f_equal. apply HR. reflexivity.
Qed.

(** X11 at work. *)
Lemma closed_orders_are_final_witness :
  let o := Scenario.an_order [rice_line 4] COMPLETED true in
  let s := Scenario.shop_with 6 Scenario.obliging o in
  orders (run_order_ops [OpCancelOrder "ORD-1" "changed my mind" "customer";
                         OpForceCancelOrderAdmin "ORD-1" "root" "fraud";
                         OpExpireOrder "ORD-1"] s) !! "ORD-1" = Some o.
Proof.
  intros o s.
  apply (@closed_orders_are_final _ s "ORD-1" o).
  - reflexivity.
  - left. apply list_elem_of_here.
Defined.

(** X12.  Whatever sequence of transitions runs, the timeline of an
    order on record only grows at its end, it is strictly longer whenever
    the status has changed, and when its last entry recorded the status
    before, its last entry records the status afterwards. *)
Theorem timeline_is_append_only (ops : list OrderOp) (s : State) (id : string)
    (o : Order) :
  orders s !! id = Some o ->
  exists o',
    orders (run_order_ops ops s) !! id = Some o' /\
    timeline o `prefix_of` timeline o' /\
    (timeline_tracks_status o -> timeline_tracks_status o') /\
    (status o' <> status o -> (length (timeline o) < length (timeline o'))%nat).
Proof.
  intros Ho.
  apply (@run_order_ops_related (fun _ => True)
           (fun o o' =>
              timeline o `prefix_of` timeline o' /\
              (timeline_tracks_status o -> timeline_tracks_status o') /\
              (status o' <> status o -> (length (timeline o) < length (timeline o'))%nat)))
    with (ops := ops) (s := s) (id := id) (o := o).
  - intros o0. split; [reflexivity|]. split; [tauto | congruence].
  - intros a b c (H1 & H2 & H3) (G1 & G2 & G3).
    split; [etransitivity; eauto|]. split; [tauto|].
    intros Hne. apply prefix_length in H1. apply prefix_length in G1.
    destruct (decide (status b = status a)) as [E|E].
    + assert (status c <> status b) by congruence.
      specialize (G3 ltac:(assumption)). lia.
    + specialize (H3 E). lia.
  - intros op o1 o2 _ _ (_ & _ & _ & _ & _ & _ & _ & (e & Ht & He) & _).
    split; [rewrite Ht; apply prefix_app_r; reflexivity|].
    split.
    + intros _. exists e. rewrite Ht, last_snoc. auto.
    + intros _. rewrite Ht, length_app. simpl. lia.
  - apply Forall_forall. intros; exact I.
  - exact Ho.
Qed.

(** X12 at work. *)
Lemma timeline_is_append_only_witness :
  let s := Scenario.shop_with 10 Scenario.obliging pending_order_for_4 in
  exists o',
    orders (run_order_ops [OpAcceptOrder "ORD-1" "m1" None None;
                           OpCompleteOrder "ORD-1" "m1" None] s) !! "ORD-1" = Some o' /\
    timeline pending_order_for_4 `prefix_of` timeline o' /\
    (timeline_tracks_status pending_order_for_4 -> timeline_tracks_status o') /\
    (status o' <> status pending_order_for_4 ->
     (length (timeline pending_order_for_4) < length (timeline o'))%nat).
Proof.
  intros s.
  apply (@timeline_is_append_only _ s "ORD-1" pending_order_for_4).
  reflexivity.
Defined.

(** X13.  When every order flagged [inventory_deducted] is accepted,
    completed or cancelled, this is still so after any sequence of
    transitions: no pending, review, declined or expired order is ever
    flagged as holding stock. *)
Theorem stock_is_held_only_after_acceptance (ops : list OrderOp) (s : State) :
  (forall id o, orders s !! id = Some o -> inventory_deducted o = true ->
                status o ∈ [ACCEPTED; COMPLETED; CANCELLED]) ->
  forall id o, orders (run_order_ops ops s) !! id = Some o ->
               inventory_deducted o = true ->
               status o ∈ [ACCEPTED; COMPLETED; CANCELLED].
Proof.
  intros Hinv id o' Ho' Hflag.
  destruct (orders s !! id) as [o|] eqn:Ho.
  2:{ rewrite (run_order_ops_absent ops _ _ Ho) in Ho'. discriminate. }
  destruct (@run_order_ops_related (fun _ => True)
              (fun a b =>
                 (inventory_deducted a = true -> status a ∈ [ACCEPTED; COMPLETED; CANCELLED]) ->
                 inventory_deducted b = true -> status b ∈ [ACCEPTED; COMPLETED; CANCELLED]))
    with (ops := ops) (s := s) (id := id) (o := o) as (o2 & Ho2 & HR); auto.
  - intros op a b _ Hedge (_ & _ & _ & _ & _ & _ & _ & _ & Hfl) Ha Hb.
    destruct (Hfl Hb) as [Hprev|Hacc].
    + specialize (Ha Hprev).
      destruct op; simpl in Hedge; destruct Hedge as [H1 H2]; rewrite H2;
        rewrite ?elem_of_cons, ?elem_of_nil in *;
        unfold PENDING, REVIEW, ACCEPTED, COMPLETED, CANCELLED, EXPIRED in *;
        intuition (try congruence).
    + rewrite Hacc. apply elem_of_cons. left. reflexivity.
  - apply Forall_forall. intros; exact I.
  - assert (o2 = o') by congruence. subst o2.
    apply HR; [apply (Hinv id o Ho) | exact Hflag].
Qed.

(** X13 at work. *)
Lemma stock_is_held_only_after_acceptance_witness :
  let s := Scenario.shop_with 10 Scenario.obliging pending_order_for_4 in
  let s' := run_order_ops [OpAcceptOrder "ORD-1" "m1" None None;
                           OpCancelOrder "ORD-1" "changed my mind" "customer"] s in
  (forall id o, orders s !! id = Some o -> inventory_deducted o = true ->
                status o ∈ [ACCEPTED; COMPLETED; CANCELLED]) /\
  (forall id o, orders s' !! id = Some o -> inventory_deducted o = true ->
                status o ∈ [ACCEPTED; COMPLETED; CANCELLED]).
Proof.
  intros s s'.
  assert (Hs : forall id o, orders s !! id = Some o -> inventory_deducted o = true ->
                            status o ∈ [ACCEPTED; COMPLETED; CANCELLED]).
  { intros id o Ho Hd.
    change (orders s)
      with (<[ "ORD-1" := pending_order_for_4 ]> (∅ : gmap string Order)) in Ho.
    apply lookup_insert_Some in Ho as [[_ <-]|[_ Ho]].
    - discriminate Hd.
    - rewrite lookup_empty in Ho. discriminate Ho. }
  split; [exact Hs|].
  exact (@stock_is_held_only_after_acceptance _ s Hs).
Defined.

Section Transitions.

(** X14.  On a store that applies order writes, [decline_order] called
    with non-empty ids by its merchant on a pending order returns the stored order with status
    declined and one more timeline entry (the reason given, or "Order
    declined by merchant", actor "merchant"); lines and the
    [inventory_deducted] flag stay, and neither products nor movement log
    change. *)
Theorem decline_order_declines (id m : string) (reason : option string) (o : Order)
    (s : State) :
  str_truthy id = true -> str_truthy m = true ->
  orders s !! id = Some o -> o_merchant_id o = m -> status o = PENDING ->
  orders_ok s ->
  exists o' s',
    decline_order id m reason s = (Ok o', s') /\
    orders s' = <[ id := o' ]> (orders s) /\
    status o' = DECLINED /\
    timeline o'
    = timeline o ++ [mkTimelineEntry DECLINED (clock s)
                       (str_or reason "Order declined by merchant") "merchant"] /\
    inventory_deducted o' = inventory_deducted o /\ items o' = items o /\
    products s' = products s /\ stock_movements s' = stock_movements s.
Proof.
  intros Hid Hm Ho Hmerch Hst Hok.
  unfold decline_order. rewrite Hid, Hm. simpl.
  unfold async_with_order_lock. unfold bind at 1. unfold modify at 1.
  set (s2 := set_lock_acquisitions (cons "_order_lock") s).
  rewrite (bind_ok _ _ _ (get_order_run _ _)).
  change (orders s2) with (orders s). rewrite Ho, Hmerch, String.eqb_refl, Hst. simpl.
  unfold bind at 1. unfold get_state at 1. unfold try_except.
  rewrite (bind_ok _ _ _ (@update_order_run id _ o s2 Hid Hok Ho)).
  rewrite (bind_ok _ _ _ (get_order_run _ _)). simpl. rewrite lookup_insert_eq.
  do 2 eexists. split; [reflexivity|]. simpl. auto 10.
Qed.

(** X14 at work. *)
Lemma decline_order_declines_witness :
  let s := Scenario.shop_with 10 Scenario.obliging pending_order_for_4 in
  exists o' s',
    decline_order "ORD-1" "m1" None s = (Ok o', s') /\
    orders s' = <[ "ORD-1" := o' ]> (orders s) /\
    status o' = DECLINED /\
    timeline o'
    = timeline pending_order_for_4
      ++ [mkTimelineEntry DECLINED (clock s) "Order declined by merchant" "merchant"] /\
    inventory_deducted o' = false /\ items o' = [rice_line 4] /\
    products s' = products s /\ stock_movements s' = stock_movements s.
Proof.
  intros s.
  apply (@decline_order_declines "ORD-1" "m1" None pending_order_for_4 s).
  - reflexivity.
  - reflexivity.
  - reflexivity.
  - reflexivity.
  - reflexivity.
  - reflexivity.
Defined.

(** X15.  On a store that applies order writes, [complete_order] called
    with non-empty ids by its merchant on an accepted order returns the stored order with
    status completed and one more timeline entry (the note given, or "Order
    completed and delivered", actor "merchant"); lines and the
    [inventory_deducted] flag stay, and neither products nor movement log
    change. *)
Theorem complete_order_completes (id m : string) (note : option string) (o : Order)
    (s : State) :
  str_truthy id = true -> str_truthy m = true ->
  orders s !! id = Some o -> o_merchant_id o = m -> status o = ACCEPTED ->
  orders_ok s ->
  exists o' s',
    complete_order id m note s = (Ok o', s') /\
    orders s' = <[ id := o' ]> (orders s) /\
    status o' = COMPLETED /\
    timeline o'
    = timeline o ++ [mkTimelineEntry COMPLETED (clock s)
                       (str_or note "Order completed and delivered") "merchant"] /\
    inventory_deducted o' = inventory_deducted o /\ items o' = items o /\
    products s' = products s /\ stock_movements s' = stock_movements s.
Proof.
  intros Hid Hm Ho Hmerch Hst Hok.
  unfold complete_order. rewrite Hid, Hm. simpl.
  unfold async_with_order_lock. unfold bind at 1. unfold modify at 1.
  set (s2 := set_lock_acquisitions (cons "_order_lock") s).
  rewrite (bind_ok _ _ _ (get_order_run _ _)).
  change (orders s2) with (orders s). rewrite Ho, Hmerch, String.eqb_refl, Hst. simpl.
  unfold bind at 1. unfold get_state at 1. unfold try_except.
  rewrite (bind_ok _ _ _ (@update_order_run id _ o s2 Hid Hok Ho)).
  rewrite (bind_ok _ _ _ (get_order_run _ _)). simpl. rewrite lookup_insert_eq.
  do 2 eexists. split; [reflexivity|]. simpl. auto 10.
Qed.

(** X15 at work. *)
Lemma complete_order_completes_witness :
  let o := Scenario.an_order [rice_line 4] ACCEPTED true in
  let s := Scenario.shop_with 6 Scenario.obliging o in
  exists o' s',
    complete_order "ORD-1" "m1" (Some "handed over") s = (Ok o', s') /\
    orders s' = <[ "ORD-1" := o' ]> (orders s) /\
    status o' = COMPLETED /\
    timeline o'
    = timeline o ++ [mkTimelineEntry COMPLETED (clock s) "handed over" "merchant"] /\
    inventory_deducted o' = true /\ items o' = [rice_line 4] /\
    products s' = products s /\ stock_movements s' = stock_movements s.
Proof.
  intros o s.
  apply (@complete_order_completes "ORD-1" "m1" (Some "handed over") o s).
  - reflexivity.
  - reflexivity.
  - reflexivity.
  - reflexivity.
  - reflexivity.
  - reflexivity.
Defined.

(** X16.  With non-empty ids, [accept_order], [decline_order] and
    [complete_order] raise [ValueError] when the order is unknown, belongs
    to another merchant, or is not in the status the transition starts from
    (pending, pending, accepted).  Nothing is written: [accept_order]
    leaves the state as it was, the other two have only taken the order
    lock. *)
Theorem transitions_refuse_without_writing (id m : string) (s : State) :
  str_truthy id = true -> str_truthy m = true ->
  let locked := set_lock_acquisitions (cons "_order_lock") s in
  (not_eligible s id m PENDING ->
   forall note ed,
     exists msg, accept_order id m note ed s = (Raise (ValueError msg), s)) /\
  (not_eligible s id m PENDING ->
   forall reason,
     exists msg, decline_order id m reason s = (Raise (ValueError msg), locked)) /\
  (not_eligible s id m ACCEPTED ->
   forall note,
     exists msg, complete_order id m note s = (Raise (ValueError msg), locked)).
Proof.
  intros Hid Hm locked. subst locked. unfold not_eligible. split; [|split].
  - intros H note ed.
    unfold accept_order, accept_order_interleaved, accept_steps_1_3.
    rewrite Hid, Hm. simpl.
    unfold bind at 1. unfold bind at 1.
    rewrite get_order_run.
    destruct (orders s !! id) as [o|]; [|eexists; reflexivity].
    destruct (String.eqb_spec (o_merchant_id o) m) as [E1|E1]; simpl;
      [|eexists; reflexivity].
    destruct (String.eqb_spec (status o) PENDING) as [E2|E2]; simpl;
      [|eexists; reflexivity].
    tauto.
  - intros H reason. unfold decline_order. rewrite Hid, Hm. simpl.
    unfold async_with_order_lock. unfold bind at 1. unfold modify at 1.
    rewrite (bind_ok _ _ _ (get_order_run _ _)).
    change (orders (set_lock_acquisitions (cons "_order_lock") s)) with (orders s).
    destruct (orders s !! id) as [o|]; [|eexists; reflexivity].
    destruct (String.eqb_spec (o_merchant_id o) m) as [E1|E1]; simpl;
      [|eexists; reflexivity].
    destruct (String.eqb_spec (status o) PENDING) as [E2|E2]; simpl;
      [|eexists; reflexivity].
    tauto.
  - intros H note. unfold complete_order. rewrite Hid, Hm. simpl.
    unfold async_with_order_lock. unfold bind at 1. unfold modify at 1.
    rewrite (bind_ok _ _ _ (get_order_run _ _)).
    change (orders (set_lock_acquisitions (cons "_order_lock") s)) with (orders s).
    destruct (orders s !! id) as [o|]; [|eexists; reflexivity].
    destruct (String.eqb_spec (o_merchant_id o) m) as [E1|E1]; simpl;
      [|eexists; reflexivity].
    destruct (String.eqb_spec (status o) ACCEPTED) as [E2|E2]; simpl;
      [|eexists; reflexivity].
    tauto.
Qed.

(** X16 at work. *)
Lemma transitions_refuse_without_writing_witness :
  let s := Scenario.shop_with 10 Scenario.obliging pending_order_for_4 in
  let locked := set_lock_acquisitions (cons "_order_lock") s in
  (exists msg, accept_order "ORD-1" "m2" None None s = (Raise (ValueError msg), s)) /\
  (exists msg, decline_order "ORD-1" "m2" None s = (Raise (ValueError msg), locked)) /\
  (exists msg, complete_order "ORD-1" "m1" None s = (Raise (ValueError msg), locked)).
Proof.
  intros s locked.
  destruct (@transitions_refuse_without_writing "ORD-1" "m2" s) as (Ha & Hd & _);
    [reflexivity | reflexivity |].
  destruct (@transitions_refuse_without_writing "ORD-1" "m1" s) as (_ & _ & Hc);
    [reflexivity | reflexivity |].
  split; [|split].
  - apply Ha. left. discriminate.
  - apply Hd. left. discriminate.
  - apply Hc. right. discriminate.
Defined.

End Transitions.
Section Acceptance.





End Acceptance.


Section AdminTransitions.

Lemma approve_steps_1_3_run id admin order s :
  str_truthy id = true -> str_truthy admin = true ->
  orders s !! id = Some order -> str_truthy (o_merchant_id order) = true ->
  status order ∈ [PENDING; REVIEW] ->
  store_ok s -> debitable s (o_merchant_id order) (items order) ->
  exists s1,
    approve_steps_1_3 id admin s = (Ok order, s1) /\
    stock_step (o_merchant_id order) (fun p => - demand p (items order)) s s1.
Proof.
  intros Hid Ha Ho Hm Hst Hok Hdeb.
  destruct (batch_deduct_stock_success "admin" Hok Hdeb) as (s1 & Hbatch & Hstep).
  exists s1. split; [|exact Hstep].
  unfold approve_steps_1_3. rewrite Hid, Ha. simpl.
  rewrite (bind_ok _ _ _ (get_order_run _ _)), Ho. rewrite Hm. simpl.
  assert (Hb : bool_decide (status order ∉ [PENDING; REVIEW]) = false).
  { apply bool_decide_eq_false. intros H. contradiction. }
  rewrite Hb. rewrite (bind_ok _ _ _ Hbatch). reflexivity.
Qed.

Lemma approve_steps_4_5_written id admin note order cur s :
  str_truthy id = true ->
  orders s !! id = Some cur -> status cur ∈ [PENDING; REVIEW] -> orders_ok s ->
  exists o' s',
    approve_steps_4_5 id admin note order s = (Ok (Some o'), s') /\
    orders s' = <[ id := o' ]> (orders s) /\
    status o' = ACCEPTED /\ inventory_deducted o' = true /\
    items o' = items cur /\
    timeline o'
    = timeline cur ++ [mkTimelineEntry ACCEPTED (clock s)
                         (str_or note "Approved by admin") admin] /\
    ("approved_by_admin", VStr admin) ∈ other_fields o' /\
    products s' = products s /\ stock_movements s' = stock_movements s.
Proof.
  intros Hid Hcur Hst Hok.
  unfold approve_steps_4_5, async_with_order_lock.
  set (s2 := set_lock_acquisitions (cons "_order_lock") s).
  assert (Hb : bool_decide (status cur ∉ [PENDING; REVIEW]) = false).
  { apply bool_decide_eq_false. intros H. contradiction. }
  do 2 eexists. split.
  - unfold bind at 1. unfold bind at 1. unfold modify at 1. fold s2.
    rewrite (bind_ok _ _ _ (get_order_run _ _)).
    change (orders s2) with (orders s). rewrite Hcur, Hb.
    unfold bind at 1. unfold get_state at 1.
    unfold try_except.
    erewrite update_order_run; [|exact Hid|exact Hok|exact Hcur].
    rewrite get_order_run. simpl.
    rewrite lookup_insert_eq. reflexivity.
  - simpl. unfold str_or. simpl. repeat split; try reflexivity.
    apply elem_of_cons. left. reflexivity.
Qed.

Lemma index_quantities_numeric its :
  Forall (fun it => is_Some (item_qty it)) its ->
  index_quantities its = Ok (item_returns its).
Proof.
  induction 1 as [|it rest [q Hq] _ IH]; simpl; [reflexivity|].
  rewrite IH. unfold item_qty in *.
  destruct (item_quantity it); try discriminate.
  reflexivity.
Qed.

End AdminTransitions.

(** X18.  On a store that applies its writes, [approve_order_admin]
    (ids and the order's merchant not empty) on an order in status pending
    or review whose lines can be debited returns
    the stored order: accepted, flagged [inventory_deducted], marked
    [approved_by_admin] with the admin, with one more timeline entry (the
    note given, or "Approved by admin", actor the admin), and each product
    of the order's merchant lowered by the total asked of it. *)
Theorem approve_order_admin_accepts (id admin : string) (note : option string)
    (order : Order) (s : State) :
  str_truthy id = true -> str_truthy admin = true ->
  orders s !! id = Some order -> str_truthy (o_merchant_id order) = true ->
  status order ∈ [PENDING; REVIEW] ->
  store_ok s -> orders_ok s ->
  debitable s (o_merchant_id order) (items order) ->
  exists o' s',
    approve_order_admin id admin note s = (Ok (Some o'), s') /\
    orders s' = <[ id := o' ]> (orders s) /\
    status o' = ACCEPTED /\ inventory_deducted o' = true /\
    timeline o'
    = timeline order ++ [mkTimelineEntry ACCEPTED (clock s)
                           (str_or note "Approved by admin") admin] /\
    ("approved_by_admin", VStr admin) ∈ other_fields o' /\
    forall p, (stock_of s' (o_merchant_id order) p
               == stock_of s (o_merchant_id order) p - demand p (items order))%Q.
Proof.
  intros Hid Ha Ho Hm Hst Hok Hoo Hdeb.
  destruct (@approve_steps_1_3_run id admin order s Hid Ha Ho Hm Hst Hok Hdeb)
    as (s1 & Hrun & Hstep).
  assert (Ho1 : orders s1 !! id = Some order).
  { destruct Hstep as ((_ & -> & _) & _). exact Ho. }
  assert (Hoo1 : orders_ok s1) by (eapply orders_ok_frame; [apply Hstep | exact Hoo]).
  destruct (@approve_steps_4_5_written id admin note order order s1 Hid Ho1 Hst Hoo1)
    as (o' & s' & Hrun2 & Hw & Hst' & Hded & _ & Htl & Hby & Hp & _).
  exists o', s'. split.
  { unfold approve_order_admin, approve_order_admin_interleaved.
    rewrite (bind_ok _ _ _ Hrun).
    unfold bind at 1. unfold ret at 1. exact Hrun2. }
  split; [rewrite Hw; destruct Hstep as ((_ & -> & _) & _); reflexivity|].
  split; [exact Hst'|]. split; [exact Hded|].
  split; [rewrite Htl; f_equal; f_equal; f_equal; apply Hstep|].
  split; [exact Hby|].
  intros p. destruct Hstep as (_ & _ & Hs & _).
  unfold stock_of at 1. rewrite Hp. fold (stock_of s1 (o_merchant_id order) p).
  rewrite Hs. ring.
Qed.

(** X18 at work. *)
Lemma approve_order_admin_accepts_witness :
  let order := Scenario.an_order [rice_line 4] REVIEW false in
  let s := Scenario.shop_with 10 Scenario.obliging order in
  exists o' s',
    approve_order_admin "ORD-1" "root" None s = (Ok (Some o'), s') /\
    orders s' = <[ "ORD-1" := o' ]> (orders s) /\
    status o' = ACCEPTED /\ inventory_deducted o' = true /\
    timeline o'
    = timeline order ++ [mkTimelineEntry ACCEPTED (clock s) "Approved by admin" "root"] /\
    ("approved_by_admin", VStr "root") ∈ other_fields o' /\
    forall p, (stock_of s' "m1" p == stock_of s "m1" p - demand p [rice_line 4])%Q.
Proof.
  intros order s.
  apply (@approve_order_admin_accepts "ORD-1" "root" None order s).
  - reflexivity.
  - reflexivity.
  - reflexivity.
  - reflexivity.
  - apply list_elem_of_further, list_elem_of_here.
  - split; reflexivity.
  - reflexivity.
  - apply (@rice_lines_debitable 10%Q Scenario.obliging [4%Q]).
    + repeat constructor. discriminate.
    + vm_compute. discriminate.
Defined.

(** X19.  On a store that applies its writes, with no negative
    quantity, non-empty ids and lines that can be given back: [force_cancel_order_admin] returns a cancelled or completed
    order as it is, having only taken the order lock.  Any other order is
    stored as cancelled with one more timeline entry ("Cancelled by admin:
    " and the reason, actor the admin); when the order was flagged
    [inventory_deducted] each product gets back the total asked of it, and
    the flag is cleared only for an order without lines: with at least one
    line it stays true.  When the order was not flagged, products are
    unchanged and the flag stays false. *)
Theorem force_cancel_order_admin_cancels (id admin reason : string) (order : Order)
    (s : State) :
  str_truthy id = true -> str_truthy admin = true ->
  orders s !! id = Some order ->
  store_ok s -> orders_ok s -> nonneg_stock s ->
  returnable s (o_merchant_id order) (items order) ->
  (status order ∈ [CANCELLED; COMPLETED] ->
   force_cancel_order_admin id admin reason s
   = (Ok (Some order), set_lock_acquisitions (cons "_order_lock") s)) /\
  (status order ∉ [CANCELLED; COMPLETED] ->
   exists o' s',
     force_cancel_order_admin id admin reason s = (Ok (Some o'), s') /\
     orders s' = <[ id := o' ]> (orders s) /\
     status o' = CANCELLED /\
     timeline o'
     = timeline order ++ [mkTimelineEntry CANCELLED (clock s)
                            ("Cancelled by admin: " +:+ reason) admin] /\
     (if inventory_deducted order
      then (forall p, (stock_of s' (o_merchant_id order) p
                       == stock_of s (o_merchant_id order) p + demand p (items order))%Q) /\
           inventory_deducted o' = (if decide (items order = []) then false else true)
      else products s' = products s /\ inventory_deducted o' = false)).
Proof.
  intros Hid Ha Ho Hok Hoo Hnn Hall. split.
  - intros Hst. unfold force_cancel_order_admin. rewrite Ha. simpl.
    unfold async_with_order_lock. unfold bind at 1. unfold modify at 1.
    rewrite (bind_ok _ _ _ (get_order_run _ _)).
    change (orders (set_lock_acquisitions (cons "_order_lock") s)) with (orders s).
    rewrite Ho. rewrite (bool_decide_eq_true_2 _ Hst). reflexivity.
  - intros Hst. unfold force_cancel_order_admin. rewrite Ha. simpl.
    unfold async_with_order_lock. unfold bind at 1. unfold modify at 1.
    set (s2 := set_lock_acquisitions (cons "_order_lock") s).
    rewrite (bind_ok _ _ _ (get_order_run _ _)).
    change (orders s2) with (orders s). rewrite Ho.
    assert (Hb : bool_decide (status order ∈ [CANCELLED; COMPLETED]) = false)
      by (apply bool_decide_eq_false; exact Hst).
    rewrite Hb.
    destruct (inventory_deducted order) eqn:Hded.
    + assert (Hnum : Forall (fun it => is_Some (item_qty it)) (items order)).
      { eapply Forall_impl; [exact Hall|]. intros it (q & Hq & _). eauto. }
      destruct (@rollback_run (o_merchant_id order) "admin_forced_cancel_rollback"
                  "admin" (item_returns (items order)) s2 Hok
                  (fun p => stock_of_nonneg _ p Hnn) (item_returns_returnable Hall))
        as (rs & s3 & Hroll & Hrs & Hstep).
      assert (Hoo3 : orders_ok s3) by (eapply orders_ok_frame; [apply Hstep | exact Hoo]).
      assert (Ho3 : orders s3 !! id = Some order).
      { destruct Hstep as ((_ & -> & _) & _). exact Ho. }
      assert (Hc3 : clock s3 = clock s) by apply Hstep.
      assert (Hret : try_except
                (qs <- lift (index_quantities (items order)) ;;
                 results <- gather_return_exceptions
                              (rollback_tasks (o_merchant_id order)
                                 "admin_forced_cancel_rollback" "admin" qs) ;;
                 failed <- lift (any_not_success results) ;;
                 if failed : bool then ret false else ret true)
                (fun _ => ret false) s2
              = (Ok (if decide (items order = []) then true else false), s3)).
      { unfold try_except.
        rewrite (index_quantities_numeric Hnum).
        unfold bind at 1. unfold lift at 1.
        unfold rollback_tasks. rewrite (bind_ok _ _ _ Hroll).
        rewrite Hrs. unfold item_returns. rewrite map_map.
        unfold bind, lift.
        destruct (decide (items order = [])) as [E|E].
        - rewrite E. reflexivity.
        - rewrite (any_not_success_raises E). reflexivity. }
      rewrite (bind_ok _ _ _ Hret).
      unfold bind at 1. unfold get_state at 1.
      rewrite (bind_ok _ _ _ (@update_order_run id _ order s3 Hid Hoo3 Ho3)).
      rewrite get_order_run. simpl. rewrite lookup_insert_eq.
      do 2 eexists. split; [reflexivity|]. simpl.
      split; [destruct Hstep as ((_ & -> & _) & _); reflexivity|].
      split; [destruct (decide (items order = [])); reflexivity|].
      split; [rewrite Hc3; destruct (decide (items order = [])); reflexivity|].
      split.
      * intros p. unfold stock_of at 1. simpl.
        fold (stock_of s3 (o_merchant_id order) p).
        destruct Hstep as (_ & _ & Hs & _). rewrite Hs.
        rewrite total_item_returns.
        unfold stock_of. simpl. reflexivity.
      * destruct (decide (items order = [])); [reflexivity|].
        simpl. exact Hded.
    + unfold bind at 1. unfold ret at 1.
      unfold bind at 1. unfold get_state at 1.
      assert (Hoo2 : orders_ok s2) by exact Hoo.
      rewrite (bind_ok _ _ _ (@update_order_run id _ order s2 Hid Hoo2 Ho)).
      rewrite get_order_run. simpl. rewrite lookup_insert_eq.
      do 2 eexists. split; [reflexivity|]. simpl. rewrite Hded. auto 10.
Qed.

(** X19 at work. *)
Lemma force_cancel_order_admin_cancels_witness :
  let order := Scenario.an_order [rice_line 4] ACCEPTED true in
  let s := Scenario.shop_with 6 Scenario.obliging order in
  exists o' s',
    force_cancel_order_admin "ORD-1" "root" "fraud" s = (Ok (Some o'), s') /\
    orders s' = <[ "ORD-1" := o' ]> (orders s) /\
    status o' = CANCELLED /\
    timeline o'
    = timeline order ++ [mkTimelineEntry CANCELLED (clock s)
                           "Cancelled by admin: fraud" "root"] /\
    (forall p, (stock_of s' "m1" p == stock_of s "m1" p + demand p [rice_line 4])%Q) /\
    inventory_deducted o' = true.
Proof.
  intros order s.
  destruct (@force_cancel_order_admin_cancels "ORD-1" "root" "fraud" order s)
    as (_ & Hopen).
  - reflexivity.
  - reflexivity.
  - reflexivity.
  - split; reflexivity.
  - reflexivity.
  - apply (@shop_nonneg 6%Q Scenario.obliging). discriminate.
  - repeat constructor. exists 4%Q. split; [reflexivity|].
    split; [discriminate|]. intros _. apply (@shop_has_rice 6%Q Scenario.obliging).
  - apply Hopen. intros Hin.
    apply elem_of_cons in Hin as [Hin|Hin]; [discriminate Hin|].
    apply elem_of_cons in Hin as [Hin|Hin]; [discriminate Hin|].
    apply elem_of_nil in Hin. exact Hin.
Defined.

End OrderFurther.

(** * Further properties of the Reminder System *)

Section ReminderFurther.

Import InventoryManagerV6.
Import OrderManagerV6 OrderStatus.

Section Expiry.

Import ReminderSystem.

(** What [_expire_order] does, case by case. *)
Lemma expire_order_fields order s :
  exists ns s',
    _expire_order order s = (Ok ns, s') /\
    outbox s' = outbox s /\ products s' = products s /\
    stock_movements s' = stock_movements s /\
    (ns = [] \/
     ns = [NotifyMerchantExpiry (o_merchant_id order) order;
           NotifyCustomerExpiry (customer_phone order) order]) /\
    (orders s' = orders s \/
     exists cur,
       orders s !! o_order_id order = Some cur /\
       (status cur ∈ [PENDING; "pending_confirmation"]) /\
       orders s' = <[ o_order_id order := expired_version (clock s) cur ]> (orders s)) /\
    (forall cur,
       str_truthy (o_order_id order) = true ->
       str_truthy (o_merchant_id order) = true ->
       str_truthy (customer_phone order) = true ->
       orders s !! o_order_id order = Some cur ->
       orders_update_one (driver s) = WriteApplied ->
       ns = [NotifyMerchantExpiry (o_merchant_id order) order;
             NotifyCustomerExpiry (customer_phone order) order] /\
       (status cur ∈ [PENDING; "pending_confirmation"] ->
        orders s' = <[ o_order_id order := expired_version (clock s) cur ]> (orders s)) /\
       (status cur ∉ [PENDING; "pending_confirmation"] -> orders s' = orders s)).
Proof.
  assert (Hquiet : forall s',
            outbox s' = outbox s -> products s' = products s ->
            stock_movements s' = stock_movements s -> orders s' = orders s ->
            (forall cur,
               str_truthy (o_order_id order) = true ->
               str_truthy (o_merchant_id order) = true ->
               str_truthy (customer_phone order) = true ->
               orders s !! o_order_id order = Some cur ->
               orders_update_one (driver s) = WriteApplied -> False) ->
            outbox s' = outbox s /\ products s' = products s /\
            stock_movements s' = stock_movements s /\
            (@nil Spawned = [] \/
             @nil Spawned = [NotifyMerchantExpiry (o_merchant_id order) order;
                             NotifyCustomerExpiry (customer_phone order) order]) /\
            (orders s' = orders s \/
             exists cur,
               orders s !! o_order_id order = Some cur /\
               (status cur ∈ [PENDING; "pending_confirmation"]) /\
               orders s' = <[ o_order_id order := expired_version (clock s) cur ]> (orders s)) /\
            (forall cur,
               str_truthy (o_order_id order) = true ->
               str_truthy (o_merchant_id order) = true ->
               str_truthy (customer_phone order) = true ->
               orders s !! o_order_id order = Some cur ->
               orders_update_one (driver s) = WriteApplied ->
               @nil Spawned = [NotifyMerchantExpiry (o_merchant_id order) order;
                               NotifyCustomerExpiry (customer_phone order) order] /\
               (status cur ∈ [PENDING; "pending_confirmation"] ->
                orders s' = <[ o_order_id order := expired_version (clock s) cur ]> (orders s)) /\
               (status cur ∉ [PENDING; "pending_confirmation"] -> orders s' = orders s))).
  { intros s' H1 H2 H3 H4 H5. repeat (split; [assumption|]).
    split; [left; reflexivity|]. split; [left; assumption|].
    intros cur A B C D E. exfalso. eapply H5; eauto. }
  unfold _expire_order.
  destruct (str_truthy (o_order_id order)) eqn:Hid; simpl.
  2:{ exists [], s. split; [reflexivity|]. apply Hquiet; auto. intros; discriminate. }
  destruct (str_truthy (o_merchant_id order)) eqn:Hm; simpl.
  2:{ exists [], s. split; [reflexivity|]. apply Hquiet; auto. intros; discriminate. }
  destruct (str_truthy (customer_phone order)) eqn:Hph; simpl.
  2:{ exists [], s. split; [reflexivity|]. apply Hquiet; auto. intros; discriminate. }
  unfold expire_order. rewrite Hid. simpl.
  unfold async_with_order_lock.
  set (s2 := set_lock_acquisitions (cons "_order_lock") s).
  unfold try_except at 1.
  unfold bind at 1. unfold bind at 1. unfold modify at 1. fold s2.
  rewrite (bind_ok _ _ _ (get_order_run _ _)).
  change (orders s2) with (orders s).
  destruct (orders s !! o_order_id order) as [cur|] eqn:Hcur.
  2:{ exists [], s2. split; [reflexivity|]. apply Hquiet; auto. intros; discriminate. }
  destruct (bool_decide (status cur ∉ [PENDING; "pending_confirmation"])) eqn:Hst.
  { apply bool_decide_eq_true in Hst.
    eexists. exists s2. split; [reflexivity|].
    split; [reflexivity|]. split; [reflexivity|]. split; [reflexivity|].
    split; [right; reflexivity|]. split; [left; reflexivity|].
    intros cur' _ _ _ Hc _. inversion Hc; subst cur'.
    split; [reflexivity|]. split; [intros H; contradiction | reflexivity]. }
  apply bool_decide_eq_false in Hst.
  assert (Hin : status cur ∈ [PENDING; "pending_confirmation"]).
  { destruct (decide (status cur ∈ [PENDING; "pending_confirmation"]));
      [assumption|contradiction]. }
  unfold bind at 1. unfold get_state at 1.
  unfold try_except at 1. unfold update_order. rewrite Hid. simpl.
  unfold try_except at 1. unfold bind at 1. unfold bind at 1.
  rewrite db_update_order_eq.
  change (orders s2) with (orders s). change (driver s2) with (driver s).
  change (clock s2) with (clock s). rewrite Hcur.
  destruct (orders_update_one (driver s)) eqn:Hmode.
  - (* the write is applied *)
    unfold ret, DatabaseV6.get_order. simpl. rewrite lookup_insert_eq.
    unfold bind, ret. simpl.
    eexists. eexists. split; [reflexivity|]. simpl.
    split; [reflexivity|]. split; [reflexivity|]. split; [reflexivity|].
    split; [right; reflexivity|].
    split; [right; exists cur; auto|].
    intros cur' _ _ _ Hc _. inversion Hc; subst cur'.
    split; [reflexivity|]. split; [reflexivity | intros H; contradiction].
  - (* the write is lost *)
    unfold ret, DatabaseV6.get_order. simpl. rewrite Hcur.
    unfold bind, ret. simpl.
    eexists. eexists. split; [reflexivity|]. simpl.
    split; [reflexivity|]. split; [reflexivity|]. split; [reflexivity|].
    split; [right; reflexivity|]. split; [left; reflexivity|].
    intros cur' _ _ _ _ H. discriminate.
  - (* the write raises *)
    unfold raise, ret. simpl.
    unfold get_order. rewrite Hid. simpl.
    unfold try_except, bind. rewrite get_order_run.
    change (orders s2) with (orders s). rewrite Hcur.
    assert (Hne : String.eqb (status cur) "expired" = false).
    { apply String.eqb_neq. intros E. rewrite E in Hin.
      rewrite !elem_of_cons, elem_of_nil in Hin.
      unfold PENDING in Hin. intuition discriminate. }
    unfold ret. rewrite Hne.
    exists [], s2. split; [reflexivity|]. apply Hquiet; auto.
    intros; discriminate.
Qed.

(** The part of [_check_and_process_expiry] that follows the choice of
    the expiry time. *)
Lemma check_expiry_run ttl order now s :
  exists early,
    (early = [] \/ exists u, early = [UpdateOrderTask (o_order_id order) u]) /\
    match effective_expiry ttl order with
    | Some t =>
        if (t <=? now)%Z then
          _check_and_process_expiry ttl order now s
          = bind (_expire_order order) (fun ns => ret (true, early ++ ns)) s
        else _check_and_process_expiry ttl order now s = (Ok (false, early), s)
    | None => _check_and_process_expiry ttl order now s = (Ok (false, early), s)
    end.
Proof.
  unfold _check_and_process_expiry, effective_expiry.
  destruct (time_falsy (expiry_time order)) eqn:Hf.
  - destruct (created_at order) as [|c|t].
    + exists []. split; [left; reflexivity | reflexivity].
    + eexists. split; [right; eexists; reflexivity|].
      destruct (c + ttl * 3600 <=? now)%Z; reflexivity.
    + exists []. split; [left; reflexivity | reflexivity].
  - exists []. split; [left; reflexivity|].
    destruct (expiry_time order) as [|t|t]; try reflexivity.
    destruct (t <=? now)%Z; reflexivity.
Qed.

(** A check for reminders leaves the status and the timeline of every
    order as they are. *)
Lemma reminders_keep_status ivs order now s :
  exists s',
    _check_and_process_reminders ivs order now s = (Ok tt, s') /\
    products s' = products s /\
    forall id,
      status <$> orders s' !! id = status <$> orders s !! id /\
      timeline <$> orders s' !! id = timeline <$> orders s !! id.
Proof.
  unfold _check_and_process_reminders.
  destruct (created_at order) as [|created|t];
    try (exists s; split; [reflexivity|]; split; [reflexivity|]; intros; split; reflexivity).
  destruct (next_reminder ivs (hours_elapsed now created) (sent_reminders order))
    as [h|];
    [|exists s; split; [reflexivity|]; split; [reflexivity|]; intros; split; reflexivity].
  destruct (send_reminder_cases order h s) as [Hsend|[to_phone Hsend]];
    rewrite (bind_ok _ _ _ Hsend).
  - exists s. split; [reflexivity|]. split; [reflexivity|]. intros; split; reflexivity.
  - destruct (record_reminder_cases (o_order_id order) h
                (set_outbox (fun l => l ++ [ReminderMsg to_phone (o_order_id order) h]) s))
      as (s' & Hrec & _ & Hord).
    exists s'. split; [exact Hrec|].
    assert (Hp : products s' = products s).
    { unfold try_except in Hrec.
      destruct (update_order (o_order_id order) _ _) as [r s3] eqn:Hu.
      apply om_update_order_cases in Hu as [->|(_ & o & _ & ->)];
        destruct r; inversion Hrec; subst; reflexivity. }
    split; [exact Hp|].
    intros id. destruct Hord as [->|(o & Ho & ->)]; [split; reflexivity|].
    simpl in Ho. simpl.
    destruct (decide (id = o_order_id order)) as [->|Hne].
    + rewrite lookup_insert_eq, Ho. split; reflexivity.
    + rewrite lookup_insert_ne by congruence. split; reflexivity.
Qed.

End Expiry.
Section ExpiryTheorems.

Import ReminderSystem.

(** X20.  When the expiry time of an order with an id (its own, or creation time
    plus the time to live when it has none) has come,
    [_process_single_order] does not raise, hands no reminder to the
    gateway and changes no product; the order collection is unchanged or
    the stored order, if pending, is rewritten as expired.  When the order
    has a merchant and a customer phone and is stored pending on a store
    that applies order writes, it is rewritten as expired and the
    coroutines scheduled end with the notification of the merchant and the
    notification of the customer. *)
Theorem order_past_expiry_is_expired_not_reminded (ivs : list Z) (ttl now t : Z)
    (order : Order) (s : State) :
  str_truthy (o_order_id order) = true ->
  effective_expiry ttl order = Some t -> (t <= now)%Z ->
  let run := _process_single_order ivs ttl order now s in
  (exists spawned, run.1 = Ok spawned) /\
  outbox run.2 = outbox s /\ products run.2 = products s /\
  (orders run.2 = orders s \/
   exists cur,
     orders s !! o_order_id order = Some cur /\
     (status cur ∈ [PENDING; "pending_confirmation"]) /\
     orders run.2 = <[ o_order_id order := expired_version (clock s) cur ]> (orders s)) /\
  (forall cur,
     str_truthy (o_merchant_id order) = true ->
     str_truthy (customer_phone order) = true ->
     orders s !! o_order_id order = Some cur -> orders_ok s ->
     status cur ∈ [PENDING; "pending_confirmation"] ->
     orders run.2 = <[ o_order_id order := expired_version (clock s) cur ]> (orders s) /\
     exists early,
       Forall (fun task => ~ is_expiry_notification task) early /\
       run.1 = Ok (early ++ [NotifyMerchantExpiry (o_merchant_id order) order;
                             NotifyCustomerExpiry (customer_phone order) order])).
Proof.
  intros Hid Heff Ht run. subst run.
  unfold _process_single_order. rewrite Hid. simpl.
  destruct (check_expiry_run ttl order now s) as (early & Hearly & Hrun).
  rewrite Heff in Hrun. apply Z.leb_le in Ht. rewrite Ht in Hrun.
  destruct (expire_order_fields order s)
    as (ns & s' & Hexp & Hout & Hprod & _ & Hns & Hord & Hfull).
  rewrite (bind_ok _ _ _ Hexp) in Hrun.
  unfold try_except. rewrite (bind_ok _ _ _ Hrun). simpl.
  split; [eauto|]. split; [exact Hout|]. split; [exact Hprod|].
  split; [exact Hord|].
  intros cur Hm Hph Hcur Hok Hst.
  destruct (Hfull cur Hid Hm Hph Hcur Hok) as (-> & Hw & _).
  split; [apply Hw; exact Hst|].
  exists early. split; [|reflexivity].
  destruct Hearly as [->|[u ->]]; [constructor|].
  constructor; [simpl; tauto | constructor].
Qed.

(** X20 at work. *)
Lemma order_past_expiry_is_expired_not_reminded_witness :
  let order := pending_order_for_4 in
  let s := Scenario.shop_with 10 Scenario.obliging order in
  let run := _process_single_order [2; 6; 24]%Z 24 order 90000 s in
  (exists spawned, run.1 = Ok spawned) /\
  outbox run.2 = outbox s /\ products run.2 = products s /\
  (orders run.2 = orders s \/
   exists cur,
     orders s !! "ORD-1" = Some cur /\
     (status cur ∈ [PENDING; "pending_confirmation"]) /\
     orders run.2 = <[ "ORD-1" := expired_version (clock s) cur ]> (orders s)) /\
  (forall cur,
     str_truthy "m1" = true ->
     str_truthy "+919999999999" = true ->
     orders s !! "ORD-1" = Some cur -> orders_ok s ->
     status cur ∈ [PENDING; "pending_confirmation"] ->
     orders run.2 = <[ "ORD-1" := expired_version (clock s) cur ]> (orders s) /\
     exists early,
       Forall (fun task => ~ is_expiry_notification task) early /\
       run.1 = Ok (early ++ [NotifyMerchantExpiry "m1" order;
                             NotifyCustomerExpiry "+919999999999" order])).
Proof.
  intros order s.
  apply (@order_past_expiry_is_expired_not_reminded [2; 6; 24]%Z 24 90000 86400 order s).
  - reflexivity.
  - reflexivity.
  - lia.
Defined.

(** X21.  When the expiry time of an order has not come (or cannot be
    determined), [_process_single_order] does not raise, schedules no
    expiry notification, changes no product, and changes the status and
    the timeline of no order. *)
Theorem order_before_expiry_is_left_alone (ivs : list Z) (ttl now : Z)
    (order : Order) (s : State) :
  match effective_expiry ttl order with
  | Some t => (now < t)%Z
  | None => True
  end ->
  let run := _process_single_order ivs ttl order now s in
  (exists spawned,
     run.1 = Ok spawned /\ Forall (fun task => ~ is_expiry_notification task) spawned) /\
  products run.2 = products s /\
  forall id,
    status <$> orders run.2 !! id = status <$> orders s !! id /\
    timeline <$> orders run.2 !! id = timeline <$> orders s !! id.
Proof.
  intros Heff run. subst run.
  unfold _process_single_order.
  destruct (negb (str_truthy (o_order_id order))).
  { simpl. split; [exists []; split; [reflexivity | constructor]|].
    split; [reflexivity|]. intros; split; reflexivity. }
  destruct (check_expiry_run ttl order now s) as (early & Hearly & Hrun).
  assert (Hrun' : _check_and_process_expiry ttl order now s = (Ok (false, early), s)).
  { destruct (effective_expiry ttl order) as [t|]; [|exact Hrun].
    destruct (Z.leb_spec t now); [lia | exact Hrun]. }
  clear Hrun.
  destruct (reminders_keep_status ivs order now s) as (s' & Hrem & Hprod & Hord).
  unfold try_except. rewrite (bind_ok _ _ _ Hrun'). simpl.
  rewrite (bind_ok _ _ _ Hrem). simpl.
  split; [|split; [exact Hprod | exact Hord]].
  exists early. split; [reflexivity|].
  destruct Hearly as [->|[u ->]]; [constructor|].
  constructor; [simpl; tauto | constructor].
Qed.

(** X21 at work. *)
Lemma order_before_expiry_is_left_alone_witness :
  let order := pending_order_for_4 in
  let s := Scenario.shop_with 10 Scenario.obliging order in
  let run := _process_single_order [2; 6; 24]%Z 24 order 25200 s in
  (exists spawned,
     run.1 = Ok spawned /\ Forall (fun task => ~ is_expiry_notification task) spawned) /\
  products run.2 = products s /\
  forall id,
    status <$> orders run.2 !! id = status <$> orders s !! id /\
    timeline <$> orders run.2 !! id = timeline <$> orders s !! id.
Proof.
  intros order s.
  apply (@order_before_expiry_is_left_alone [2; 6; 24]%Z 24 25200 order s).
  simpl. lia.
Defined.

End ExpiryTheorems.

Section Intervals.

Import ReminderSystem.

Lemma insert_sorted_perm h l : insert_sorted h l ≡ₚ h :: l.
Proof.
  induction l as [|x rest IH]; simpl; [reflexivity|].
  destruct (h <=? x)%Z; [reflexivity|].
  rewrite IH. apply Permutation_swap.
Qed.

Lemma sorted_perm l : sorted l ≡ₚ l.
Proof.
  induction l as [|x rest IH]; simpl; [reflexivity|].
  unfold sorted in *. simpl. rewrite insert_sorted_perm, IH. reflexivity.
Qed.

End Intervals.

(** X22.  The reminder intervals that [__init__] fixes: without a list,
    or with an empty one, they are [2; 6; 24]; with a list that holds a
    value that is zero or negative the constructor raises [ValueError]; any
    other list is kept as a whole (same values, same number of times), in
    ascending order, and all its values are positive. *)
Theorem reminder_intervals_are_validated (arg : option (list Z)) :
  match ReminderSystem.init_reminder_intervals arg with
  | Ok ivs =>
      StronglySorted Z.le ivs /\ Forall (fun h => (0 < h)%Z) ivs /\
      match arg with
      | Some (h :: rest) => ivs ≡ₚ h :: rest
      | Some [] | None => ivs = [2; 6; 24]%Z
      end
  | Raise e =>
      exists l msg, arg = Some l /\ Exists (fun h => (h <= 0)%Z) l /\ e = ValueError msg
  end.
Proof.
  unfold ReminderSystem.init_reminder_intervals.
  destruct arg as [[|h rest]|].
  - split; [repeat constructor; lia|]. split; [repeat constructor; lia | reflexivity].
  - destruct (existsb (fun h0 => (h0 <=? 0)%Z) (h :: rest)) eqn:E.
    + exists (h :: rest). eexists. split; [reflexivity|]. split; [|reflexivity].
      apply existsb_exists in E as (x & Hin & Hx).
      apply Exists_exists. exists x. split; [apply list_elem_of_In; exact Hin|].
      apply Z.leb_le. exact Hx.
    + split; [apply sorted_sorted|]. split; [|apply sorted_perm].
      apply Forall_forall. intros x Hx.
      apply (proj1 (sorted_elem (h :: rest) x)) in Hx.
      destruct (Z.leb_spec x 0) as [Hle|Hgt]; [|exact Hgt].
      exfalso. apply not_true_iff_false in E. apply E.
      apply existsb_exists. exists x. split; [apply list_elem_of_In; exact Hx|].
      apply Z.leb_le. exact Hle.
  - split; [repeat constructor; lia|]. split; [repeat constructor; lia | reflexivity].
Qed.

End ReminderFurther.
